(** * pydyf, a low-level PDF generator: a model of [pydyf/__init__.py]

    Definitions, in the order of the Python module:
    - byte strings, text and exceptions; the formatting of numbers by
      f-strings, with floats as binary64 values; the text codecs;
    - the object model ([Object], [Dictionary], [Stream], [String],
      [Array]) with the value encoder [_to_bytes] and [data], parameterised
      by the [zlib] encoder;
    - [Stream.data] on a store where the token list and [extra] are
      mutable containers;
    - the document ([PDF]) on a heap of objects, and the writer as programs
      on the heap and the document, with the output sink as the bytes it
      received;
    - the methods of [Stream] that append an operator to a content stream.

    Properties: the shape of encoded numbers, [String.data],
    [Dictionary.data], [Stream.data], object numbering, and the offsets and
    the cross-reference table that [write] emits; then [Array.data],
    exceptions, the whole output of [write], pages, references, the
    readers of rows and of hexadecimal strings, and the content stream
    builder. *)

From Stdlib Require Import ZArith NArith List Ascii String Lia Bool.
From Stdlib Require Import Floats.SpecFloat.
From stdpp Require Import base list.

Import ListNotations.
Local Open Scope Z_scope.

(** ** Byte strings and text *)

(** Python [bytes]: a sequence of 8-bit characters. *)
Definition bytes := list ascii.

(** The literal [b'...']. *)
Definition B (s : string) : bytes := list_ascii_of_string s.

(** The newline byte, [b'\n']. *)
Definition nl : ascii := ascii_of_N 10.

(** Python [str]: a sequence of Unicode code points.  A [str] may hold any
    code point up to U+10FFFF, lone surrogates included. *)
Definition pystr := list N.

(** The text literal ['...'] for characters below U+0100. *)
Definition U (s : string) : pystr := map N_of_ascii (list_ascii_of_string s).

Definition pystr_eqb (a b : pystr) : bool := bool_decide (a = b).

(** [len(x)] as a Python integer. *)
Definition len {A} (l : list A) : Z := Z.of_nat (length l).

(** [sep.join(parts)]. *)
Fixpoint join (sep : bytes) (parts : list bytes) : bytes :=
  match parts with
  | [] => []
  | [p] => p
  | p :: rest => p ++ sep ++ join sep rest
  end.

(** [data.split(b'\n')]: the pieces between separators, at least one. *)
Fixpoint split_lines (data : bytes) : list bytes :=
  match data with
  | [] => [[]]
  | c :: rest =>
      if Ascii.eqb c nl then [] :: split_lines rest
      else match split_lines rest with
           | [] => [[c]]
           | line :: lines => (c :: line) :: lines
           end
  end.

(** ** Exceptions *)

Inductive exn :=
| NotImplementedError
| UnicodeEncodeError
| KeyError
| TypeError
| AttributeError
| DanglingReference. (* a location outside the heap: no Python counterpart *)

Inductive result (A : Type) :=
| Ok (a : A)
| Raise (e : exn).
Arguments Ok {A} a.
Arguments Raise {A} e.

Definition rbind {A B} (r : result A) (k : A -> result B) : result B :=
  match r with
  | Ok a => k a
  | Raise e => Raise e
  end.

Notation "'let*' x ':=' r 'in' k" := (rbind r (fun x => k))
  (at level 10, x name, r at level 100, k at level 200).

Section MapM.
Context {A B : Type} (f : A -> result B).

(** Left-to-right evaluation; the first exception wins. *)
Fixpoint mapM (l : list A) : result (list B) :=
  match l with
  | [] => Ok []
  | a :: rest =>
      match f a with
      | Ok b => match mapM rest with
                | Ok bs => Ok (b :: bs)
                | Raise e => Raise e
                end
      | Raise e => Raise e
      end
  end.
End MapM.

(** ** State and exceptions *)

(** Programs on a state [S]; an exception keeps the state reached so far. *)
Definition ST (S A : Type) : Type := S -> result A * S.

Definition ret {S A} (a : A) : ST S A := fun s => (Ok a, s).

Definition bind {S A B} (m : ST S A) (k : A -> ST S B) : ST S B :=
  fun s => match m s with
           | (Ok a, s') => k a s'
           | (Raise e, s') => (Raise e, s')
           end.

Notation "'let!' x ':=' m 'in' k" := (bind m (fun x => k))
  (at level 10, x name, m at level 100, k at level 200).

Definition lift {S A} (r : result A) : ST S A := fun s => (r, s).

(** ** Number formatting *)

Definition digit (d : N) : ascii := ascii_of_N (48 + d).

(** Decimal digits of [n], most significant first, pushed in front of [acc]. *)
Fixpoint dec_digits (fuel : nat) (n : N) (acc : bytes) : bytes :=
  match fuel with
  | O => acc
  | S fuel' =>
      let acc' := digit (n mod 10) :: acc in
      if (n / 10 =? 0)%N then acc' else dec_digits fuel' (n / 10) acc'
  end.

(** A number has no more decimal digits than binary ones. *)
Definition dec_of_N (n : N) : bytes := dec_digits (S (N.to_nat (N.log2 n))) n [].

(** [f'{z:d}'] and [str(z)] for an [int]. *)
Definition dec_of_Z (z : Z) : bytes :=
  if z <? 0 then B "-" ++ dec_of_N (Z.abs_N z) else dec_of_N (Z.abs_N z).

(** [f'{z:0w}']: sign-aware zero padding to a minimal width [w]. *)
Definition zero_padded (w : nat) (z : Z) : bytes :=
  let sign := if z <? 0 then B "-" else [] in
  let digits := dec_of_N (Z.abs_N z) in
  sign ++ repeat (digit 0) (w - length sign - length digits) ++ digits.

(** *** Floats

    A Python [float] is an IEEE 754 binary64 number; [spec_float] gives its
    sign, mantissa and exponent: [S754_finite s m e] is [(-1)^s * m * 2^e]. *)

Definition float_is_integer (x : spec_float) : bool :=
  match x with
  | S754_zero _ => true
  | S754_infinity _ | S754_nan => false
  | S754_finite _ m e =>
      if 0 <=? e then true else (Z.pos m mod 2 ^ (- e) =? 0)
  end.

(** [int(x)] for a float with [x.is_integer()]. *)
Definition float_to_int (x : spec_float) : Z :=
  match x with
  | S754_finite s m e =>
      let v := if 0 <=? e then Z.pos m * 2 ^ e else Z.pos m / 2 ^ (- e) in
      if s then - v else v
  | _ => 0
  end.

(** Round the non-negative rational [num / den] to the nearest integer,
    ties to even. *)
Definition round_half_even (num den : Z) : Z :=
  let q := num / den in
  let r := num mod den in
  if 2 * r <? den then q
  else if den <? 2 * r then q + 1
  else if Z.even q then q else q + 1.

(** [f'{x:f}']: six digits after the point, correctly rounded. *)
Definition format_f (x : spec_float) : bytes :=
  match x with
  | S754_nan => B "nan"
  | S754_infinity s => if s then B "-inf" else B "inf"
  | S754_zero s => (if s then B "-" else []) ++ B "0.000000"
  | S754_finite s m e =>
      let scaled :=
        if 0 <=? e then Z.pos m * 2 ^ e * 10 ^ 6
        else round_half_even (Z.pos m * 10 ^ 6) (2 ^ (- e)) in
      (if s then B "-" else [])
        ++ dec_of_N (Z.to_N (scaled / 10 ^ 6))
        ++ B "." ++ zero_padded 6 (scaled mod 10 ^ 6)
  end.

(** ** Text encodings *)

(** [s.encode('ascii')] *)
Definition encode_ascii (s : pystr) : result bytes :=
  if forallb (fun c => c <? 128)%N s then Ok (map ascii_of_N s)
  else Raise UnicodeEncodeError.

Definition is_surrogate (c : N) : bool := ((55296 <=? c) && (c <=? 57343))%N.

(** The two bytes of a 16-bit code unit, high byte first. *)
Definition code_unit_be (u : N) : bytes :=
  [ascii_of_N (u / 256); ascii_of_N (u mod 256)].

(** [s.encode('utf-16-be')]: the codec refuses surrogate code points. *)
Fixpoint encode_utf_16_be (s : pystr) : result bytes :=
  match s with
  | [] => Ok []
  | c :: rest =>
      if is_surrogate c then Raise UnicodeEncodeError
      else
        let units :=
          if (c <? 65536)%N then code_unit_be c
          else code_unit_be (55296 + (c - 65536) / 1024)
                 ++ code_unit_be (56320 + (c - 65536) mod 1024) in
        let* tail := encode_utf_16_be rest in
        Ok (units ++ tail)
  end.

(** [codecs.BOM_UTF16_BE] *)
Definition BOM_UTF16_BE : bytes := [ascii_of_N 254; ascii_of_N 255].

Definition hex_digit (d : N) : ascii :=
  if (d <? 10)%N then ascii_of_N (48 + d) else ascii_of_N (87 + d).

(** [data.hex().encode('ascii')] *)
Definition hex (data : bytes) : bytes :=
  flat_map (fun c => [hex_digit (N_of_ascii c / 16); hex_digit (N_of_ascii c mod 16)]) data.

(** [data.decode('utf-16-be')], [None] for ill-formed data: the reader of
    what [encode_utf_16_be] writes. *)
Fixpoint decode_utf_16_be (data : bytes) : option pystr :=
  match data with
  | [] => Some []
  | hi :: lo :: rest =>
      let u := (256 * N_of_ascii hi + N_of_ascii lo)%N in
      if ((55296 <=? u) && (u <=? 56319))%N then
        match rest with
        | hi2 :: lo2 :: rest' =>
            let u2 := (256 * N_of_ascii hi2 + N_of_ascii lo2)%N in
            if ((56320 <=? u2) && (u2 <=? 57343))%N then
              option_map (cons (65536 + (u - 55296) * 1024 + (u2 - 56320))%N)
                         (decode_utf_16_be rest')
            else None
        | _ => None
        end
      else if is_surrogate u then None
      else option_map (cons u) (decode_utf_16_be rest)
  | [_] => None
  end.

(** ** Python [dict]: insertion-ordered, one entry per key *)

Section Dict.
Context {V : Type}.

(** [d[k]] *)
Fixpoint dict_get (d : list (pystr * V)) (k : pystr) : option V :=
  match d with
  | [] => None
  | (k', v) :: rest => if pystr_eqb k' k then Some v else dict_get rest k
  end.

(** [d[k] = v]: an existing key keeps its place, a new key goes last. *)
Fixpoint dict_set (d : list (pystr * V)) (k : pystr) (v : V) : list (pystr * V) :=
  match d with
  | [] => [(k, v)]
  | (k', v') :: rest =>
      if pystr_eqb k' k then (k', v) :: rest else (k', v') :: dict_set rest k v
  end.

(** [dict(pairs)]: the entries inserted one after the other. *)
Definition dict_of (pairs : list (pystr * V)) : list (pystr * V) :=
  fold_left (fun d kv => dict_set d (fst kv) (snd kv)) pairs [].
End Dict.

(** ** The object model *)

(** [Object.free]: ['n'] for an object in use, ['f'] for a free one. *)
Inductive free_flag := InUse | IsFree.

Definition free_char (f : free_flag) : bytes :=
  match f with InUse => B "n" | IsFree => B "f" end.

(** The attributes set by [Object.__init__]. *)
Record header := {
  number : option Z;      (* None until the object is registered *)
  offset : Z;
  generation : Z;
  free : free_flag;
}.

Definition Object_init : header :=
  {| number := None; offset := 0; generation := 0; free := InUse |}.

(** Values handed to [_to_bytes]: bytes, floats, ints, text, [None] (as
    the instance of the last, any-other-type branch) and objects; an object
    is its attributes and the state of its class. *)
Inductive value :=
| VBytes (b : bytes)
| VFloat (x : spec_float)
| VInt (z : Z)
| VStr (s : pystr)
| VNone
| VObj (h : header) (b : body)
with body :=
| BObject
| BDictionary (items : list (pystr * value))
| BStream (stream : list value) (extra : list (pystr * value)) (compress : bool)
| BString (string : pystr)
| BArray (items : list value).

(** [str(x)] for an attribute that is an [int] or [None]. *)
Definition str_opt (n : option Z) : bytes :=
  match n with
  | Some z => dec_of_Z z
  | None => B "None"
  end.

(** [Dictionary.data] from the entries with their values' encodings: every
    key is encoded, then its value's encoding is taken, in order. *)
Definition dict_data_of (entries : list (pystr * result bytes)) : result bytes :=
  let* lines :=
    mapM (fun kv => let* k := encode_ascii (fst kv) in
                    let* v := snd kv in
                    Ok (B "/" ++ k ++ B " " ++ v)) entries in
  Ok (join [nl] (B "<<" :: lines ++ [B ">>"])).

(** [String.data] *)
Definition String_data (string : pystr) : result bytes :=
  match encode_ascii string with
  | Ok b => Ok (B "(" ++ b ++ B ")")
  | Raise UnicodeEncodeError =>
      let* encoded := encode_utf_16_be string in
      Ok (B "<" ++ hex (BOM_UTF16_BE ++ encoded) ++ B ">")
  | Raise e => Raise e
  end.

Section Pydyf.
(** [zlib.compressobj()]: [compress] then [flush] of one buffer. *)
Variable zlib_compress : bytes -> bytes.

(** [_to_bytes] and the [data] property of each class. *)
Fixpoint to_bytes (item : value) : result bytes :=
  match item with
  | VBytes b => Ok b
  | VObj _ b => data b
  | VFloat x =>
      if float_is_integer x then Ok (dec_of_Z (float_to_int x))
      else Ok (format_f x)
  | VInt z => Ok (dec_of_Z z)
  | VStr s => encode_ascii s
  | VNone => Ok (B "None")
  end
with data (b : body) : result bytes :=
  match b with
  | BObject => Raise NotImplementedError
  | BDictionary items =>
      dict_data_of (map (fun kv => (fst kv, to_bytes (snd kv))) items)
  | BStream stream extra compress =>
      let* tokens := mapM to_bytes stream in
      let stream := join [nl] tokens in
      let extra := map (fun kv => (fst kv, to_bytes (snd kv))) extra in
      let extra :=
        if compress then dict_set extra (U "Filter") (Ok (B "/FlateDecode"))
        else extra in
      let stream := if compress then zlib_compress stream else stream in
      let extra := dict_set extra (U "Length") (Ok (dec_of_Z (len stream))) in
      let* extra_data := dict_data_of extra in
      Ok (join [nl] [extra_data; B "stream"; stream; B "endstream"])
  | BString string => String_data string
  | BArray items =>
      let* children := mapM to_bytes items in
      Ok (join (B " ") (B "[" :: children ++ [B "]"]))
  end.

(** [Object.indirect] *)
Definition indirect (h : header) (b : body) : result bytes :=
  let first := str_opt (number h) ++ B " " ++ dec_of_Z (generation h) ++ B " obj" in
  let* d := data b in
  Ok (join [nl] [first; d; B "endobj"]).

(** [Object.reference] *)
Definition reference (h : header) : bytes :=
  str_opt (number h) ++ B " " ++ dec_of_Z (generation h) ++ B " R".

(** ** [Stream.data] on mutable containers

  A [Stream] holds references to a token list and to an [extra] mapping
  that its caller may share; containers are the cells of a store.  The
  model covers a token container that is a list and an [extra] that is a
  mapping, the kinds that [Stream.__init__] gives them by default, and
  the statements are about stores where the two cells are of these
  kinds.  A cell of the other kind ends a program of the model with
  [TypeError]; Python iterates over the keys of a mapping and copies a
  list, which the model leaves out. *)

Inductive cell :=
| CList (items : list value)
| CDict (items : list (pystr * value)).

Record Stream := { stream : nat; extra : nat; compress : bool }.

Definition get_cell (l : nat) : ST (list cell) cell :=
fun s => match s !! l with
         | Some c => (Ok c, s)
         | None => (Raise DanglingReference, s)
         end.

Definition new_cell (c : cell) : ST (list cell) nat :=
fun s => (Ok (length s), s ++ [c]).

(** Iterating over a list. *)
Definition list_items (l : nat) : ST (list cell) (list value) :=
let! c := get_cell l in
match c with
| CList items => ret items
| CDict _ => lift (Raise TypeError)
end.

(** The entries of a mapping. *)
Definition dict_items (l : nat) : ST (list cell) (list (pystr * value)) :=
let! c := get_cell l in
match c with
| CDict items => ret items
| CList _ => lift (Raise TypeError)
end.

(** [d[key] = v], in place. *)
Definition dict_setitem (l : nat) (key : pystr) (v : value) : ST (list cell) unit :=
let! items := dict_items l in
fun s => (Ok tt, <[l := CDict (dict_set items key v)]> s).

(** [d.copy()] and [Dictionary(d)]: a new mapping with the entries of [d]. *)
Definition dict_copy (l : nat) : ST (list cell) nat :=
let! items := dict_items l in
new_cell (CDict items).

(** [Stream.data] *)
Definition Stream_data (self : Stream) : ST (list cell) bytes :=
let! items := list_items (stream self) in
let! tokens := lift (mapM to_bytes items) in
let stream_ := join [nl] tokens in
let! copy := dict_copy (extra self) in
let! extra_ := dict_copy copy in
let! stream_ :=
  if compress self then
    let! _ := dict_setitem extra_ (U "Filter") (VStr (U "/FlateDecode")) in
    ret (zlib_compress stream_)
  else ret stream_ in
let! _ := dict_setitem extra_ (U "Length") (VInt (len stream_)) in
let! entries := dict_items extra_ in
let! extra_data := lift (data (BDictionary entries)) in
ret (join [nl] [extra_data; B "stream"; stream_; B "endstream"]).

(** ** The document

  Objects live in a heap and are named by their location; the document
  lists locations, so that an object registered twice is one object.
  Values nested in a container are held by value. *)

Record object := { hdr : header; bdy : body }.

(** The attributes of a [PDF] instance. *)
Record PDF := {
objects : list nat;
pages : nat;
info : nat;
catalog : nat;
current_position : Z;
xref_position : option Z;
}.

Record world := { heap : list object; pdf : PDF }.

(** Programs on the heap and the document. *)
Abbreviation M := (ST world).

Definition get_object (l : nat) : M object :=
fun w => match heap w !! l with
         | Some o => (Ok o, w)
         | None => (Raise DanglingReference, w)
         end.

Definition set_object (l : nat) (o : object) : M unit :=
fun w => (Ok tt, {| heap := <[l := o]> (heap w); pdf := pdf w |}).

(** A new object, at the next location of the heap. *)
Definition new_object (o : object) : M nat :=
fun w => (Ok (length (heap w)), {| heap := heap w ++ [o]; pdf := pdf w |}).

Definition get_pdf : M PDF := fun w => (Ok (pdf w), w).

Definition set_pdf (p : PDF) : M unit :=
fun w => (Ok tt, {| heap := heap w; pdf := p |}).

Definition set_number (n : Z) (o : object) : object :=
{| hdr := {| number := Some n; offset := offset (hdr o);
             generation := generation (hdr o); free := free (hdr o) |};
   bdy := bdy o |}.

Definition set_offset (pos : Z) (o : object) : object :=
{| hdr := {| number := number (hdr o); offset := pos;
             generation := generation (hdr o); free := free (hdr o) |};
   bdy := bdy o |}.

Definition set_bdy (b : body) (o : object) : object :=
{| hdr := hdr o; bdy := b |}.

Definition set_objects (ls : list nat) (p : PDF) : PDF :=
{| objects := ls; pages := pages p; info := info p; catalog := catalog p;
   current_position := current_position p; xref_position := xref_position p |}.

Definition set_current_position (pos : Z) (p : PDF) : PDF :=
{| objects := objects p; pages := pages p; info := info p; catalog := catalog p;
   current_position := pos; xref_position := xref_position p |}.

Definition set_xref_position (pos : Z) (p : PDF) : PDF :=
{| objects := objects p; pages := pages p; info := info p; catalog := catalog p;
   current_position := current_position p; xref_position := Some pos |}.

(** [PDF.add_object] *)
Definition add_object (object_ : nat) : M unit :=
let! o := get_object object_ in
let! p := get_pdf in
let! _ := set_object object_ (set_number (len (objects p)) o) in
set_pdf (set_objects (objects p ++ [object_]) p).

(** [x[key]] on an object: only a [Dictionary] maps text keys. *)
Definition getitem (b : body) (key : pystr) : result value :=
match b with
| BDictionary items =>
    match dict_get items key with
    | Some v => Ok v
    | None => Raise KeyError
    end
| _ => Raise TypeError
end.

(** [x[key] = v] *)
Definition setitem (b : body) (key : pystr) (v : value) : result body :=
match b with
| BDictionary items => Ok (BDictionary (dict_set items key v))
| _ => Raise TypeError
end.

(** [v + 1] *)
Definition add_one (v : value) : result value :=
match v with
| VInt z => Ok (VInt (z + 1))
| VFloat x => Ok (VFloat (SFadd 53 1024 x (SFone 53 1024)))
| _ => Raise TypeError
end.

(** [v.extend(more)], in place: only an [Array] has the method. *)
Definition extend (v : value) (more : list value) : result value :=
match v with
| VObj h (BArray items) => Ok (VObj h (BArray (items ++ more)))
| _ => Raise AttributeError
end.

(** [o.number] as a value. *)
Definition number_value (o : object) : value :=
match number (hdr o) with
| Some n => VInt n
| None => VNone
end.

(** [PDF.add_page] *)
Definition add_page (page : nat) : M unit :=
(* self.pages['Count'] += 1 *)
let! p := get_pdf in
let! pages_ := get_object (pages p) in
let! count := lift (getitem (bdy pages_) (U "Count")) in
let! count := lift (add_one count) in
let! b := lift (setitem (bdy pages_) (U "Count") count) in
let! _ := set_object (pages p) (set_bdy b pages_) in
(* self.add_object(page) *)
let! _ := add_object page in
(* self.pages['Kids'].extend([page.number, 0, 'R']) *)
let! pages_ := get_object (pages p) in
let! kids := lift (getitem (bdy pages_) (U "Kids")) in
let! page_ := get_object page in
let! kids := lift (extend kids [number_value page_; VInt 0; VStr (U "R")]) in
let! b := lift (setitem (bdy pages_) (U "Kids") kids) in
set_object (pages p) (set_bdy b pages_).

(** [PDF.__init__], in a heap that may hold other objects already. *)
Definition PDF_init : M unit :=
let! _ := set_pdf {| objects := []; pages := 0; info := 0; catalog := 0;
                     current_position := 0; xref_position := None |} in
let! zero_object :=
  new_object {| hdr := {| number := None; offset := 0;
                          generation := 65535; free := IsFree |};
                bdy := BObject |} in
let! _ := add_object zero_object in
let! pages_ :=
  new_object {| hdr := Object_init;
                bdy := BDictionary (dict_of
                  [(U "Type", VStr (U "/Pages"));
                   (U "Kids", VObj Object_init (BArray []));
                   (U "Count", VInt 0)]) |} in
let! p := get_pdf in
let! _ := set_pdf {| objects := objects p; pages := pages_; info := info p;
                     catalog := catalog p;
                     current_position := current_position p;
                     xref_position := xref_position p |} in
let! _ := add_object pages_ in
let! info_ := new_object {| hdr := Object_init; bdy := BDictionary (dict_of []) |} in
let! p := get_pdf in
let! _ := set_pdf {| objects := objects p; pages := pages p; info := info_;
                     catalog := catalog p;
                     current_position := current_position p;
                     xref_position := xref_position p |} in
let! _ := add_object info_ in
let! pages_obj := get_object pages_ in
let! catalog_ :=
  new_object {| hdr := Object_init;
                bdy := BDictionary (dict_of
                  [(U "Type", VStr (U "/Catalog"));
                   (U "Pages", VBytes (reference (hdr pages_obj)))]) |} in
let! p := get_pdf in
let! _ := set_pdf {| objects := objects p; pages := pages p; info := info p;
                     catalog := catalog_;
                     current_position := current_position p;
                     xref_position := xref_position p |} in
let! _ := add_object catalog_ in
let! p := get_pdf in
set_pdf {| objects := objects p; pages := pages p; info := info p;
           catalog := catalog p; current_position := 0; xref_position := None |}.

(** ** The writer

  The output sink is the sequence of bytes it has received; [write]
  appends to it. *)

(** [PDF.write_line] *)
Definition write_line (content output : bytes) : M bytes :=
let! p := get_pdf in
let! _ := set_pdf (set_current_position (current_position p + (len content + 1)) p) in
ret (output ++ content ++ [nl]).

Fixpoint write_lines (lines : list bytes) (output : bytes) : M bytes :=
match lines with
| [] => ret output
| line :: rest =>
    let! output := write_line line output in
    write_lines rest output
end.

(** [PDF.write_object] *)
Definition write_object (object_ : body) (output : bytes) : M bytes :=
let! d := lift (data object_) in
write_lines (split_lines d) output.

(** [PDF.write_header]: the second line is [b'%\xf0\x9f\x96\xa4']. *)
Definition write_header (output : bytes) : M bytes :=
let! output := write_line (B "%PDF-1.7") output in
write_line (B "%" ++ map ascii_of_N [240; 159; 150; 164]%N) output.

(** The loop of [PDF.write_body]. *)
Fixpoint write_body_loop (ls : list nat) (output : bytes) : M bytes :=
match ls with
| [] => ret output
| l :: rest =>
    let! object_ := get_object l in
    match free (hdr object_) with
    | IsFree => write_body_loop rest output
    | InUse =>
        let! p := get_pdf in
        let object_ := set_offset (current_position p) object_ in
        let! _ := set_object l object_ in
        let! content := lift (indirect (hdr object_) (bdy object_)) in
        let! output := write_line content output in
        write_body_loop rest output
    end
end.

(** [PDF.write_body] *)
Definition write_body (output : bytes) : M bytes :=
let! p := get_pdf in
write_body_loop (objects p) output.

(** One row of the cross-reference table, without its newline. *)
Definition xref_row (h : header) : bytes :=
zero_padded 10 (offset h) ++ B " " ++ zero_padded 5 (generation h) ++ B " "
  ++ free_char (free h) ++ B " ".

Fixpoint write_xref_loop (ls : list nat) (output : bytes) : M bytes :=
match ls with
| [] => ret output
| l :: rest =>
    let! object_ := get_object l in
    let! output := write_line (xref_row (hdr object_)) output in
    write_xref_loop rest output
end.

(** [PDF.write_cross_reference_table] *)
Definition write_cross_reference_table (output : bytes) : M bytes :=
let! p := get_pdf in
let! _ := set_pdf (set_xref_position (current_position p) p) in
let! output := write_line (B "xref") output in
let! p := get_pdf in
let! output := write_line (B "0 " ++ dec_of_Z (len (objects p))) output in
write_xref_loop (objects p) output.

(** [PDF.write_trailer] *)
Definition write_trailer (output : bytes) : M bytes :=
let! output := write_line (B "trailer") output in
let! p := get_pdf in
let! catalog_ := get_object (catalog p) in
let! info_ := get_object (info p) in
let! output :=
  write_object (BDictionary (dict_of
    [(U "Size", VInt (len (objects p)));
     (U "Root", VBytes (reference (hdr catalog_)));
     (U "Info", VBytes (reference (hdr info_)))])) output in
let! output := write_line (B "startxref") output in
let! p := get_pdf in
let! output := write_line (str_opt (xref_position p)) output in
write_line (B "%%EOF") output.

(** [PDF.write] *)
Definition write (output : bytes) : M bytes :=
let! output := write_header output in
let! output := write_body output in
let! output := write_cross_reference_table output in
write_trailer output.

(** [o.number] for the object at a location. *)
Definition number_at (w : world) (l : nat) : option Z :=
match heap w !! l with
| Some o => number (hdr o)
| None => None
end.

(** Object numbers are the indices in the list of objects. *)
Definition numbered (w : world) : Prop :=
forall i l, objects (pdf w) !! i = Some l -> number_at w l = Some (Z.of_nat i).

(** A world with no object, before any document is constructed. *)
Definition empty_world : world :=
{| heap := [];
   pdf := {| objects := []; pages := 0; info := 0; catalog := 0;
             current_position := 0; xref_position := None |} |}.

(** ** Vocabulary of the statements *)

(** A key and a value with their encodings. *)
Definition encodes_entry (kv : pystr * value) (e : bytes * bytes) : Prop :=
  encode_ascii (fst kv) = Ok (fst e) /\ to_bytes (snd kv) = Ok (snd e).

(** The copy of [extra] with the computed entries. *)
Definition Stream_extra (self : Stream) tokens (entries : list (pystr * value)) :=
  let raw := join [nl] tokens in
  let body := if compress self then zlib_compress raw else raw in
  let extra1 :=
    if compress self
    then dict_set entries (U "Filter") (VStr (U "/FlateDecode"))
    else entries in
  dict_set extra1 (U "Length") (VInt (len body)).

(** The encoding of a stream from its tokens and the entries of [extra]. *)
Definition Stream_encoding (self : Stream) tokens entries : result bytes :=
  let raw := join [nl] tokens in
  let body := if compress self then zlib_compress raw else raw in
  let* extra_data := data (BDictionary (Stream_extra self tokens entries)) in
  Ok (join [nl] [extra_data; B "stream"; body; B "endstream"]).

(** The objects of the list exist, and those in use have an encoding. *)
Definition encodable (w : world) (ls : list nat) : Prop :=
  forall l, l ∈ ls ->
    exists o, heap w !! l = Some o
              /\ (free (hdr o) = InUse -> exists d, data (bdy o) = Ok d).

(** ** The content stream builder

    One constructor per method of [Stream] that appends an operator, with
    the arguments of the method. *)

Inductive operator :=
| begin_text
| clip (even_odd : bool)
| close
| color_space (space : value) (stroke : bool)
| curve_to (x1 y1 x2 y2 x3 y3 : value)
| curve_start_to (x2 y2 x3 y3 : value)
| curve_end_to (x1 y1 x3 y3 : value)
| draw_x_object (reference : value)
| end_
| end_text
| fill (even_odd : bool)
| fill_and_stroke (even_odd : bool)
| fill_stroke_and_close (even_odd : bool)
| line_to (x y : value)
| move_to (x y : value)
| shading (name : value)
| pop_state
| push_state
| rectangle (x y width height : value)
| set_color_rgb (r g b : value) (stroke : bool)
| set_color_special (name : value) (stroke : bool)
| set_dash (dash_array : list value) (dash_phase : value)
| set_font_size (font size : value)
| set_text_rendering (mode : value)
| set_line_cap (line_cap : value)
| set_line_join (line_join : value)
| set_line_width (width : value)
| set_miter_limit (miter_limit : value)
| set_state (state_name : value)
| show_text (text : value)
| stroke
| stroke_and_close
| text_matrix (a b c d e f : value)
| transform (a b c d e f : value).

(** [b' '.join((_to_bytes(x), ..., mnemonic))] *)
Definition operands_token (operands : list value) (mnemonic : bytes) : result bytes :=
  let* parts := mapM to_bytes operands in
  Ok (join (B " ") (parts ++ [mnemonic])).

(** The token that a method appends to [self.stream]. *)
Definition operator_token (op : operator) : result bytes :=
  match op with
  | begin_text => Ok (B "BT")
  | clip even_odd => Ok (if even_odd then B "W*" else B "W")
  | close => Ok (B "h")
  | color_space space stroking =>
      let* s := to_bytes space in
      Ok (B "/" ++ s ++ B " " ++ (if stroking then B "CS" else B "cs"))
  | curve_to x1 y1 x2 y2 x3 y3 => operands_token [x1; y1; x2; y2; x3; y3] (B "c")
  | curve_start_to x2 y2 x3 y3 => operands_token [x2; y2; x3; y3] (B "v")
  | curve_end_to x1 y1 x3 y3 => operands_token [x1; y1; x3; y3] (B "y")
  | draw_x_object reference =>
      let* r := to_bytes reference in Ok (B "/" ++ r ++ B " Do")
  | end_ => Ok (B "n")
  | end_text => Ok (B "ET")
  | fill even_odd => Ok (if even_odd then B "f*" else B "f")
  | fill_and_stroke even_odd => Ok (if even_odd then B "B*" else B "B")
  | fill_stroke_and_close even_odd => Ok (if even_odd then B "b*" else B "b")
  | line_to x y => operands_token [x; y] (B "l")
  | move_to x y => operands_token [x; y] (B "m")
  | shading name =>
      let* n := to_bytes name in Ok (B "/" ++ n ++ B " sh")
  | pop_state => Ok (B "Q")
  | push_state => Ok (B "q")
  | rectangle x y width height => operands_token [x; y; width; height] (B "re")
  | set_color_rgb r g b stroking =>
      operands_token [r; g; b] (if stroking then B "RG" else B "rg")
  | set_color_special name stroking =>
      let* n := to_bytes name in
      Ok (B "/" ++ n ++ B " " ++ (if stroking then B "SCN" else B "scn"))
  | set_dash dash_array dash_phase =>
      let* a := data (BArray dash_array) in
      let* p := to_bytes dash_phase in
      Ok (join (B " ") [a; p; B "d"])
  | set_font_size font size =>
      let* f := to_bytes font in
      let* s := to_bytes size in
      Ok (B "/" ++ f ++ B " " ++ s ++ B " Tf")
  | set_text_rendering mode =>
      let* m := to_bytes mode in Ok (m ++ B " Tr")
  | set_line_cap line_cap =>
      let* c := to_bytes line_cap in Ok (c ++ B " J")
  | set_line_join line_join =>
      let* j := to_bytes line_join in Ok (j ++ B " j")
  | set_line_width width =>
      let* w := to_bytes width in Ok (w ++ B " w")
  | set_miter_limit miter_limit =>
      let* m := to_bytes miter_limit in Ok (m ++ B " M")
  | set_state state_name =>
      let* s := to_bytes state_name in Ok (B "/" ++ s ++ B " gs")
  | show_text text =>
      let* t := to_bytes text in Ok (B "[" ++ t ++ B "] TJ")
  | stroke => Ok (B "S")
  | stroke_and_close => Ok (B "s")
  | text_matrix a b c d e f => operands_token [a; b; c; d; e; f] (B "Tm")
  | transform a b c d e f => operands_token [a; b; c; d; e; f] (B "cm")
  end.

(** A call of a builder method, [self.stream.append(token)]: the method
    [append] is looked up on the token list, then the token is evaluated,
    then it is appended in place.  A mapping has no [append]. *)
Definition Stream_call (self : Stream) (op : operator) : ST (list cell) unit :=
  let! c := get_cell (stream self) in
  match c with
  | CList items =>
      let! token := lift (operator_token op) in
      fun s => (Ok tt, <[stream self := CList (items ++ [VBytes token])]> s)
  | CDict _ => lift (Raise AttributeError)
  end.

(** The indirect forms that [write_body] writes for a list of objects: one
    per object in use, none for a free object. *)
Fixpoint body_forms (h : list object) (ls : list nat) : list (result bytes) :=
  match ls with
  | [] => []
  | l :: rest =>
      match h !! l with
      | Some o =>
          match free (hdr o) with
          | InUse => indirect (hdr o) (bdy o) :: body_forms h rest
          | IsFree => body_forms h rest
          end
      | None => body_forms h rest
      end
  end.


End Pydyf.

(** A [zlib] encoder to run examples with: the container with stored
    (uncompressed) deflate blocks and the Adler-32 checksum. *)
Definition adler32 (data : bytes) : N :=
  let '(a, b) :=
    fold_left (fun '(a, b) c =>
                 let a' := ((a + N_of_ascii c) mod 65521)%N in
                 (a', ((b + a') mod 65521)%N)) data (1%N, 0%N) in
  (b * 65536 + a)%N.

Fixpoint stored_blocks (fuel : nat) (data : bytes) : bytes :=
  match fuel with
  | O => []
  | S fuel' =>
      let block := take (N.to_nat 65535) data in
      let rest := drop (N.to_nat 65535) data in
      let last := match rest with [] => true | _ => false end in
      let n := N.of_nat (length block) in
      [ascii_of_N (if last then 1 else 0);
       ascii_of_N (n mod 256); ascii_of_N (n / 256);
       ascii_of_N (255 - n mod 256); ascii_of_N (255 - n / 256)]
        ++ block ++ (if last then [] else stored_blocks fuel' rest)
  end.

Definition zlib_stored (data : bytes) : bytes :=
  let sum := adler32 data in
  [ascii_of_N 120; ascii_of_N 1]
    ++ stored_blocks (S (length data)) data
    ++ map ascii_of_N [sum / 16777216; (sum / 65536) mod 256;
                       (sum / 256) mod 256; sum mod 256]%N.

(** ** Shapes of encoded numbers *)

Definition is_digit (c : ascii) : bool :=
  ((48 <=? N_of_ascii c) && (N_of_ascii c <=? 57))%N.

(** Digits, a point, six digits. *)
Fixpoint fixed_tail (s : bytes) : bool :=
  match s with
  | [] => false
  | c :: rest =>
      if Ascii.eqb c "."%char
      then forallb is_digit rest && (length rest =? 6)%nat
      else is_digit c && fixed_tail rest
  end.

Definition unsigned_part (s : bytes) : bytes :=
  match s with
  | c :: rest => if Ascii.eqb c "-"%char then rest else s
  | [] => s
  end.

(** Fixed-point decimal form: an optional sign, at least one digit, a
    point and six digits. *)
Definition is_fixed_point (s : bytes) : bool :=
  match unsigned_part s with
  | c :: rest => is_digit c && fixed_tail (c :: rest)
  | [] => false
  end.

(** Bare decimal integer: an optional sign and at least one digit. *)
Definition is_plain_int (s : bytes) : bool :=
  match unsigned_part s with
  | c :: rest => forallb is_digit (c :: rest)
  | [] => false
  end.

(** No exponent marker. *)
Definition no_exponent (s : bytes) : bool :=
  forallb (fun c => negb (Ascii.eqb c "e"%char) && negb (Ascii.eqb c "E"%char)) s.

(** The value of a digit and of a sequence of decimal digits. *)
Definition digit_value (c : ascii) : Z := Z.of_N (N_of_ascii c) - 48.

Definition read_dec (s : bytes) : Z :=
  fold_left (fun acc c => 10 * acc + digit_value c) s 0.

(** Text that the ASCII codec encodes. *)
Definition ascii_representable (text : pystr) : bool :=
  forallb (fun c => c <? 128)%N text.

(** A lowercase hexadecimal digit. *)
Definition is_lower_hex (c : ascii) : bool :=
  is_digit c || ((97 <=? N_of_ascii c) && (N_of_ascii c <=? 102))%N.

(** One line of an encoded dictionary, from an encoded key and value. *)
Definition dict_line (e : bytes * bytes) : bytes :=
  B "/" ++ fst e ++ B " " ++ snd e.

(** The two lines of the header. *)
Definition header_bytes : bytes :=
  B "%PDF-1.7" ++ [nl] ++ (B "%" ++ map ascii_of_N [240; 159; 150; 164]%N) ++ [nl].

(** The world after writing [n] bytes. *)
Definition advanced (n : Z) (w : world) : world :=
  {| heap := heap w;
     pdf := set_current_position (current_position (pdf w) + n) (pdf w) |}.

(** The rows of the table are those of the objects in the heap. *)
Definition rows_of (w : world) (ls : list nat) (rows : list bytes) : Prop :=
  Forall2 (fun l row => exists o, heap w !! l = Some o /\ row = xref_row (hdr o))
          ls rows.

(** The document made by [PDF()], in a heap [h]. *)
Definition fresh_document (h : list object) : world :=
  let n := length h in
  {| heap :=
       h ++ [ {| hdr := {| number := Some 0; offset := 0;
                           generation := 65535; free := IsFree |};
                 bdy := BObject |};
              {| hdr := {| number := Some 1; offset := 0;
                           generation := 0; free := InUse |};
                 bdy := BDictionary
                          [(U "Type", VStr (U "/Pages"));
                           (U "Kids", VObj Object_init (BArray []));
                           (U "Count", VInt 0)] |};
              {| hdr := {| number := Some 2; offset := 0;
                           generation := 0; free := InUse |};
                 bdy := BDictionary [] |};
              {| hdr := {| number := Some 3; offset := 0;
                           generation := 0; free := InUse |};
                 bdy := BDictionary
                          [(U "Type", VStr (U "/Catalog"));
                           (U "Pages", VBytes (B "1 0 R"))] |} ];
     pdf := {| objects := [n; n + 1; n + 2; n + 3]%nat;
               pages := (n + 1)%nat; info := (n + 2)%nat; catalog := (n + 3)%nat;
               current_position := 0; xref_position := None |} |}.

(** ** Documents and values of the examples *)

(** 2.5, 2.0 and 0.1 as binary64 numbers. *)
Definition float_2_5 : spec_float := S754_finite false 5629499534213120 (-51).
Definition float_2 : spec_float := S754_finite false 4503599627370496 (-51).
Definition float_0_1 : spec_float := S754_finite false 7205759403792794 (-56).

(** [PDF()] in an empty heap. *)
Definition empty_document : world := fresh_document [].

(** A page, as [Dictionary({'Type': '/Page'})]. *)
Definition a_page : object :=
  {| hdr := Object_init; bdy := BDictionary (dict_of [(U "Type", VStr (U "/Page"))]) |}.

(** The same page with [generation] set to 1. *)
Definition generation_one_page : object :=
  {| hdr := {| number := None; offset := 0; generation := 1; free := InUse |};
     bdy := bdy a_page |}.

(** An empty dictionary with [generation] set to 100000. *)
Definition large_generation_object : object :=
  {| hdr := {| number := None; offset := 0; generation := 100000; free := InUse |};
     bdy := BDictionary [] |}.

(** [pdf = PDF(); pdf.add_page(page)] *)
Definition document_with (page : object) : result unit * world :=
  (let! _ := PDF_init in
   let! l := new_object page in
   add_page l) empty_world.

(** [pdf = PDF(); pdf.add_object(o); pdf.write(output)], from an empty sink. *)
Definition written_with (o : object) : result bytes * world :=
  (let! _ := PDF_init in
   let! l := new_object o in
   let! _ := add_object l in
   write zlib_stored []) empty_world.

(** A content stream with two tokens and an entry in [extra], its token
    list in cell 0 and [extra] in cell 1 of the store. *)
Definition a_stream : Stream := {| stream := 0; extra := 1; compress := true |}.

Definition a_store : list cell :=
  [CList [VBytes (B "BT"); VBytes (B "ET")]; CDict [(U "Foo", VInt 3)]].

(** 1e-7 as a binary64 number. *)
Definition float_1e_7 : spec_float := S754_finite false 7555786372591432 (-76).

(** [Object()] *)
Definition plain_object : object := {| hdr := Object_init; bdy := BObject |}.

(** [pdf = PDF(); pdf.add_object(o)] *)
Definition document_of (o : object) : world :=
  ((let! _ := PDF_init in
    let! l := new_object o in
    add_object l) empty_world).2.

(** [PDF()] after two pages are made, before they are added. *)
Definition two_pages_made : world :=
  ((let! _ := PDF_init in
    let! _ := new_object a_page in
    new_object a_page) empty_world).2.

(** A document whose page tree is the dictionary [tree], and a page. *)
Definition document_with_tree (tree : list (pystr * value)) : world :=
  {| heap := [ {| hdr := Object_init; bdy := BDictionary tree |}; a_page ];
     pdf := {| objects := []; pages := 0; info := 0; catalog := 0;
               current_position := 0; xref_position := None |} |}.

(** The bytes that a call returned. *)
Definition returned (r : result bytes) : bytes :=
  match r with
  | Ok b => b
  | Raise _ => []
  end.

(** [a == b] on bytes. *)
Fixpoint bytes_eqb (a b : bytes) : bool :=
  match a, b with
  | [], [] => true
  | x :: a', y :: b' => Ascii.eqb x y && bytes_eqb a' b'
  | _, _ => false
  end.

(** ** Readers and predicates of the further properties *)

(** The trailer that [write_trailer] writes for [n] objects, the references
    of the catalog and of the info dictionary, and the table position. *)
Definition trailer_bytes (n : Z) (root info_ : bytes) (xref : option Z) : bytes :=
  B "trailer" ++ [nl] ++ B "<<" ++ [nl] ++ B "/Size " ++ dec_of_Z n ++ [nl]
    ++ B "/Root " ++ root ++ [nl] ++ B "/Info " ++ info_ ++ [nl] ++ B ">>" ++ [nl]
    ++ B "startxref" ++ [nl] ++ str_opt xref ++ [nl] ++ B "%%EOF" ++ [nl].

(** [for page in pages: pdf.add_page(page)] *)
Fixpoint add_pages (pages_ : list nat) : ST world unit :=
  match pages_ with
  | [] => ret tt
  | page :: rest =>
      let! _ := add_page page in
      add_pages rest
  end.

(** The entries that [add_page] appends to [Kids] for [k] pages added to a
    document of [n] objects. *)
Fixpoint page_triplets (n : Z) (k : nat) : list value :=
  match k with
  | O => []
  | S k' => [VInt n; VInt 0; VStr (U "R")] ++ page_triplets (n + 1) k'
  end.

(** The object at a location is in use. *)
Definition in_use (h : list object) (l : nat) : bool :=
  match h !! l with
  | Some o => match free (hdr o) with InUse => true | IsFree => false end
  | None => false
  end.

(** No newline byte. *)
Definition newline_free (b : bytes) : bool :=
  forallb (fun c => negb (Ascii.eqb c nl)) b.

(** No space byte. *)
Definition space_free (b : bytes) : bool :=
  forallb (fun c => negb (Ascii.eqb c " "%char)) b.

(** An operand that is a number, [None], bytes without newline or ASCII
    text without newline. *)
Definition plain (v : value) : bool :=
  match v with
  | VInt _ | VFloat _ | VNone => true
  | VBytes b => newline_free b
  | VStr s => forallb (fun c => (c <? 128) && negb (c =? 10))%N s
  | VObj _ _ => false
  end.

(** All the operands of a builder call are plain. *)
Definition plain_operands (op : operator) : bool :=
  match op with
  | begin_text | close | end_ | end_text | pop_state | push_state
  | stroke | stroke_and_close
  | clip _ | fill _ | fill_and_stroke _ | fill_stroke_and_close _ => true
  | color_space v _ | draw_x_object v | shading v | set_color_special v _
  | set_text_rendering v | set_line_cap v | set_line_join v
  | set_line_width v | set_miter_limit v | set_state v | show_text v => plain v
  | line_to x y | move_to x y | set_font_size x y => plain x && plain y
  | set_color_rgb r g b _ => plain r && plain g && plain b
  | curve_start_to a b c d | curve_end_to a b c d | rectangle a b c d =>
      plain a && plain b && plain c && plain d
  | curve_to a b c d e f | text_matrix a b c d e f | transform a b c d e f =>
      plain a && plain b && plain c && plain d && plain e && plain f
  | set_dash dash_array dash_phase => forallb plain dash_array && plain dash_phase
  end.

(** The flag of a row of the cross-reference table. *)
Definition read_flag (c : ascii) : option free_flag :=
  if Ascii.eqb c "n"%char then Some InUse
  else if Ascii.eqb c "f"%char then Some IsFree
  else None.

(** A row of the cross-reference table read by columns: ten digits, a
    space, five digits, a space, the flag and a space. *)
Definition parse_xref_row (row : bytes) : option (Z * Z * free_flag) :=
  let offset_ := take 10 row in
  match drop 10 row with
  | sp1 :: rest =>
      let generation_ := take 5 rest in
      match drop 5 rest with
      | [sp2; flag; sp3] =>
          if (length offset_ =? 10)%nat && (length generation_ =? 5)%nat
             && forallb is_digit offset_ && forallb is_digit generation_
             && Ascii.eqb sp1 " "%char && Ascii.eqb sp2 " "%char
             && Ascii.eqb sp3 " "%char
          then option_map (fun f => (read_dec offset_, read_dec generation_, f))
                          (read_flag flag)
          else None
      | _ => None
      end
  | [] => None
  end.

(** The value of a lowercase hexadecimal digit. *)
Definition unhex_digit (c : ascii) : option N :=
  let n := N_of_ascii c in
  if ((48 <=? n) && (n <=? 57))%N then Some (n - 48)%N
  else if ((97 <=? n) && (n <=? 102))%N then Some (n - 87)%N
  else None.

(** [bytes.fromhex(s)] on lowercase digits. *)
Fixpoint unhex (s : bytes) : option bytes :=
  match s with
  | [] => Some []
  | hi :: lo :: rest =>
      match unhex_digit hi, unhex_digit lo, unhex rest with
      | Some a, Some b, Some r => Some (ascii_of_N (16 * a + b) :: r)
      | _, _, _ => None
      end
  | [_] => None
  end.

(** The text of a string in hexadecimal form: the digits between the
    angle brackets, the byte-order mark, and UTF-16BE. *)
Definition read_hex_string (out : bytes) : option pystr :=
  match out with
  | first :: rest =>
      match rev rest with
      | last :: middle =>
          if Ascii.eqb first "<"%char && Ascii.eqb last ">"%char then
            match unhex (rev middle) with
            | Some (b1 :: b2 :: encoded) =>
                if bytes_eqb [b1; b2] BOM_UTF16_BE then decode_utf_16_be encoded
                else None
            | _ => None
            end
          else None
      | [] => None
      end
  | [] => None
  end.

(** * Properties *)

(** ** Decimal digits *)

Lemma is_digit_digit d : (d < 10)%N -> is_digit (digit d) = true.
Proof.
  intros Hd. unfold is_digit, digit.
  rewrite N_ascii_embedding by lia.
  apply andb_true_iff; split; apply N.leb_le; lia.
Qed.

Lemma dec_digits_all_digits fuel : forall n acc,
  forallb is_digit acc = true -> forallb is_digit (dec_digits fuel n acc) = true.
Proof.
  induction fuel as [|fuel IH]; intros n acc Hacc; simpl; [exact Hacc|].
  assert (Hd : forallb is_digit (digit (n mod 10) :: acc) = true).
  { simpl. rewrite Hacc, is_digit_digit; [reflexivity|].
    apply N.mod_lt. lia. }
  destruct (n / 10 =? 0)%N; [exact Hd | apply IH, Hd].
Qed.

Lemma dec_of_N_all_digits n : forallb is_digit (dec_of_N n) = true.
Proof. apply dec_digits_all_digits. reflexivity. Qed.

Lemma dec_digits_length_ge fuel : forall n acc,
  (length acc <= length (dec_digits fuel n acc))%nat.
Proof.
  induction fuel as [|fuel IH]; intros n acc; simpl; [lia|].
  destruct (n / 10 =? 0)%N; simpl; [lia|].
  etransitivity; [|apply IH]. simpl. lia.
Qed.

Lemma dec_of_N_nonempty n : exists c rest, dec_of_N n = c :: rest.
Proof.
  unfold dec_of_N. simpl.
  destruct (n / 10 =? 0)%N; [eauto|].
  pose proof (dec_digits_length_ge (N.to_nat (N.log2 n)) (n / 10) [digit (n mod 10)]) as H.
  destruct (dec_digits _ _ _) as [|c rest]; [simpl in H; lia | eauto].
Qed.

(** A number below [10^k] has at most [k] digits. *)
Lemma dec_digits_length_le fuel : forall n k acc,
  (0 < k)%nat -> (n < 10 ^ N.of_nat k)%N ->
  (length (dec_digits fuel n acc) <= k + length acc)%nat.
Proof.
  induction fuel as [|fuel IH]; intros n k acc Hk Hn; simpl; [lia|].
  destruct (n / 10 =? 0)%N eqn:Hq; simpl; [lia|].
  apply N.eqb_neq in Hq.
  destruct k as [|[|k]]; [lia | |].
  - exfalso. apply Hq. apply N.div_small. simpl in Hn. lia.
  - etransitivity; [apply (IH _ (S k)); [lia|]|simpl; lia].
    apply N.Div0.div_lt_upper_bound.
    replace (N.of_nat (S (S k))) with (N.succ (N.of_nat (S k))) in Hn by lia.
    rewrite N.pow_succ_r' in Hn. exact Hn.
Qed.

Lemma dec_of_N_length_le n k :
  (0 < k)%nat -> (n < 10 ^ N.of_nat k)%N -> (length (dec_of_N n) <= k)%nat.
Proof.
  intros Hk Hn. unfold dec_of_N.
  pose proof (dec_digits_length_le (S (N.to_nat (N.log2 n))) n k [] Hk Hn) as H.
  change (length (@nil ascii)) with 0%nat in H. lia.
Qed.

(** A zero-padded number within the width fills it exactly. *)
Lemma zero_padded_length w z :
  (0 < w)%nat -> 0 <= z < 10 ^ Z.of_nat w -> length (zero_padded w z) = w.
Proof.
  intros Hw [Hz0 Hz]. unfold zero_padded.
  destruct (z <? 0) eqn:Hneg; [apply Z.ltb_lt in Hneg; lia|].
  simpl. rewrite length_app, repeat_length.
  assert (length (dec_of_N (Z.abs_N z)) <= w)%nat; [|lia].
  apply dec_of_N_length_le; [exact Hw|].
  apply N2Z.inj_lt. rewrite N2Z.inj_abs_N, Z.abs_eq by lia.
  rewrite N2Z.inj_pow. simpl. rewrite nat_N_Z. exact Hz.
Qed.

Lemma zero_padded_all_digits w z :
  0 <= z -> forallb is_digit (zero_padded w z) = true.
Proof.
  intros Hz. unfold zero_padded.
  destruct (z <? 0) eqn:Hneg; [apply Z.ltb_lt in Hneg; lia|].
  simpl. rewrite forallb_app, dec_of_N_all_digits, andb_true_r.
  induction (w - 0 - _)%nat; simpl; [reflexivity|].
  rewrite IHn. reflexivity.
Qed.

Example dec_of_Z_examples :
  dec_of_Z 0 = B "0" /\ dec_of_Z 65535 = B "65535" /\ dec_of_Z (-42) = B "-42"
  /\ zero_padded 10 123 = B "0000000123" /\ zero_padded 5 (-7) = B "-0007"
  /\ zero_padded 5 123456 = B "123456".
Proof. repeat split; reflexivity. Qed.

(** [f'{x:f}'] at 2.5, -0.1, the least positive float, 2^-21, 3 * 2^-21
    and 4499999.5. *)
Example format_f_examples :
  format_f (S754_finite false 5 (-1)) = B "2.500000"
  /\ format_f float_2_5 = B "2.500000"
  /\ format_f (S754_finite true 7205759403792794 (-56)) = B "-0.100000"
  /\ format_f (S754_finite false 1 (-1074)) = B "0.000000"
  /\ format_f (S754_finite false 1 (-21)) = B "0.000000"
  /\ format_f (S754_finite false 3 (-21)) = B "0.000001"
  /\ format_f (S754_finite false 8999999 (-1)) = B "4499999.500000".
Proof. repeat split; vm_compute; reflexivity. Qed.

(** [_to_bytes] at 2.0, 2.5, 0.1, -42, a name and [None]. *)
Example to_bytes_examples (zlib : bytes -> bytes) :
  to_bytes zlib (VFloat float_2) = Ok (B "2")
  /\ to_bytes zlib (VFloat float_2_5) = Ok (B "2.500000")
  /\ to_bytes zlib (VFloat float_0_1) = Ok (B "0.100000")
  /\ to_bytes zlib (VInt (-42)) = Ok (B "-42")
  /\ to_bytes zlib (VStr (U "/Page")) = Ok (B "/Page")
  /\ to_bytes zlib VNone = Ok (B "None")
  /\ to_bytes zlib (VObj Object_init (BArray [VInt 4; VInt 0; VStr (U "R")]))
     = Ok (B "[ 4 0 R ]")
  /\ to_bytes zlib (VObj Object_init (BString (U "hello"))) = Ok (B "(hello)")
  /\ to_bytes zlib (VObj Object_init (BString [104; 233]%N)) = Ok (B "<feff006800e9>")
  /\ to_bytes zlib (VObj Object_init BObject) = Raise NotImplementedError.
Proof. repeat split; vm_compute; reflexivity. Qed.

(** ** Reading decimal digits back *)

Lemma read_dec_snoc s c : read_dec (s ++ [c]) = 10 * read_dec s + digit_value c.
Proof. unfold read_dec. rewrite fold_left_app. reflexivity. Qed.

Lemma digit_value_digit d : (d < 10)%N -> digit_value (digit d) = Z.of_N d.
Proof.
  intros Hd. unfold digit_value, digit. rewrite N_ascii_embedding by lia. lia.
Qed.

Lemma dec_digits_acc fuel : forall n acc,
  dec_digits fuel n acc = dec_digits fuel n [] ++ acc.
Proof.
  induction fuel as [|fuel IH]; intros n acc; simpl; [reflexivity|].
  destruct (n / 10 =? 0)%N; [reflexivity|].
  rewrite (IH _ (_ :: acc)), (IH _ [_]), <- app_assoc. reflexivity.
Qed.

Lemma read_dec_digits fuel : forall n,
  (n < 2 ^ N.of_nat fuel)%N -> read_dec (dec_digits fuel n []) = Z.of_N n.
Proof.
  induction fuel as [|fuel IH]; intros n Hn.
  - simpl in Hn. assert (n = 0%N) by lia. subst n. reflexivity.
  - simpl. pose proof (N.div_mod n 10 ltac:(lia)) as Hdm.
    pose proof (N.mod_lt n 10 ltac:(lia)) as Hmod.
    destruct (n / 10 =? 0)%N eqn:Hq.
    + apply N.eqb_eq in Hq. unfold read_dec. simpl.
      rewrite digit_value_digit by exact Hmod. lia.
    + rewrite dec_digits_acc, read_dec_snoc, IH, digit_value_digit by
        (try exact Hmod; apply N.Div0.div_lt_upper_bound;
         rewrite Nat2N.inj_succ, N.pow_succ_r' in Hn; lia).
      lia.
Qed.

(** The digits written for a number read back as that number. *)
Lemma read_dec_of_N n : read_dec (dec_of_N n) = Z.of_N n.
Proof.
  unfold dec_of_N. apply read_dec_digits.
  rewrite Nat2N.inj_succ, N2Nat.id.
  destruct n as [|p]; [reflexivity|].
  apply N.log2_spec. reflexivity.
Qed.

Lemma read_dec_zeros k s : read_dec (repeat (digit 0) k ++ s) = read_dec s.
Proof.
  unfold read_dec. rewrite fold_left_app.
  replace (fold_left _ (repeat (digit 0) k) 0) with 0; [reflexivity|].
  induction k as [|k IH]; [reflexivity|]. simpl. exact IH.
Qed.

Lemma read_dec_zero_padded w z : 0 <= z -> read_dec (zero_padded w z) = z.
Proof.
  intros Hz. unfold zero_padded.
  destruct (z <? 0) eqn:Hneg; [apply Z.ltb_lt in Hneg; lia|].
  cbn [app]. rewrite read_dec_zeros, read_dec_of_N, N2Z.inj_abs_N. lia.
Qed.

Lemma read_dec_of_Z z : 0 <= z -> read_dec (dec_of_Z z) = z.
Proof.
  intros Hz. unfold dec_of_Z.
  destruct (z <? 0) eqn:Hneg; [apply Z.ltb_lt in Hneg; lia|].
  rewrite read_dec_of_N, N2Z.inj_abs_N. lia.
Qed.

(** ** Shapes *)

Lemma digit_not_point c : is_digit c = true -> Ascii.eqb c "."%char = false.
Proof.
  intros Hc. apply Ascii.eqb_neq. intros ->. discriminate Hc.
Qed.

Lemma digit_not_minus c : is_digit c = true -> Ascii.eqb c "-"%char = false.
Proof.
  intros Hc. apply Ascii.eqb_neq. intros ->. discriminate Hc.
Qed.

Lemma digit_no_exponent c :
  is_digit c = true ->
  negb (Ascii.eqb c "e"%char) && negb (Ascii.eqb c "E"%char) = true.
Proof.
  intros Hc.
  destruct (Ascii.eqb_spec c "e"%char) as [->|_]; [discriminate Hc|].
  destruct (Ascii.eqb_spec c "E"%char) as [->|_]; [discriminate Hc|].
  reflexivity.
Qed.

Lemma digits_no_exponent s : forallb is_digit s = true -> no_exponent s = true.
Proof.
  unfold no_exponent. induction s as [|c s IH]; simpl; [reflexivity|].
  intros [Hc Hs]%andb_true_iff. rewrite digit_no_exponent, IH; auto.
Qed.

Lemma no_exponent_app s t : no_exponent (s ++ t) = no_exponent s && no_exponent t.
Proof. apply forallb_app. Qed.

Lemma fixed_tail_app ds fs :
  forallb is_digit ds = true ->
  fixed_tail (ds ++ "."%char :: fs) = forallb is_digit fs && (length fs =? 6)%nat.
Proof.
  induction ds as [|c ds IH]; simpl; [reflexivity|].
  intros [Hc Hds]%andb_true_iff.
  rewrite digit_not_point, Hc, IH; auto.
Qed.

(** The shape produced by [format_f] on a finite number. *)
Lemma is_fixed_point_intro (neg : bool) ds fs :
  ds <> [] -> forallb is_digit ds = true ->
  forallb is_digit fs = true -> length fs = 6%nat ->
  is_fixed_point ((if neg then B "-" else []) ++ ds ++ B "." ++ fs) = true.
Proof.
  intros Hne Hds Hfs Hlen.
  destruct ds as [|c ds]; [congruence|].
  assert (Hc : is_digit c = true) by (simpl in Hds; apply andb_true_iff in Hds; tauto).
  assert (Htail : is_digit c && fixed_tail ((c :: ds) ++ "."%char :: fs) = true).
  { rewrite fixed_tail_app, Hc, Hfs, Hlen by exact Hds. reflexivity. }
  unfold is_fixed_point.
  destruct neg.
  - exact Htail.
  - change (unsigned_part ([] ++ (c :: ds) ++ B "." ++ fs))
      with (if Ascii.eqb c "-"%char then ds ++ B "." ++ fs
            else (c :: ds) ++ B "." ++ fs).
    rewrite digit_not_minus by exact Hc. exact Htail.
Qed.

Lemma is_plain_int_dec_of_Z z : is_plain_int (dec_of_Z z) = true.
Proof.
  unfold dec_of_Z, is_plain_int.
  pose proof (dec_of_N_all_digits (Z.abs_N z)) as Hd.
  destruct (dec_of_N_nonempty (Z.abs_N z)) as (c & rest & Heq).
  rewrite Heq in *.
  destruct (z <? 0); simpl (unsigned_part _).
  - exact Hd.
  - simpl in Hd. apply andb_true_iff in Hd as [Hc Hrest].
    rewrite digit_not_minus by exact Hc. simpl. rewrite Hc, Hrest. reflexivity.
Qed.

Lemma no_exponent_dec_of_Z z : no_exponent (dec_of_Z z) = true.
Proof.
  pose proof (digits_no_exponent _ (dec_of_N_all_digits (Z.abs_N z))) as Hd.
  unfold dec_of_Z. destruct (z <? 0); [|exact Hd].
  rewrite no_exponent_app, Hd. reflexivity.
Qed.

Lemma round_half_even_nonneg num den :
  0 <= num -> 0 < den -> 0 <= round_half_even num den.
Proof.
  intros Hn Hd. unfold round_half_even.
  assert (0 <= num / den) by (apply Z.div_pos; lia).
  repeat destruct (_ <? _); try destruct (Z.even _); lia.
Qed.

Lemma format_f_finite_shape s m e :
  is_fixed_point (format_f (S754_finite s m e)) = true
  /\ no_exponent (format_f (S754_finite s m e)) = true.
Proof.
  unfold format_f.
  set (scaled := if 0 <=? e then _ else _).
  assert (Hscaled : 0 <= scaled).
  { subst scaled. destruct (0 <=? e) eqn:He.
    - apply Z.leb_le in He.
      assert (0 < 2 ^ e) by (apply Z.pow_pos_nonneg; lia). nia.
    - apply Z.leb_gt in He. apply round_half_even_nonneg; [lia|].
      apply Z.pow_pos_nonneg; lia. }
  assert (Hfrac : 0 <= scaled mod 10 ^ 6 < 10 ^ Z.of_nat 6)
    by (apply Z.mod_pos_bound; reflexivity).
  pose proof (dec_of_N_all_digits (Z.to_N (scaled / 10 ^ 6))) as Hint.
  pose proof (zero_padded_all_digits 6 _ (proj1 Hfrac)) as Hfd.
  split.
  - apply is_fixed_point_intro; auto.
    + destruct (dec_of_N_nonempty (Z.to_N (scaled / 10 ^ 6))) as (c & r & ->).
      discriminate.
    + apply zero_padded_length; [lia | exact Hfrac].
  - rewrite !no_exponent_app.
    rewrite (digits_no_exponent _ Hint), (digits_no_exponent _ Hfd).
    destruct s; reflexivity.
Qed.

Lemma Ok_inj {A} (a b : A) : Ok a = Ok b -> a = b.
Proof. congruence. Qed.

(** ** UTF-16 *)

Lemma code_unit_value u hi lo :
  (u < 65536)%N -> code_unit_be u = [hi; lo] ->
  (256 * N_of_ascii hi + N_of_ascii lo)%N = u.
Proof.
  intros Hu [= <- <-].
  rewrite !N_ascii_embedding
    by (try (apply N.mod_lt; lia); apply N.Div0.div_lt_upper_bound; lia).
  pose proof (N.div_mod u 256 ltac:(lia)). lia.
Qed.

(** Decoding the UTF-16BE encoding of a text gives the text back. *)
Lemma decode_encode_utf_16_be text encoded :
  Forall (fun c => c <= 1114111)%N text ->
  encode_utf_16_be text = Ok encoded ->
  decode_utf_16_be encoded = Some text.
Proof.
  intros Hvalid. revert encoded.
  induction Hvalid as [|c text Hc _ IH]; intros encoded Henc.
  - apply Ok_inj in Henc as <-. reflexivity.
  - cbn [encode_utf_16_be] in Henc.
    destruct (is_surrogate c) eqn:Hsur; [discriminate|].
    destruct (encode_utf_16_be text) as [tail|]; [|discriminate].
    cbn [rbind] in Henc. apply Ok_inj in Henc as <-.
    specialize (IH tail eq_refl).
    unfold is_surrogate in Hsur.
    destruct (c <? 65536)%N eqn:Hbmp.
    + apply N.ltb_lt in Hbmp.
      cbn [code_unit_be app decode_utf_16_be].
      rewrite (code_unit_value c _ _ Hbmp eq_refl).
      replace ((55296 <=? c) && (c <=? 56319))%N with false
        by (symmetry; apply andb_false_iff; apply andb_false_iff in Hsur as [H|H];
            [left; exact H | right; apply N.leb_gt; apply N.leb_gt in H; lia]).
      unfold is_surrogate. rewrite Hsur, IH. reflexivity.
    + apply N.ltb_ge in Hbmp.
      pose proof (N.div_mod (c - 65536) 1024 ltac:(lia)) as Hdm.
      pose proof (N.mod_lt (c - 65536) 1024 ltac:(lia)) as Hmod.
      assert (Hdiv : ((c - 65536) / 1024 < 1024)%N)
        by (apply N.Div0.div_lt_upper_bound; lia).
      cbn [code_unit_be app decode_utf_16_be].
      rewrite (code_unit_value (55296 + (c - 65536) / 1024) _ _ ltac:(lia) eq_refl).
      rewrite (code_unit_value (56320 + (c - 65536) mod 1024) _ _ ltac:(lia) eq_refl).
      set (q := ((c - 65536) / 1024)%N) in *.
      set (r := ((c - 65536) mod 1024)%N) in *.
      replace ((55296 <=? 55296 + q) && (55296 + q <=? 56319))%N with true
        by (symmetry; apply andb_true_iff; split; apply N.leb_le; lia).
      replace ((56320 <=? 56320 + r) && (56320 + r <=? 57343))%N with true
        by (symmetry; apply andb_true_iff; split; apply N.leb_le; lia).
      rewrite IH. cbn [option_map]. do 2 f_equal. lia.
Qed.

(** ** Running programs *)

Lemma bind_ok {S A C} (m : ST S A) (k : A -> ST S C) s a s' :
  m s = (Ok a, s') -> bind m k s = k a s'.
Proof. unfold bind. intros ->. reflexivity. Qed.

(** Run the first command of a program, given its outcome. *)
Ltac step_with tac :=
  etransitivity; [apply bind_ok; (idtac; tac)|];
  cbv beta;
  cbn [heap pdf objects pages info catalog current_position xref_position
       hdr bdy number offset generation free
       set_pdf set_objects set_number set_offset set_bdy
       set_current_position set_xref_position new_object get_pdf ret fst snd].

Section Properties.
Variable zlib : bytes -> bytes.

(** ** The value encoder on numbers *)

(** An integral float holds exactly the integer [float_to_int]. *)
Lemma float_to_int_exact s m e :
  float_is_integer (S754_finite s m e) = true ->
  if 0 <=? e
  then Z.abs (float_to_int (S754_finite s m e)) = Z.pos m * 2 ^ e
  else Z.abs (float_to_int (S754_finite s m e)) * 2 ^ (- e) = Z.pos m.
Proof.
  simpl. destruct (0 <=? e) eqn:He; intros Hint.
  - apply Z.leb_le in He.
    assert (0 < 2 ^ e) by (apply Z.pow_pos_nonneg; lia).
    destruct s; [rewrite Z.abs_opp|]; apply Z.abs_eq; nia.
  - apply Z.leb_gt in He. apply Z.eqb_eq in Hint.
    assert (Hp : 0 < 2 ^ (- e)) by (apply Z.pow_pos_nonneg; lia).
    assert (0 <= Z.pos m / 2 ^ (- e)) by (apply Z.div_pos; lia).
    pose proof (Z.div_mod (Z.pos m) (2 ^ (- e)) ltac:(lia)) as Hdm.
    rewrite Hint in Hdm.
    destruct s; [rewrite Z.abs_opp|]; rewrite Z.abs_eq by lia; lia.
Qed.

(** C3, as amended: an integral float encodes as the bare decimal digits
    of its integer value; a finite non-integral float encodes in
    fixed-point form with six fractional digits; no float, finite or not,
    encodes with an exponent; an integer encodes as its decimal digits,
    which read back as the integer, after a minus sign when negative. *)
Theorem C3_number_encoding :
  (forall x, float_is_integer x = true ->
     to_bytes zlib (VFloat x) = Ok (dec_of_Z (float_to_int x))
     /\ is_plain_int (dec_of_Z (float_to_int x)) = true)
  /\ (forall s m e, float_is_integer (S754_finite s m e) = false ->
        exists out, to_bytes zlib (VFloat (S754_finite s m e)) = Ok out
                    /\ is_fixed_point out = true)
  /\ (forall x, exists out, to_bytes zlib (VFloat x) = Ok out
                            /\ no_exponent out = true)
  /\ (forall z, to_bytes zlib (VInt z) = Ok (dec_of_Z z)
                /\ is_plain_int (dec_of_Z z) = true
                /\ (0 <= z -> read_dec (dec_of_Z z) = z)
                /\ (z < 0 -> dec_of_Z z = "-"%char :: dec_of_Z (- z))).
Proof.
  split; [|split; [|split]].
  - intros x Hx. simpl. rewrite Hx. split; [reflexivity|].
    apply is_plain_int_dec_of_Z.
  - intros s m e Hx. exists (format_f (S754_finite s m e)).
    cbn [to_bytes]. rewrite Hx. split; [reflexivity|].
    apply format_f_finite_shape.
  - intros x. cbn [to_bytes].
    destruct (float_is_integer x) eqn:Hx.
    + eexists; split; [reflexivity|]. apply no_exponent_dec_of_Z.
    + eexists; split; [reflexivity|].
      destruct x as [| [|] | |s m e]; try reflexivity; try discriminate Hx.
      apply format_f_finite_shape.
  - intros z. split; [reflexivity|]. split; [apply is_plain_int_dec_of_Z|].
    split; [apply read_dec_of_Z|].
    intros Hz. unfold dec_of_Z.
    destruct (z <? 0) eqn:Hneg; [|apply Z.ltb_ge in Hneg; lia].
    destruct (- z <? 0) eqn:Hpos; [apply Z.ltb_lt in Hpos; lia|].
    rewrite Zabs2N.inj_opp. reflexivity.
Qed.

(** ** Containers *)

Lemma join_snoc sep (parts : list bytes) (last : bytes) :
  join sep (parts ++ [last]) = concat (map (fun p => p ++ sep) parts) ++ last.
Proof.
  induction parts as [|p parts IH]; [reflexivity|].
  change (join sep ((p :: parts) ++ [last]))
    with (match parts ++ [last] with
          | [] => p
          | _ :: _ => p ++ sep ++ join sep (parts ++ [last])
          end).
  destruct (parts ++ [last]) eqn:Heq.
  - destruct parts; discriminate Heq.
  - rewrite IH. simpl. rewrite <- !app_assoc. reflexivity.
Qed.

Lemma pystr_eqb_refl k : pystr_eqb k k = true.
Proof. apply bool_decide_eq_true. reflexivity. Qed.

Lemma dict_get_set_eq {V} (d : list (pystr * V)) k v :
  dict_get (dict_set d k v) k = Some v.
Proof.
  induction d as [|[k' v'] d IH]; simpl.
  - rewrite pystr_eqb_refl. reflexivity.
  - destruct (pystr_eqb k' k) eqn:Hk; simpl; rewrite Hk; [reflexivity | exact IH].
Qed.

Lemma dict_get_set_ne {V} (d : list (pystr * V)) k k' v :
  k <> k' -> dict_get (dict_set d k v) k' = dict_get d k'.
Proof.
  intros Hne. induction d as [|[k0 v0] d IH]; simpl.
  - unfold pystr_eqb. rewrite bool_decide_eq_false_2 by exact Hne. reflexivity.
  - destruct (pystr_eqb k0 k) eqn:Hk; simpl.
    + apply bool_decide_eq_true in Hk. subst k0.
      unfold pystr_eqb. rewrite bool_decide_eq_false_2 by exact Hne. reflexivity.
    + rewrite IH. reflexivity.
Qed.

(** A new key goes last, an existing key keeps its place. *)
Lemma dict_set_new {V} (d : list (pystr * V)) k v :
  dict_get d k = None -> dict_set d k v = d ++ [(k, v)].
Proof.
  induction d as [|[k' v'] d IH]; simpl; [reflexivity|].
  destruct (pystr_eqb k' k); [discriminate|].
  intros H. rewrite IH by exact H. reflexivity.
Qed.

Lemma dict_set_keys {V} (d : list (pystr * V)) k v v0 :
  dict_get d k = Some v0 -> map fst (dict_set d k v) = map fst d.
Proof.
  induction d as [|[k' v'] d IH]; simpl; [discriminate|].
  destruct (pystr_eqb k' k); [reflexivity|].
  intros H. simpl. rewrite IH by exact H. reflexivity.
Qed.

Lemma dict_set_map {V W} (f : V -> W) (d : list (pystr * V)) k v :
  map (fun kv => (fst kv, f (snd kv))) (dict_set d k v)
  = dict_set (map (fun kv => (fst kv, f (snd kv))) d) k (f v).
Proof.
  induction d as [|[k' v'] d IH]; simpl; [reflexivity|].
  destruct (pystr_eqb k' k); simpl; [reflexivity|].
  rewrite IH. reflexivity.
Qed.

(** ** [String.data] *)

Lemma hex_digit_lower d : (d < 16)%N -> is_lower_hex (hex_digit d) = true.
Proof.
  intros Hd. unfold hex_digit, is_lower_hex, is_digit.
  destruct (d <? 10)%N eqn:H10.
  - apply N.ltb_lt in H10. rewrite N_ascii_embedding by lia.
    apply orb_true_iff; left. apply andb_true_iff; split; apply N.leb_le; lia.
  - apply N.ltb_ge in H10. rewrite N_ascii_embedding by lia.
    apply orb_true_iff; right. apply andb_true_iff; split; apply N.leb_le; lia.
Qed.

Lemma hex_lower data : forallb is_lower_hex (hex data) = true.
Proof.
  unfold hex. induction data as [|c data IH]; simpl; [reflexivity|].
  pose proof (N_ascii_bounded c) as Hc.
  rewrite !hex_digit_lower, IH; [reflexivity| |].
  - apply N.mod_lt. lia.
  - apply N.Div0.div_lt_upper_bound. lia.
Qed.

Lemma hex_length data : length (hex data) = (2 * length data)%nat.
Proof.
  unfold hex. induction data as [|c data IH]; simpl; [reflexivity|].
  rewrite IH. lia.
Qed.

Lemma encode_ascii_codes text b :
  encode_ascii text = Ok b -> map N_of_ascii b = text.
Proof.
  unfold encode_ascii. destruct (forallb _ text) eqn:Hall; [|discriminate].
  intros [= <-]. induction text as [|c text IH]; simpl in *; [reflexivity|].
  apply andb_true_iff in Hall as [Hc Hall]. apply N.ltb_lt in Hc.
  rewrite N_ascii_embedding by lia. rewrite IH by exact Hall. reflexivity.
Qed.

Lemma encode_utf_16_be_total text :
  existsb is_surrogate text = false ->
  exists encoded, encode_utf_16_be text = Ok encoded.
Proof.
  induction text as [|c text IH]; simpl; [eauto|].
  intros [Hc Htext]%orb_false_iff. rewrite Hc.
  destruct (IH Htext) as [tail ->]. simpl. eauto.
Qed.

Lemma encode_utf_16_be_surrogate text :
  existsb is_surrogate text = true ->
  encode_utf_16_be text = Raise UnicodeEncodeError.
Proof.
  induction text as [|c text IH]; simpl; [discriminate|].
  destruct (is_surrogate c); [reflexivity|]. simpl.
  intros H. rewrite IH by exact H. reflexivity.
Qed.

(** C4, as amended: a text of ASCII characters encodes as its bytes
    between parentheses; any other text without surrogate code points
    encodes as the lowercase hexadecimal digits of the byte-order mark and
    its UTF-16BE encoding between angle brackets, and no exception is
    raised; the encoding decodes to the text; the form depends on the text
    alone. *)
Theorem C4_String_data (text : pystr) :
  (ascii_representable text = true ->
     exists b, encode_ascii text = Ok b /\ map N_of_ascii b = text
               /\ String_data text = Ok (B "(" ++ b ++ B ")"))
  /\ (ascii_representable text = false -> existsb is_surrogate text = false ->
        exists encoded,
          encode_utf_16_be text = Ok encoded
          /\ String_data text = Ok (B "<" ++ B "feff" ++ hex encoded ++ B ">")
          /\ forallb is_lower_hex (B "feff" ++ hex encoded) = true
          /\ (Forall (fun c => c <= 1114111)%N text ->
              decode_utf_16_be encoded = Some text))
  /\ (forall h, to_bytes zlib (VObj h (BString text)) = String_data text).
Proof.
  split; [|split].
  - intros Hrep. unfold String_data, encode_ascii.
    fold (ascii_representable text). rewrite Hrep.
    eexists; split; [reflexivity|]. split; [|reflexivity].
    apply encode_ascii_codes. unfold encode_ascii.
    fold (ascii_representable text). rewrite Hrep. reflexivity.
  - intros Hrep Hsur. unfold String_data, encode_ascii.
    fold (ascii_representable text). rewrite Hrep.
    destruct (encode_utf_16_be_total text Hsur) as [encoded Henc].
    exists encoded. rewrite Henc. split; [reflexivity|]. split; [reflexivity|].
    split.
    + change (B "feff" ++ hex encoded) with (hex (BOM_UTF16_BE ++ encoded)).
      apply hex_lower.
    + intros Hvalid. apply decode_encode_utf_16_be; assumption.
  - reflexivity.
Qed.

(** ** [Dictionary.data] *)

Lemma mapM_Forall2 {A C} (f : A -> result C) l bs :
  mapM f l = Ok bs <-> Forall2 (fun a b => f a = Ok b) l bs.
Proof.
  revert bs. induction l as [|a l IH]; intros bs; simpl.
  - split; [intros [= <-]; constructor | intros H; inversion H; reflexivity].
  - split.
    + destruct (f a) as [b|] eqn:Hfa; [|discriminate].
      destruct (mapM f l) as [bs'|]; [|discriminate].
      intros [= <-]. constructor; [exact Hfa | apply IH; reflexivity].
    + intros H. inversion H as [|? b ? bs' Hfa Hrest]; subst.
      rewrite Hfa. apply IH in Hrest. rewrite Hrest. reflexivity.
Qed.

Lemma dict_lines_encoded items encoded :
  Forall2 (encodes_entry zlib) items encoded ->
  mapM (fun kv => let* k := encode_ascii (fst kv) in
                  let* v := snd kv in
                  Ok (B "/" ++ k ++ B " " ++ v))
       (map (fun kv => (fst kv, to_bytes zlib (snd kv))) items)
  = Ok (map dict_line encoded).
Proof.
  induction 1 as [|kv e items encoded [Hk Hv] _ IH]; [reflexivity|].
  cbn [map mapM fst snd]. rewrite Hk, Hv. cbn [rbind]. rewrite IH. reflexivity.
Qed.

Lemma concat_lines (lines : list bytes) (before after : list bytes) line :
  lines = before ++ line :: after ->
  concat (map (fun p => p ++ [nl]) lines)
  = concat (map (fun p => p ++ [nl]) before) ++ line ++ [nl]
      ++ concat (map (fun p => p ++ [nl]) after).
Proof.
  intros ->. rewrite map_app, concat_app. simpl.
  rewrite <- !app_assoc. reflexivity.
Qed.

(** C7: the encoded dictionary is the line [<<], one line [/key value]
    per entry in the order of the entries, and [>>], joined by newlines;
    a new key is entered after the others; the dictionary with the keys
    [Type] and [Count] entered in that order encodes as stated. *)
Theorem C7_Dictionary_data :
  (forall items encoded,
      Forall2 (encodes_entry zlib) items encoded ->
      data zlib (BDictionary items)
      = Ok (B "<<" ++ [nl]
              ++ concat (map (fun e => dict_line e ++ [nl]) encoded)
              ++ B ">>"))
  /\ (forall (items : list (pystr * value)) key v,
        dict_get items key = None -> dict_set items key v = items ++ [(key, v)])
  /\ data zlib (BDictionary
                  (dict_set (dict_set [] (U "Type") (VStr (U "/Page")))
                            (U "Count") (VInt 3)))
     = Ok (B "<<" ++ [nl] ++ B "/Type /Page" ++ [nl] ++ B "/Count 3" ++ [nl] ++ B ">>").
Proof.
  split; [|split].
  - intros items encoded Henc. cbn [data]. unfold dict_data_of.
    rewrite (dict_lines_encoded _ _ Henc). cbn [rbind].
    change (B "<<" :: map dict_line encoded ++ [B ">>"])
      with ((B "<<" :: map dict_line encoded) ++ [B ">>"]).
    rewrite join_snoc. cbn [map concat]. rewrite map_map.
    rewrite <- !app_assoc. reflexivity.
  - intros items key v. apply dict_set_new.
  - reflexivity.
Qed.

(** ** [Stream.data] *)

(** [Stream.data] as the source has it, with the copy of [extra] updated
    before it is encoded. *)
Lemma data_Stream_eq stream extra compress :
  data zlib (BStream stream extra compress)
  = (let* tokens := mapM (to_bytes zlib) stream in
     let raw := join [nl] tokens in
     let extra1 :=
       if compress then dict_set extra (U "Filter") (VStr (U "/FlateDecode"))
       else extra in
     let body := if compress then zlib raw else raw in
     let extra2 := dict_set extra1 (U "Length") (VInt (len body)) in
     let* extra_data := data zlib (BDictionary extra2) in
     Ok (join [nl] [extra_data; B "stream"; body; B "endstream"])).
Proof.
  cbn [data]. destruct (mapM (to_bytes zlib) stream) as [tokens|e]; [|reflexivity].
  cbn [rbind]. cbv zeta. rewrite dict_set_map.
  destruct compress; [rewrite dict_set_map|]; reflexivity.
Qed.

Lemma dict_set_In {V} (d : list (pystr * V)) k v : In (k, v) (dict_set d k v).
Proof.
  induction d as [|[k' v'] d IH]; simpl; [auto|].
  destruct (pystr_eqb k' k) eqn:Hk; simpl; [|auto].
  apply bool_decide_eq_true in Hk. subst k'. auto.
Qed.

(** An entry of a dictionary that encodes has its line in the encoding. *)
Lemma dict_data_line items d key v kb vb :
  data zlib (BDictionary items) = Ok d ->
  In (key, v) items ->
  encode_ascii key = Ok kb -> to_bytes zlib v = Ok vb ->
  exists before after, d = before ++ dict_line (kb, vb) ++ [nl] ++ after.
Proof.
  intros Hd Hin Hk Hv. cbn [data] in Hd. unfold dict_data_of in Hd.
  destruct (mapM _ _) as [lines|] eqn:Hlines; [|discriminate].
  cbn [rbind] in Hd.
  assert (Hline : In (dict_line (kb, vb)) lines).
  { apply mapM_Forall2 in Hlines. clear -Hlines Hin Hk Hv.
    remember (map _ items) as entries eqn:He.
    revert items He Hin.
    induction Hlines as [|entry line entries lines Hentry _ IH];
      intros items He Hin; destruct items as [|kv items]; try discriminate.
    - destruct Hin.
    - injection He as -> He. destruct Hin as [->|Hin].
      + left. cbn [fst snd] in Hentry. rewrite Hk, Hv in Hentry.
        cbn [rbind] in Hentry. injection Hentry as <-. reflexivity.
      + right. eapply IH; eauto. }
  apply in_split in Hline as (l1 & l2 & Hsplit).
  change (B "<<" :: lines ++ [B ">>"]) with ((B "<<" :: lines) ++ [B ">>"]) in Hd.
  rewrite join_snoc in Hd. cbn [map concat] in Hd.
  rewrite (concat_lines _ _ _ _ Hsplit) in Hd.
  exists ((B "<<" ++ [nl]) ++ concat (map (fun p => p ++ [nl]) l1)).
  exists (concat (map (fun p => p ++ [nl]) l2) ++ B ">>").
  apply Ok_inj in Hd. rewrite <- Hd, <- !app_assoc. reflexivity.
Qed.

(** C5: with the tokens encoded and joined by newlines as the raw body,
    compressed when [compress] is set, [data] is the encoded copy of
    [extra], [stream], the body and [endstream]; the copy maps [Length]
    to the byte length of that body, its encoding holds the line
    [/Length n], and under compression it maps [Filter] to
    [/FlateDecode]. *)
Theorem C5_Stream_data stream extra (compress : bool) tokens :
  mapM (to_bytes zlib) stream = Ok tokens ->
  let raw := join [nl] tokens in
  let body := if compress then zlib raw else raw in
  let extra1 :=
    if compress then dict_set extra (U "Filter") (VStr (U "/FlateDecode"))
    else extra in
  let extra2 := dict_set extra1 (U "Length") (VInt (len body)) in
  data zlib (BStream stream extra compress)
    = (let* extra_data := data zlib (BDictionary extra2) in
       Ok (extra_data ++ [nl] ++ B "stream" ++ [nl] ++ body ++ [nl] ++ B "endstream"))
  /\ dict_get extra2 (U "Length") = Some (VInt (len body))
  /\ (compress = true ->
        dict_get extra2 (U "Filter") = Some (VStr (U "/FlateDecode")))
  /\ (forall extra_data,
        data zlib (BDictionary extra2) = Ok extra_data ->
        exists before after,
          extra_data
          = before ++ B "/Length " ++ dec_of_Z (len body) ++ [nl] ++ after).
Proof.
  intros Htokens raw body extra1 extra2.
  split; [|split; [|split]].
  - rewrite data_Stream_eq, Htokens. reflexivity.
  - apply dict_get_set_eq.
  - intros ->. unfold extra2, extra1.
    rewrite dict_get_set_ne by discriminate. apply dict_get_set_eq.
  - intros extra_data Hd.
    apply (dict_data_line _ _ (U "Length") (VInt (len body))
                          (B "Length") (dec_of_Z (len body)) Hd);
      [apply dict_set_In | reflexivity | reflexivity].
Qed.

(** ** [Stream.data] on the store *)

Lemma list_items_eq l (s : list cell) :
  list_items l s
  = match s !! l with
    | Some (CList items) => (Ok items, s)
    | Some (CDict _) => (Raise TypeError, s)
    | None => (Raise DanglingReference, s)
    end.
Proof.
  unfold list_items, bind, get_cell. destruct (s !! l) as [[|]|]; reflexivity.
Qed.

Lemma dict_items_eq l (s : list cell) :
  dict_items l s
  = match s !! l with
    | Some (CDict items) => (Ok items, s)
    | Some (CList _) => (Raise TypeError, s)
    | None => (Raise DanglingReference, s)
    end.
Proof.
  unfold dict_items, bind, get_cell. destruct (s !! l) as [[|]|]; reflexivity.
Qed.

Lemma dict_copy_eq l (s : list cell) :
  dict_copy l s
  = match s !! l with
    | Some (CDict items) => (Ok (length s), s ++ [CDict items])
    | Some (CList _) => (Raise TypeError, s)
    | None => (Raise DanglingReference, s)
    end.
Proof.
  unfold dict_copy, bind. rewrite dict_items_eq.
  destruct (s !! l) as [[|]|]; reflexivity.
Qed.

Lemma lookup_snoc (s : list cell) c : (s ++ [c]) !! length s = Some c.
Proof. apply list_lookup_middle. reflexivity. Qed.

Lemma dict_setitem_snoc (s : list cell) items key v :
  dict_setitem (length s) key v (s ++ [CDict items])
  = (Ok tt, s ++ [CDict (dict_set items key v)]).
Proof.
  unfold dict_setitem, bind. rewrite dict_items_eq, lookup_snoc.
  rewrite insert_app_r_alt, Nat.sub_diag by lia. reflexivity.
Qed.

(** A run of [Stream.data]: it reads the token list and [extra], and only
    adds cells to the store. *)
Lemma Stream_data_run self (s : list cell) :
  Stream_data zlib self s
  = match s !! stream self with
    | Some (CList items) =>
        match mapM (to_bytes zlib) items with
        | Ok tokens =>
            match s !! extra self with
            | Some (CDict entries) =>
                (Stream_encoding zlib self tokens entries,
                 s ++ [CDict entries; CDict (Stream_extra zlib self tokens entries)])
            | Some (CList _) => (Raise TypeError, s)
            | None => (Raise DanglingReference, s)
            end
        | Raise e => (Raise e, s)
        end
    | Some (CDict _) => (Raise TypeError, s)
    | None => (Raise DanglingReference, s)
    end.
Proof.
  unfold Stream_data. unfold bind at 1. rewrite list_items_eq.
  destruct (s !! stream self) as [[items|]|]; try reflexivity.
  unfold bind at 1, lift at 1.
  destruct (mapM (to_bytes zlib) items) as [tokens|e]; [|reflexivity].
  unfold bind at 1. rewrite dict_copy_eq.
  destruct (s !! extra self) as [[|entries]|]; try reflexivity.
  unfold bind at 1. rewrite dict_copy_eq, lookup_snoc.
  unfold Stream_encoding, Stream_extra.
  set (raw := join [nl] tokens).
  destruct (compress self).
  - erewrite bind_ok;
      [|erewrite bind_ok; [reflexivity | apply dict_setitem_snoc]].
    erewrite bind_ok; [|apply dict_setitem_snoc].
    unfold bind at 1. rewrite dict_items_eq, lookup_snoc.
    unfold bind, lift, ret. rewrite <- app_assoc.
    destruct (data zlib _); reflexivity.
  - erewrite bind_ok; [|reflexivity].
    erewrite bind_ok; [|apply dict_setitem_snoc].
    unfold bind at 1. rewrite dict_items_eq, lookup_snoc.
    unfold bind, lift, ret. rewrite <- app_assoc.
    destruct (data zlib _); reflexivity.
Qed.

(** C10: for a stream whose token container is a list and whose [extra]
    is a mapping, evaluating [data] changes no cell of the store: the
    token list and the [extra] mapping hold after the call what they held
    before it (the [Filter] and [Length] entries go to a copy); the call
    evaluates as [data] does on the tokens and entries read; a second
    evaluation returns the same bytes, or raises the same exception. *)
Theorem C10_Stream_data_frame self (s : list cell) items entries :
  s !! stream self = Some (CList items) ->
  s !! extra self = Some (CDict entries) ->
  (forall l c, s !! l = Some c -> (Stream_data zlib self s).2 !! l = Some c)
  /\ (Stream_data zlib self s).2 !! stream self = Some (CList items)
  /\ (Stream_data zlib self s).2 !! extra self = Some (CDict entries)
  /\ (Stream_data zlib self s).1
     = data zlib (BStream items entries (compress self))
  /\ (Stream_data zlib self (Stream_data zlib self s).2).1
     = (Stream_data zlib self s).1.
Proof.
  intros Hstream Hextra.
  assert (Hframe : forall added l c,
             s !! l = Some c -> (s ++ added) !! l = Some c).
  { intros added l c Hl. rewrite lookup_app_l; [exact Hl|].
    eapply lookup_lt_Some, Hl. }
  assert (Hkept : forall l c,
             s !! l = Some c -> (Stream_data zlib self s).2 !! l = Some c).
  { intros l c Hl. rewrite Stream_data_run, Hstream, Hextra.
    destruct (mapM (to_bytes zlib) items); [apply Hframe, Hl | exact Hl]. }
  split; [exact Hkept|].
  split; [exact (Hkept _ _ Hstream)|].
  split; [exact (Hkept _ _ Hextra)|].
  split.
  - rewrite Stream_data_run, Hstream, Hextra, data_Stream_eq.
    destruct (mapM (to_bytes zlib) items); reflexivity.
  - rewrite (Stream_data_run self s), Hstream, Hextra.
    destruct (mapM (to_bytes zlib) items) as [tokens|] eqn:Htokens;
      cbn [fst snd]; rewrite Stream_data_run.
    + rewrite (Hframe _ _ _ Hstream), Htokens, (Hframe _ _ _ Hextra).
      reflexivity.
    + rewrite Hstream, Htokens. reflexivity.
Qed.

(** ** The document: registration *)

Lemma add_object_run l w o :
  heap w !! l = Some o ->
  add_object l w
  = (Ok tt, {| heap := <[l := set_number (len (objects (pdf w))) o]> (heap w);
               pdf := set_objects (objects (pdf w) ++ [l]) (pdf w) |}).
Proof.
  intros Hl. unfold add_object, bind, get_object. rewrite Hl. reflexivity.
Qed.

Lemma lookup_last (h : list object) o : (h ++ [o]) !! length h = Some o.
Proof. apply list_lookup_middle. reflexivity. Qed.

(** Registering the object allocated last. *)
Lemma add_object_last h o p :
  add_object (length h) {| heap := h ++ [o]; pdf := p |}
  = (Ok tt, {| heap := h ++ [set_number (len (objects p)) o];
               pdf := set_objects (objects p ++ [length h]) p |}).
Proof.
  rewrite (add_object_run _ _ o) by apply lookup_last. cbn [heap pdf].
  rewrite insert_app_r_alt, Nat.sub_diag by lia. reflexivity.
Qed.

Lemma PDF_init_run w0 : PDF_init w0 = (Ok tt, fresh_document (heap w0)).
Proof.
  destruct w0 as [h p0]. unfold PDF_init.
  do 2 (step_with ltac:(idtac; reflexivity)).
  (step_with ltac:(apply add_object_last)).
  do 3 (step_with ltac:(idtac; reflexivity)).
  (step_with ltac:(apply add_object_last)).
  do 3 (step_with ltac:(idtac; reflexivity)).
  (step_with ltac:(apply add_object_last)).
  (step_with ltac:(unfold get_object; cbn [heap];
        rewrite lookup_app_l by (rewrite !length_app; simpl; lia);
        rewrite lookup_last; reflexivity)).
  do 3 (step_with ltac:(idtac; reflexivity)).
  (step_with ltac:(apply add_object_last)).
  (step_with ltac:(idtac; reflexivity)).
  unfold set_pdf, fresh_document. cbn [heap pdf objects pages info catalog].
  rewrite !length_app. cbn [length].
  rewrite <- !app_assoc. cbn [app].
  replace (length h + 1 + 1)%nat with (length h + 2)%nat by lia.
  replace (length h + 2 + 1)%nat with (length h + 3)%nat by lia.
  reflexivity.
Qed.

Lemma add_object_other l w o l' :
  heap w !! l = Some o -> l' <> l ->
  heap (add_object l w).2 !! l' = heap w !! l'.
Proof.
  intros Hl Hne. rewrite (add_object_run _ _ _ Hl). cbn [snd heap].
  apply list_lookup_insert_ne. congruence.
Qed.

Lemma numbered_add_object w l o :
  numbered w -> l ∉ objects (pdf w) -> heap w !! l = Some o ->
  numbered (add_object l w).2.
Proof.
  intros Hnum Hnew Hl. rewrite (add_object_run _ _ _ Hl).
  intros i l' Hi. unfold number_at. cbn [snd heap pdf objects set_objects] in *.
  apply lookup_app_Some in Hi as [Hi|[Hlen Hi]].
  - assert (l' <> l) by (intros ->; apply Hnew; eapply list_elem_of_lookup_2, Hi).
    rewrite list_lookup_insert_ne by congruence. apply (Hnum i l' Hi).
  - apply list_lookup_singleton_Some in Hi as [Hi <-].
    rewrite list_lookup_insert_eq by (eapply lookup_lt_Some, Hl).
    cbn [set_number hdr number]. unfold len. f_equal. lia.
Qed.

Lemma lookup_app_plus {A} (h l : list A) k :
  (h ++ l) !! (length h + k)%nat = l !! k.
Proof.
  rewrite lookup_app_r by lia. f_equal. lia.
Qed.

Lemma numbered_fresh_document h : numbered (fresh_document h).
Proof.
  intros i l Hi. unfold number_at, fresh_document in *. cbn [heap pdf objects] in *.
  destruct i as [|[|[|[|i]]]]; cbn in Hi; try discriminate; injection Hi as <-.
  - rewrite <- (Nat.add_0_r (length h)) at 1. rewrite lookup_app_plus. reflexivity.
  - rewrite lookup_app_plus. reflexivity.
  - rewrite lookup_app_plus. reflexivity.
  - rewrite lookup_app_plus. reflexivity.
Qed.

(** C6: [PDF()] makes a document whose objects are, in order, the free
    head with number 0, generation 65535 and the free flag, the page
    tree with number 1, the info dictionary with number 2 and the catalog
    with number 3; the first registration that follows gives number 4;
    every registration appends the object to the list and sets its number,
    and no other, to its index in the list; numbers equal indices as long
    as no object is registered twice. *)
Theorem C6_object_numbering (w0 : world) :
  exists w l0 zero,
    PDF_init w0 = (Ok tt, w)
    /\ objects (pdf w) = [l0; pages (pdf w); info (pdf w); catalog (pdf w)]
    /\ heap w !! l0 = Some zero
    /\ hdr zero = {| number := Some 0; offset := 0;
                      generation := 65535; free := IsFree |}
    /\ number_at w (pages (pdf w)) = Some 1
    /\ number_at w (info (pdf w)) = Some 2
    /\ number_at w (catalog (pdf w)) = Some 3
    /\ numbered w
    /\ (forall w1 l o,
          pdf w1 = pdf w -> heap w1 !! l = Some o ->
          exists w2, add_object l w1 = (Ok tt, w2) /\ number_at w2 l = Some 4)
    /\ (forall w1 l o,
          heap w1 !! l = Some o ->
          exists w2,
            add_object l w1 = (Ok tt, w2)
            /\ objects (pdf w2) = objects (pdf w1) ++ [l]
            /\ objects (pdf w2) !! length (objects (pdf w1)) = Some l
            /\ heap w2 !! l = Some (set_number (len (objects (pdf w1))) o)
            /\ (forall l', l' <> l -> heap w2 !! l' = heap w1 !! l')
            /\ (numbered w1 -> l ∉ objects (pdf w1) -> numbered w2)).
Proof.
  assert (Hreg : forall w1 l o,
             heap w1 !! l = Some o ->
             exists w2,
               add_object l w1 = (Ok tt, w2)
               /\ objects (pdf w2) = objects (pdf w1) ++ [l]
               /\ objects (pdf w2) !! length (objects (pdf w1)) = Some l
               /\ heap w2 !! l = Some (set_number (len (objects (pdf w1))) o)
               /\ (forall l', l' <> l -> heap w2 !! l' = heap w1 !! l')
               /\ (numbered w1 -> l ∉ objects (pdf w1) -> numbered w2)).
  { intros w1 l o Hl. eexists. split; [apply (add_object_run _ _ _ Hl)|].
    cbn [heap pdf objects set_objects].
    split; [reflexivity|]. split; [apply list_lookup_middle; reflexivity|].
    split; [apply list_lookup_insert_eq; eapply lookup_lt_Some, Hl|].
    split.
    - intros l' Hne. apply list_lookup_insert_ne. congruence.
    - intros Hnum Hnew. pose proof (numbered_add_object _ _ _ Hnum Hnew Hl) as H.
      rewrite (add_object_run _ _ _ Hl) in H. exact H. }
  exists (fresh_document (heap w0)), (length (heap w0)). eexists.
  split; [apply PDF_init_run|].
  cbn [fresh_document heap pdf objects pages info catalog].
  split; [reflexivity|].
  split; [apply (list_lookup_middle _ _ _ _ eq_refl)|].
  split; [reflexivity|].
  pose proof (numbered_fresh_document (heap w0)) as Hnum.
  split; [apply (Hnum 1%nat); reflexivity|].
  split; [apply (Hnum 2%nat); reflexivity|].
  split; [apply (Hnum 3%nat); reflexivity|].
  split; [exact Hnum|].
  split; [|exact Hreg].
  intros w1 l o Hpdf Hl. destruct (Hreg w1 l o Hl) as (w2 & Hrun & _ & _ & Hw2 & _).
  exists w2. split; [exact Hrun|].
  unfold number_at. rewrite Hw2, Hpdf. reflexivity.
Qed.

(** ** The writer *)

Lemma bind_inv {S A C} (m : ST S A) (k : A -> ST S C) s c s'' :
  bind m k s = (Ok c, s'') ->
  exists a s', m s = (Ok a, s') /\ k a s' = (Ok c, s'').
Proof.
  unfold bind. destruct (m s) as [[a|e] s']; [eauto | discriminate].
Qed.

Lemma pair_inv {A S} (r r' : A) (s s' : S) :
  (r, s) = (r', s') -> r = r' /\ s = s'.
Proof. intros [= -> ->]. auto. Qed.

Lemma pair_Ok_inv {A S} (a a' : A) (s s' : S) :
  (Ok a, s) = (Ok a', s') -> a = a' /\ s = s'.
Proof. intros [= -> ->]. auto. Qed.

Lemma get_object_inv l w o w' :
  get_object l w = (Ok o, w') -> heap w !! l = Some o /\ w' = w.
Proof.
  unfold get_object. destruct (heap w !! l); [|discriminate].
  intros [= <- <-]. auto.
Qed.

Lemma len_app {A} (a b : list A) : len (a ++ b) = len a + len b.
Proof. unfold len. rewrite length_app. lia. Qed.

Lemma len_nonneg {A} (a : list A) : 0 <= len a.
Proof. unfold len. lia. Qed.

Lemma set_offset_same o : set_offset (offset (hdr o)) o = o.
Proof. destruct o as [[] ?]. reflexivity. Qed.

Lemma set_current_position_same p :
  set_current_position (current_position p) p = p.
Proof. destruct p. reflexivity. Qed.

(** Every line written advances the position by its length and one. *)
Lemma write_line_run content output w :
  write_line content output w
  = (Ok (output ++ content ++ [nl]),
     {| heap := heap w;
        pdf := set_current_position
                 (current_position (pdf w) + (len content + 1)) (pdf w) |}).
Proof. reflexivity. Qed.

Lemma advanced_0 w : advanced 0 w = w.
Proof.
  unfold advanced. rewrite Z.add_0_r, set_current_position_same.
  destruct w. reflexivity.
Qed.

Lemma write_lines_run lines : forall output w,
  write_lines lines output w
  = (Ok (output ++ concat (map (fun p => p ++ [nl]) lines)),
     advanced (len (concat (map (fun p => p ++ [nl]) lines))) w).
Proof.
  induction lines as [|line lines IH]; intros output w.
  - cbn [write_lines map concat]. change (len []) with 0.
    rewrite app_nil_r, advanced_0. reflexivity.
  - cbn [write_lines]. erewrite bind_ok by apply write_line_run.
    rewrite IH. cbn [map concat]. rewrite <- !app_assoc. f_equal.
    unfold advanced, set_current_position.
    cbn [heap pdf objects pages info catalog current_position xref_position].
    do 2 f_equal. rewrite !len_app. change (len [nl]) with 1. lia.
Qed.

(** What a successful run of the loop of [write_body] leaves: the bytes
    produced, the position advanced by their number, a heap where only
    offsets changed, and every object in use written at its offset. *)
Lemma write_body_loop_inv ls : forall output w out w',
  write_body_loop zlib ls output w = (Ok out, w') ->
  exists produced,
    out = output ++ produced
    /\ pdf w' = set_current_position
                  (current_position (pdf w) + len produced) (pdf w)
    /\ (forall l o, heap w !! l = Some o ->
          exists pos, heap w' !! l = Some (set_offset pos o))
    /\ (forall l o, heap w !! l = Some o -> l ∉ ls -> heap w' !! l = Some o)
    /\ (forall l o', l ∈ ls -> heap w' !! l = Some o' -> free (hdr o') = InUse ->
          exists pre content post,
            indirect zlib (hdr o') (bdy o') = Ok content
            /\ produced = pre ++ content ++ [nl] ++ post
            /\ offset (hdr o') = current_position (pdf w) + len pre).
Proof.
  induction ls as [|l ls IH]; intros output w out w' Hrun.
  - apply pair_Ok_inv in Hrun as [<- <-]. exists [].
    rewrite app_nil_r, Z.add_0_r, set_current_position_same.
    split; [reflexivity|]. split; [reflexivity|].
    split; [intros l o Hl; exists (offset (hdr o)); rewrite set_offset_same; exact Hl|].
    split; [auto|]. intros l o' Hin. apply elem_of_nil in Hin. destruct Hin.
  - cbn [write_body_loop] in Hrun.
    apply bind_inv in Hrun as (o & w1 & Hget & Hrun).
    apply get_object_inv in Hget as [Hl ->].
    destruct (free (hdr o)) eqn:Hfree.
    + (* in use: record the offset, write the indirect form *)
      apply bind_inv in Hrun as (p & w1 & Hp & Hrun).
      apply pair_Ok_inv in Hp as [<- <-].
      apply bind_inv in Hrun as ([] & w1 & Hset & Hrun).
      apply pair_Ok_inv in Hset as [_ <-].
      apply bind_inv in Hrun as (content & w1 & Hind & Hrun).
      apply pair_inv in Hind as [Hind <-].
      change (indirect zlib (hdr o) (bdy o) = Ok content) in Hind.
      apply bind_inv in Hrun as (output1 & w2 & Hline & Hrun).
      rewrite write_line_run in Hline. apply pair_Ok_inv in Hline as [<- <-].
      apply IH in Hrun as (produced & -> & Hpdf & Honly & Hframe & Hat).
      cbn [heap pdf current_position set_current_position] in *.
      set (pos := current_position (pdf w)) in *.
      exists (content ++ [nl] ++ produced).
      split; [rewrite <- !app_assoc; reflexivity|].
      split.
      { rewrite Hpdf. unfold set_current_position, pos. cbn [objects pages info catalog xref_position].
        f_equal. rewrite !len_app. change (len [nl]) with 1. lia. }
      split.
      { intros l0 o0 Hl0. destruct (decide (l0 = l)) as [->|Hne].
        - assert (o0 = o) by congruence. subst o0.
          destruct (Honly l (set_offset pos o)) as [pos' Hpos'].
          { apply list_lookup_insert_eq. eapply lookup_lt_Some, Hl. }
          exists pos'. exact Hpos'.
        - apply Honly. rewrite list_lookup_insert_ne by congruence. exact Hl0. }
      split.
      { intros l0 o0 Hl0 Hnotin.
        apply not_elem_of_cons in Hnotin as [Hne Hnotin].
        apply Hframe; [|exact Hnotin].
        rewrite list_lookup_insert_ne by congruence. exact Hl0. }
      intros l0 o' Hin Hl0 Hfree'.
      destruct (decide (l0 ∈ ls)) as [Hrest|Hrest].
      * destruct (Hat l0 o' Hrest Hl0 Hfree') as (pre & c & post & Hc & -> & Hoff).
        exists (content ++ [nl] ++ pre), c, post.
        split; [exact Hc|]. split; [rewrite <- !app_assoc; reflexivity|].
        rewrite Hoff, !len_app. change (len [nl]) with 1. lia.
      * apply elem_of_cons in Hin as [->|Hin]; [|contradiction].
        assert (Hfinal : heap w' !! l = Some (set_offset pos o)).
        { apply Hframe; [|exact Hrest].
          apply list_lookup_insert_eq. eapply lookup_lt_Some, Hl. }
        assert (o' = set_offset pos o) by congruence. subst o'.
        exists [], content, produced.
        split; [exact Hind|]. split; [reflexivity|].
        cbn [set_offset hdr offset]. change (len []) with 0. lia.
    + (* free: skipped *)
      apply IH in Hrun as (produced & -> & Hpdf & Honly & Hframe & Hat).
      exists produced. split; [reflexivity|]. split; [exact Hpdf|].
      split; [exact Honly|].
      split.
      { intros l0 o0 Hl0 Hnotin.
        apply not_elem_of_cons in Hnotin as [_ Hnotin]. auto. }
      intros l0 o' Hin Hl0 Hfree'.
      destruct (decide (l0 ∈ ls)) as [Hrest|Hrest]; [eauto|].
      apply elem_of_cons in Hin as [->|Hin]; [|contradiction].
      rewrite (Hframe _ _ Hl Hrest) in Hl0. congruence.
Qed.

Lemma write_xref_loop_inv ls : forall output w out w',
  write_xref_loop ls output w = (Ok out, w') ->
  exists rows,
    rows_of w ls rows
    /\ out = output ++ concat (map (fun r => r ++ [nl]) rows)
    /\ heap w' = heap w
    /\ pdf w' = set_current_position
                  (current_position (pdf w)
                   + len (concat (map (fun r => r ++ [nl]) rows))) (pdf w).
Proof.
  induction ls as [|l ls IH]; intros output w out w' Hrun.
  - apply pair_Ok_inv in Hrun as [<- <-]. exists []. cbn [map concat].
    rewrite app_nil_r. change (len []) with 0.
    rewrite Z.add_0_r, set_current_position_same.
    split; [constructor|]. auto.
  - cbn [write_xref_loop] in Hrun.
    apply bind_inv in Hrun as (o & w1 & Hget & Hrun).
    apply get_object_inv in Hget as [Hl ->].
    apply bind_inv in Hrun as (output1 & w2 & Hline & Hrun).
    rewrite write_line_run in Hline. apply pair_Ok_inv in Hline as [<- <-].
    apply IH in Hrun as (rows & Hrows & -> & Hheap & Hpdf).
    cbn [heap pdf current_position set_current_position] in *.
    exists (xref_row (hdr o) :: rows).
    split; [constructor; [eauto | exact Hrows]|].
    cbn [map concat]. split; [rewrite <- !app_assoc; reflexivity|].
    split; [exact Hheap|].
    rewrite Hpdf. unfold set_current_position.
    cbn [objects pages info catalog xref_position].
    f_equal. rewrite !len_app. change (len [nl]) with 1. lia.
Qed.

Lemma write_trailer_inv output w out w' :
  write_trailer zlib output w = (Ok out, w') ->
  exists tail,
    out = output ++ B "trailer" ++ [nl] ++ tail
    /\ heap w' = heap w
    /\ objects (pdf w') = objects (pdf w)
    /\ xref_position (pdf w') = xref_position (pdf w).
Proof.
  unfold write_trailer. intros Hrun.
  apply bind_inv in Hrun as (output1 & w1 & Hline & Hrun).
  rewrite write_line_run in Hline. apply pair_Ok_inv in Hline as [<- <-].
  apply bind_inv in Hrun as (p & w1 & Hp & Hrun). apply pair_Ok_inv in Hp as [<- <-].
  apply bind_inv in Hrun as (catalog_ & w1 & Hget & Hrun).
  apply get_object_inv in Hget as [_ ->].
  apply bind_inv in Hrun as (info_ & w1 & Hget & Hrun).
  apply get_object_inv in Hget as [_ ->].
  apply bind_inv in Hrun as (output2 & w2 & Hobj & Hrun).
  unfold write_object in Hobj.
  apply bind_inv in Hobj as (d & w1 & Hd & Hobj).
  apply pair_inv in Hd as [Hd <-].
  rewrite write_lines_run in Hobj. apply pair_Ok_inv in Hobj as [<- <-].
  apply bind_inv in Hrun as (output3 & w3 & Hline & Hrun).
  rewrite write_line_run in Hline. apply pair_Ok_inv in Hline as [<- <-].
  apply bind_inv in Hrun as (p & w1 & Hp & Hrun). apply pair_Ok_inv in Hp as [<- <-].
  apply bind_inv in Hrun as (output4 & w4 & Hline & Hrun).
  rewrite write_line_run in Hline. apply pair_Ok_inv in Hline as [<- <-].
  rewrite write_line_run in Hrun. apply pair_Ok_inv in Hrun as [<- <-].
  cbn [heap pdf objects xref_position set_current_position advanced].
  eexists. split; [rewrite <- !app_assoc; reflexivity|]. auto.
Qed.

Lemma write_header_run output w :
  write_header output w
  = (Ok (output ++ header_bytes),
     {| heap := heap w;
        pdf := set_current_position (current_position (pdf w) + 15) (pdf w) |}).
Proof.
  unfold write_header. erewrite bind_ok by apply write_line_run.
  rewrite write_line_run. unfold header_bytes.
  cbn [heap pdf current_position set_current_position].
  rewrite <- !app_assoc. unfold set_current_position.
  cbn [objects pages info catalog xref_position].
  do 3 f_equal. change (len (B "%PDF-1.7")) with 8.
  change (len (B "%" ++ map ascii_of_N [240; 159; 150; 164]%N)) with 5. lia.
Qed.

(** What a successful [write] leaves, from a document at position
    [current_position]: the header, the objects in use at their offsets,
    the table at [xref_position] with a row per object of the list, and
    the trailer. *)
Lemma write_inv output w out w' :
  write zlib output w = (Ok out, w') ->
  exists body rows tail,
    out = output ++ header_bytes ++ body
            ++ (B "xref" ++ [nl] ++ B "0 " ++ dec_of_Z (len (objects (pdf w))) ++ [nl]
                  ++ concat (map (fun r => r ++ [nl]) rows))
            ++ B "trailer" ++ [nl] ++ tail
    /\ objects (pdf w') = objects (pdf w)
    /\ xref_position (pdf w')
       = Some (current_position (pdf w) + len (header_bytes ++ body))
    /\ rows_of w' (objects (pdf w)) rows
    /\ (forall l o, heap w !! l = Some o ->
          exists pos, heap w' !! l = Some (set_offset pos o))
    /\ (forall l o', l ∈ objects (pdf w) -> heap w' !! l = Some o' ->
          free (hdr o') = InUse ->
          exists pre content post,
            indirect zlib (hdr o') (bdy o') = Ok content
            /\ header_bytes ++ body = pre ++ content ++ [nl] ++ post
            /\ offset (hdr o') = current_position (pdf w) + len pre).
Proof.
  unfold write. intros Hrun.
  apply bind_inv in Hrun as (output1 & w1 & Hhead & Hrun).
  rewrite write_header_run in Hhead. apply pair_Ok_inv in Hhead as [<- <-].
  apply bind_inv in Hrun as (output2 & w2 & Hbody & Hrun).
  unfold write_body in Hbody.
  apply bind_inv in Hbody as (p & w1 & Hp & Hbody). apply pair_Ok_inv in Hp as [<- <-].
  apply write_body_loop_inv in Hbody as (body & -> & Hpdf2 & Honly & _ & Hat).
  cbn [heap pdf objects current_position set_current_position] in *.
  apply bind_inv in Hrun as (output3 & w3 & Hxref & Hrun).
  unfold write_cross_reference_table in Hxref.
  apply bind_inv in Hxref as (p & w1 & Hp & Hxref). apply pair_Ok_inv in Hp as [<- <-].
  apply bind_inv in Hxref as ([] & w1 & Hset & Hxref). apply pair_Ok_inv in Hset as [_ <-].
  apply bind_inv in Hxref as (o1 & w1 & Hline & Hxref).
  rewrite write_line_run in Hline. apply pair_Ok_inv in Hline as [<- <-].
  apply bind_inv in Hxref as (p & w1 & Hp & Hxref). apply pair_Ok_inv in Hp as [<- <-].
  apply bind_inv in Hxref as (o1 & w1 & Hline & Hxref).
  rewrite write_line_run in Hline. apply pair_Ok_inv in Hline as [<- <-].
  apply write_xref_loop_inv in Hxref as (rows & Hrows & -> & Hheap3 & Hpdf3).
  apply write_trailer_inv in Hrun as (tail & -> & Hheap4 & Hobjs4 & Hxpos4).
  rewrite Hpdf3 in Hobjs4, Hxpos4. rewrite Hpdf2 in *.
  cbn [heap pdf objects current_position xref_position
       set_current_position set_xref_position] in *.
  exists body, rows, tail.
  split; [unfold header_bytes; rewrite <- !app_assoc; reflexivity|].
  split; [exact Hobjs4|].
  split.
  { rewrite Hxpos4. f_equal. rewrite !len_app.
    change (len header_bytes) with 15. lia. }
  split.
  { unfold rows_of in *. rewrite Hheap4, Hheap3. exact Hrows. }
  split.
  { intros l o Hl. rewrite Hheap4, Hheap3. apply Honly. exact Hl. }
  intros l o' Hin Hl Hfree. rewrite Hheap4, Hheap3 in Hl.
  destruct (Hat l o' Hin Hl Hfree) as (pre & content & post & Hc & -> & Hoff).
  exists (header_bytes ++ pre), content, post.
  split; [exact Hc|]. split; [rewrite <- !app_assoc; reflexivity|].
  rewrite Hoff, len_app. change (len header_bytes) with 15. lia.
Qed.

(** *** [write] returns *)

Lemma write_body_loop_total ls : forall output w,
  encodable zlib w ls -> exists out w', write_body_loop zlib ls output w = (Ok out, w').
Proof.
  induction ls as [|l ls IH]; intros output w Henc; [eexists _, _; reflexivity|].
  cbn [write_body_loop].
  destruct (Henc l) as (o & Hl & Hdata); [left|].
  erewrite bind_ok by (unfold get_object; rewrite Hl; reflexivity).
  destruct (free (hdr o)) eqn:Hfree.
  - destruct (Hdata eq_refl) as [d Hd].
    erewrite bind_ok by reflexivity.
    erewrite bind_ok by reflexivity.
    erewrite bind_ok by (unfold lift, indirect; cbn [set_offset hdr bdy];
                         rewrite Hd; reflexivity).
    erewrite bind_ok by apply write_line_run.
    apply IH. intros l' Hin. cbn [heap].
    destruct (decide (l' = l)) as [->|Hne].
    + rewrite list_lookup_insert_eq by (eapply lookup_lt_Some, Hl).
      eexists; split; [reflexivity|]. cbn [set_offset hdr bdy free]. eauto.
    + rewrite list_lookup_insert_ne by congruence.
      apply Henc. right. exact Hin.
  - apply IH. intros l' Hin. apply Henc. right. exact Hin.
Qed.

Lemma write_xref_loop_total ls : forall output w,
  (forall l, l ∈ ls -> is_Some (heap w !! l)) ->
  exists out w', write_xref_loop ls output w = (Ok out, w').
Proof.
  induction ls as [|l ls IH]; intros output w Hls; [eexists _, _; reflexivity|].
  cbn [write_xref_loop].
  destruct (Hls l) as [o Hl]; [left|].
  erewrite bind_ok by (unfold get_object; rewrite Hl; reflexivity).
  erewrite bind_ok by apply write_line_run.
  apply IH. intros l' Hin. cbn [heap]. apply Hls. right. exact Hin.
Qed.

Lemma trailer_data n r i :
  data zlib (BDictionary (dict_of [(U "Size", VInt n); (U "Root", VBytes r);
                                   (U "Info", VBytes i)]))
  = Ok (B "<<" ++ [nl] ++ B "/Size " ++ dec_of_Z n ++ [nl]
          ++ B "/Root " ++ r ++ [nl] ++ B "/Info " ++ i ++ [nl] ++ B ">>").
Proof. reflexivity. Qed.

Lemma write_object_run b d output w :
  data zlib b = Ok d ->
  write_object zlib b output w
  = (Ok (output ++ concat (map (fun p => p ++ [nl]) (split_lines d))),
     advanced (len (concat (map (fun p => p ++ [nl]) (split_lines d)))) w).
Proof.
  intros Hd. unfold write_object.
  erewrite bind_ok by (unfold lift; rewrite Hd; reflexivity).
  apply write_lines_run.
Qed.

Lemma write_trailer_total output w :
  is_Some (heap w !! catalog (pdf w)) -> is_Some (heap w !! info (pdf w)) ->
  exists out w', write_trailer zlib output w = (Ok out, w').
Proof.
  intros [c Hc] [i Hi]. unfold write_trailer.
  eexists _, _.
  step_with ltac:(apply write_line_run).
  step_with ltac:(reflexivity).
  step_with ltac:(unfold get_object; cbn [heap]; rewrite Hc; reflexivity).
  step_with ltac:(unfold get_object; cbn [heap]; rewrite Hi; reflexivity).
  step_with ltac:(apply write_object_run, trailer_data).
  step_with ltac:(apply write_line_run).
  step_with ltac:(reflexivity).
  apply write_line_run.
Qed.

Lemma write_total output w :
  encodable zlib w (objects (pdf w)) ->
  is_Some (heap w !! catalog (pdf w)) -> is_Some (heap w !! info (pdf w)) ->
  exists out w', write zlib output w = (Ok out, w').
Proof.
  intros Henc Hcat Hinfo. unfold write.
  erewrite bind_ok by apply write_header_run.
  destruct (write_body_loop_total (objects (pdf w)) (output ++ header_bytes)
              {| heap := heap w;
                 pdf := set_current_position (current_position (pdf w) + 15) (pdf w) |}
              Henc) as (out2 & w2 & Hbody).
  erewrite bind_ok by exact Hbody.
  apply write_body_loop_inv in Hbody as (body & _ & Hpdf2 & Honly & _ & _).
  cbn [heap pdf current_position set_current_position] in Hpdf2, Honly.
  assert (Hvalid : forall l, is_Some (heap w !! l) -> is_Some (heap w2 !! l)).
  { intros l [o Hl]. destruct (Honly l o Hl) as [pos Hpos]. eauto. }
  destruct (write_xref_loop_total (objects (pdf w2))
              ((out2 ++ B "xref" ++ [nl])
                 ++ (B "0 " ++ dec_of_Z (len (objects (pdf w2)))) ++ [nl])
              {| heap := heap w2;
                 pdf := set_current_position
                          (current_position (pdf w2) + (len (B "xref") + 1)
                           + (len (B "0 " ++ dec_of_Z (len (objects (pdf w2)))) + 1))
                          (set_xref_position (current_position (pdf w2)) (pdf w2)) |})
    as (out3 & w3 & Hxref).
  { intros l Hin. cbn [heap]. apply Hvalid.
    rewrite Hpdf2 in Hin. cbn [objects set_current_position] in Hin.
    destruct (Henc l Hin) as (o & Hl & _). eauto. }
  erewrite (bind_ok (write_cross_reference_table out2)) by exact Hxref.
  apply write_xref_loop_inv in Hxref as (rows & _ & _ & Hheap3 & Hpdf3).
  cbn [heap pdf current_position set_current_position] in Hheap3, Hpdf3.
  apply write_trailer_total; rewrite Hheap3, Hpdf3, Hpdf2;
    cbn [catalog info set_current_position set_xref_position]; auto.
Qed.

(** *** The position follows the output *)

Lemma write_trailer_position output w out w' :
  write_trailer zlib output w = (Ok out, w') ->
  exists produced,
    out = output ++ produced
    /\ current_position (pdf w') = current_position (pdf w) + len produced.
Proof.
  unfold write_trailer. intros Hrun.
  apply bind_inv in Hrun as (output1 & w1 & Hline & Hrun).
  rewrite write_line_run in Hline. apply pair_Ok_inv in Hline as [<- <-].
  apply bind_inv in Hrun as (p & w1 & Hp & Hrun). apply pair_Ok_inv in Hp as [<- <-].
  apply bind_inv in Hrun as (catalog_ & w1 & Hget & Hrun).
  apply get_object_inv in Hget as [_ ->].
  apply bind_inv in Hrun as (info_ & w1 & Hget & Hrun).
  apply get_object_inv in Hget as [_ ->].
  apply bind_inv in Hrun as (output2 & w2 & Hobj & Hrun).
  unfold write_object in Hobj.
  apply bind_inv in Hobj as (d & w1 & Hd & Hobj).
  apply pair_inv in Hd as [Hd <-].
  rewrite write_lines_run in Hobj. apply pair_Ok_inv in Hobj as [<- <-].
  apply bind_inv in Hrun as (output3 & w3 & Hline & Hrun).
  rewrite write_line_run in Hline. apply pair_Ok_inv in Hline as [<- <-].
  apply bind_inv in Hrun as (p & w1 & Hp & Hrun). apply pair_Ok_inv in Hp as [<- <-].
  apply bind_inv in Hrun as (output4 & w4 & Hline & Hrun).
  rewrite write_line_run in Hline. apply pair_Ok_inv in Hline as [<- <-].
  rewrite write_line_run in Hrun. apply pair_Ok_inv in Hrun as [<- <-].
  cbn [heap pdf current_position xref_position set_current_position advanced].
  eexists. split; [rewrite <- !app_assoc; reflexivity|].
  rewrite !len_app. change (len [nl]) with 1. lia.
Qed.

(** [write] advances [current_position] by the number of bytes it
    produced, and never sets it back. *)
Lemma write_position output w out w' :
  write zlib output w = (Ok out, w') ->
  exists produced,
    out = output ++ produced
    /\ current_position (pdf w') = current_position (pdf w) + len produced.
Proof.
  unfold write. intros Hrun.
  apply bind_inv in Hrun as (output1 & w1 & Hhead & Hrun).
  rewrite write_header_run in Hhead. apply pair_Ok_inv in Hhead as [<- <-].
  apply bind_inv in Hrun as (output2 & w2 & Hbody & Hrun).
  unfold write_body in Hbody.
  apply bind_inv in Hbody as (p & w1 & Hp & Hbody). apply pair_Ok_inv in Hp as [<- <-].
  apply write_body_loop_inv in Hbody as (body & -> & Hpdf2 & _).
  cbn [heap pdf objects current_position set_current_position] in *.
  apply bind_inv in Hrun as (output3 & w3 & Hxref & Hrun).
  unfold write_cross_reference_table in Hxref.
  apply bind_inv in Hxref as (p & w1 & Hp & Hxref). apply pair_Ok_inv in Hp as [<- <-].
  apply bind_inv in Hxref as ([] & w1 & Hset & Hxref). apply pair_Ok_inv in Hset as [_ <-].
  apply bind_inv in Hxref as (o1 & w1 & Hline & Hxref).
  rewrite write_line_run in Hline. apply pair_Ok_inv in Hline as [<- <-].
  apply bind_inv in Hxref as (p & w1 & Hp & Hxref). apply pair_Ok_inv in Hp as [<- <-].
  apply bind_inv in Hxref as (o1 & w1 & Hline & Hxref).
  rewrite write_line_run in Hline. apply pair_Ok_inv in Hline as [<- <-].
  apply write_xref_loop_inv in Hxref as (rows & _ & -> & _ & Hpdf3).
  apply write_trailer_position in Hrun as (tail & -> & Hpos).
  rewrite Hpos, Hpdf3, Hpdf2.
  cbn [heap pdf objects current_position xref_position
       set_current_position set_xref_position].
  eexists. split; [rewrite <- !app_assoc; reflexivity|].
  rewrite !len_app. change (len header_bytes) with 15.
  change (len [nl]) with 1. lia.
Qed.

(** A second [write] on the same document starts at the position where
    the first one ended: the offsets it records are the positions in its
    output plus the length of the first output. *)
Lemma second_write_offsets w out1 w1 out2 w2 :
  current_position (pdf w) = 0 ->
  write zlib [] w = (Ok out1, w1) ->
  write zlib [] w1 = (Ok out2, w2) ->
  15 <= len out1
  /\ forall l o,
       l ∈ objects (pdf w1) -> heap w2 !! l = Some o -> free (hdr o) = InUse ->
       exists pre content post,
         indirect zlib (hdr o) (bdy o) = Ok content
         /\ out2 = pre ++ content ++ [nl] ++ post
         /\ offset (hdr o) = len out1 + len pre.
Proof.
  intros Hpos0 Hrun1 Hrun2.
  pose proof (write_position _ _ _ _ Hrun1) as (produced1 & Hout1 & Hpos1).
  cbn [app] in Hout1. subst produced1. rewrite Hpos0, Z.add_0_l in Hpos1.
  split.
  - apply write_inv in Hrun1 as (body & rows & tail & -> & _).
    rewrite app_nil_l, (len_app header_bytes). change (len header_bytes) with 15.
    match goal with
    | |- 15 <= 15 + len ?rest => pose proof (len_nonneg rest)
    end.
    lia.
  - apply write_inv in Hrun2 as (body & rows & tail & -> & _ & _ & _ & _ & Hat).
    intros l o Hin Hl Hfree.
    destruct (Hat l o Hin Hl Hfree) as (pre & content & post & Hc & Hsplit & Hoff).
    exists pre, content. eexists.
    split; [exact Hc|]. split; [|rewrite Hoff, Hpos1; reflexivity].
    cbn [app]. rewrite (app_assoc header_bytes), Hsplit, <- !app_assoc. reflexivity.
Qed.


(** *** The table and the offsets *)

Lemma indirect_form h b content :
  indirect zlib h b = Ok content ->
  exists d, data zlib b = Ok d
            /\ content = str_opt (number h) ++ B " " ++ dec_of_Z (generation h)
                           ++ B " obj" ++ [nl] ++ d ++ [nl] ++ B "endobj".
Proof.
  unfold indirect. destruct (data zlib b) as [d|]; [|discriminate].
  intros Hc. apply Ok_inj in Hc. exists d. split; [reflexivity|].
  rewrite <- Hc. cbn [rbind join]. rewrite <- !app_assoc. reflexivity.
Qed.

(** C1: [write] on a document at position 0 returns when the objects in
    use have an encoding, and then, for every object of the list whose
    free flag is [n], the output holds the indirect form of the object,
    beginning with its number, its generation and [obj], at the byte
    position that the row of the object in the cross-reference table
    records, in ten digits; every line written advances
    [current_position] by its length and one. *)
Theorem C1_xref_offsets w output :
  current_position (pdf w) = 0 ->
  (forall content out0 w0,
      exists w1, write_line content out0 w0 = (Ok (out0 ++ content ++ [nl]), w1)
                 /\ current_position (pdf w1)
                    = current_position (pdf w0) + (len content + 1))
  /\ (encodable zlib w (objects (pdf w)) ->
      is_Some (heap w !! catalog (pdf w)) -> is_Some (heap w !! info (pdf w)) ->
      exists out w', write zlib output w = (Ok out, w'))
  /\ (forall out w',
        write zlib output w = (Ok out, w') ->
        exists before rows after,
          out = output ++ before ++ B "xref" ++ [nl]
                  ++ B "0 " ++ dec_of_Z (len (objects (pdf w))) ++ [nl]
                  ++ concat (map (fun r => r ++ [nl]) rows)
                  ++ B "trailer" ++ [nl] ++ after
          /\ forall i l o,
               objects (pdf w) !! i = Some l -> heap w' !! l = Some o ->
               free (hdr o) = InUse ->
               exists pre d post,
                 out = output ++ pre
                         ++ (str_opt (number (hdr o)) ++ B " "
                               ++ dec_of_Z (generation (hdr o)) ++ B " obj" ++ [nl]
                               ++ d ++ [nl] ++ B "endobj") ++ [nl] ++ post
                 /\ data zlib (bdy o) = Ok d
                 /\ offset (hdr o) = len pre
                 /\ rows !! i
                    = Some (zero_padded 10 (len pre) ++ B " "
                              ++ zero_padded 5 (generation (hdr o)) ++ B " n ")
                 /\ read_dec (zero_padded 10 (len pre)) = len pre).
Proof.
  intros Hpos. split; [|split].
  - intros content out0 w0. eexists. split; [apply write_line_run|]. reflexivity.
  - apply write_total.
  - intros out w' Hrun.
    apply write_inv in Hrun as (body & rows & tail & -> & Hobjs & _ & Hrows & _ & Hat).
    exists (header_bytes ++ body), rows, tail.
    split; [rewrite <- !app_assoc; reflexivity|].
    intros i l o Hi Hl Hfree.
    destruct (Hat l o (list_elem_of_lookup_2 _ _ _ Hi) Hl Hfree)
      as (pre & content & post & Hcontent & Hsplit & Hoff).
    apply indirect_form in Hcontent as (d & Hd & ->).
    rewrite Hpos, Z.add_0_l in Hoff.
    exists pre, d. eexists.
    split.
    { rewrite (app_assoc header_bytes), Hsplit, <- !app_assoc. reflexivity. }
    split; [exact Hd|]. split; [exact Hoff|].
    split.
    + destruct (Forall2_lookup_l _ _ _ _ _ Hrows Hi) as (row & Hrow & o2 & Hl2 & ->).
      assert (o2 = o) by congruence. subst o2.
      etransitivity; [exact Hrow|].
      unfold xref_row. rewrite Hfree, Hoff. reflexivity.
    + apply read_dec_zero_padded, len_nonneg.
Qed.

(** C9, as amended: in the output of [write], the table is the line
    [xref], the line [0 n] for the [n] objects of the list, and one row
    per object in the order of the list, the free head included, before
    the trailer; a row is the offset zero-padded to at least ten digits,
    a space, the generation zero-padded to at least five digits, a space,
    the flag and a space; with its newline it takes 20 bytes when the
    offset is below 10^10 and the generation below 10^5. *)
Theorem C9_xref_table w output out w' :
  write zlib output w = (Ok out, w') ->
  exists before rows after,
    out = output ++ before ++ B "xref" ++ [nl]
            ++ B "0 " ++ dec_of_Z (len (objects (pdf w))) ++ [nl]
            ++ concat (map (fun r => r ++ [nl]) rows)
            ++ B "trailer" ++ [nl] ++ after
    /\ xref_position (pdf w') = Some (current_position (pdf w) + len before)
    /\ Forall2
         (fun l row =>
            exists o,
              heap w' !! l = Some o
              /\ row = zero_padded 10 (offset (hdr o)) ++ B " "
                         ++ zero_padded 5 (generation (hdr o)) ++ B " "
                         ++ free_char (free (hdr o)) ++ B " "
              /\ (0 <= offset (hdr o) < 10 ^ 10 ->
                  0 <= generation (hdr o) < 10 ^ 5 ->
                  length (row ++ [nl]) = 20%nat))
         (objects (pdf w)) rows.
Proof.
  intros Hrun.
  apply write_inv in Hrun as (body & rows & tail & -> & _ & Hxpos & Hrows & _).
  exists (header_bytes ++ body), rows, tail.
  split; [rewrite <- !app_assoc; reflexivity|]. split; [exact Hxpos|].
  eapply Forall2_impl; [exact Hrows|].
  intros l row (o & Hl & ->). exists o. split; [exact Hl|]. split; [reflexivity|].
  intros Hoff Hgen. unfold xref_row.
  rewrite !length_app, !zero_padded_length by (try lia; assumption).
  destruct (free (hdr o)); reflexivity.
Qed.

(** ** [add_page] *)

(** [add_page] on a page other than the page tree itself: the count is
    incremented, the page is registered, and its number, [0] and [R] are
    appended to [Kids]. *)
Lemma add_page_run w page page_ hp items count hk kids :
  let n := len (objects (pdf w)) in
  let items' :=
    dict_set (dict_set items (U "Count") (VInt (count + 1))) (U "Kids")
             (VObj hk (BArray (kids ++ [VInt n; VInt 0; VStr (U "R")]))) in
  page <> pages (pdf w) ->
  heap w !! pages (pdf w) = Some {| hdr := hp; bdy := BDictionary items |} ->
  dict_get items (U "Count") = Some (VInt count) ->
  dict_get items (U "Kids") = Some (VObj hk (BArray kids)) ->
  heap w !! page = Some page_ ->
  exists w',
    add_page page w = (Ok tt, w')
    /\ objects (pdf w') = objects (pdf w) ++ [page]
    /\ pages (pdf w') = pages (pdf w)
    /\ heap w' !! page = Some (set_number n page_)
    /\ heap w' !! pages (pdf w) = Some {| hdr := hp; bdy := BDictionary items' |}
    /\ (forall l, l <> page -> l <> pages (pdf w) -> heap w' !! l = heap w !! l).
Proof.
  intros n items' Hne Hpages Hcount Hkids Hpage.
  pose proof (lookup_lt_Some _ _ _ Hpages) as Hlt_pages.
  pose proof (lookup_lt_Some _ _ _ Hpage) as Hlt_page.
  eexists. split.
  - unfold add_page.
    step_with ltac:(reflexivity).
    step_with ltac:(unfold get_object; rewrite Hpages; reflexivity).
    step_with ltac:(unfold lift, getitem; rewrite Hcount; reflexivity).
    step_with ltac:(reflexivity).
    step_with ltac:(reflexivity).
    step_with ltac:(reflexivity).
    step_with ltac:(apply (add_object_run _ _ page_); cbn [heap];
                    rewrite list_lookup_insert_ne by congruence; exact Hpage).
    step_with ltac:(unfold get_object; cbn [heap];
                    rewrite list_lookup_insert_ne by congruence;
                    rewrite list_lookup_insert_eq by exact Hlt_pages;
                    reflexivity).
    step_with ltac:(unfold lift, getitem;
                    rewrite dict_get_set_ne by discriminate;
                    rewrite Hkids; reflexivity).
    step_with ltac:(unfold get_object; cbn [heap];
                    rewrite list_lookup_insert_eq
                      by (rewrite length_insert; exact Hlt_page);
                    reflexivity).
    step_with ltac:(reflexivity).
    step_with ltac:(reflexivity).
    reflexivity.
  - cbn [heap pdf objects pages set_objects].
    split; [reflexivity|]. split; [reflexivity|].
    split.
    { rewrite list_lookup_insert_ne by congruence.
      apply list_lookup_insert_eq. rewrite length_insert. exact Hlt_page. }
    split.
    { apply list_lookup_insert_eq. rewrite !length_insert. exact Hlt_pages. }
    intros l Hl1 Hl2. rewrite !list_lookup_insert_ne by congruence. reflexivity.
Qed.

(** The three values appended to [Kids] encode as the reference of the
    page when its generation is 0. *)
Lemma kids_triplet_reference (o : object) n :
  number (hdr o) = Some n -> generation (hdr o) = 0 ->
  (let* parts := mapM (to_bytes zlib) [VInt n; VInt 0; VStr (U "R")] in
   Ok (join (B " ") parts))
  = Ok (reference (hdr o)).
Proof.
  intros Hn Hg. unfold reference. rewrite Hn, Hg. reflexivity.
Qed.

End Properties.

(** * Further properties *)

Section Further.
Variable zlib : bytes -> bytes.

(** ** [Array.data] and exceptions in containers *)

(** X1: the encoding of an array is [[], the encodings of its elements in
    order and []], each followed by a space but the last; the empty array
    encodes as [[ ]]. *)
Theorem Array_data_shape items children :
  Forall2 (fun v c => to_bytes zlib v = Ok c) items children ->
  data zlib (BArray items)
  = Ok (B "[ " ++ concat (map (fun c => c ++ B " ") children) ++ B "]").
Proof.
  intros Hall. apply mapM_Forall2 in Hall. cbn [data]. rewrite Hall. cbn [rbind].
  change (B "[" :: children ++ [B "]"]) with ((B "[" :: children) ++ [B "]"]).
  rewrite join_snoc. reflexivity.
Qed.

Lemma mapM_first_error {A C} (f : A -> result C) pre x post bs e :
  mapM f pre = Ok bs -> f x = Raise e -> mapM f (pre ++ x :: post) = Raise e.
Proof.
  revert bs. induction pre as [|a pre IH]; intros bs Hpre Hx; cbn [app mapM].
  - rewrite Hx. reflexivity.
  - cbn [mapM] in Hpre. destruct (f a); [|discriminate].
    destruct (mapM f pre) as [bs'|] eqn:Hrest; [|discriminate].
    rewrite (IH bs' eq_refl Hx). reflexivity.
Qed.

(** X2: when the elements before one encode and that one raises, the data
    of an array, of a stream with these tokens, and of a dictionary with
    these values raises the same exception. *)
Theorem container_first_error x e :
  to_bytes zlib x = Raise e ->
  (forall pre post encoded,
      mapM (to_bytes zlib) pre = Ok encoded ->
      data zlib (BArray (pre ++ x :: post)) = Raise e
      /\ forall extra compress,
           data zlib (BStream (pre ++ x :: post) extra compress) = Raise e)
  /\ (forall entries encoded key kb rest,
        Forall2 (encodes_entry zlib) entries encoded ->
        encode_ascii key = Ok kb ->
        data zlib (BDictionary (entries ++ (key, x) :: rest)) = Raise e).
Proof.
  intros Hx. split.
  - intros pre post encoded Hpre.
    pose proof (mapM_first_error _ _ _ post _ _ Hpre Hx) as Hraise.
    split; [|intros extra compress]; cbn [data]; rewrite Hraise; reflexivity.
  - intros entries encoded key kb rest Hentries Hkey.
    cbn [data]. unfold dict_data_of. rewrite map_app. cbn [map fst snd].
    erewrite mapM_first_error;
      [reflexivity | apply (dict_lines_encoded zlib _ _ Hentries) |].
    cbn [fst snd]. rewrite Hkey, Hx. reflexivity.
Qed.

(** ** Lines *)

Lemma split_lines_cons d : exists line lines, split_lines d = line :: lines.
Proof.
  destruct d as [|c d]; cbn [split_lines]; [eauto|].
  destruct (Ascii.eqb c nl); [eauto|]. destruct (split_lines d); eauto.
Qed.

(** Splitting at newlines and ending every piece with a newline gives the
    bytes back, with a newline. *)
Lemma concat_split_lines d :
  concat (map (fun p => p ++ [nl]) (split_lines d)) = d ++ [nl].
Proof.
  induction d as [|c d IH]; [reflexivity|]. cbn [split_lines].
  destruct (Ascii.eqb_spec c nl) as [->|Hc].
  - cbn [map concat app]. rewrite IH. reflexivity.
  - destruct (split_lines d) as [|line lines]; cbn [map concat app] in *.
    + destruct d; discriminate IH.
    + rewrite <- IH. reflexivity.
Qed.

Lemma join_cons sep (p q : bytes) rest :
  join sep (p :: q :: rest) = p ++ sep ++ join sep (q :: rest).
Proof. reflexivity. Qed.

(** [b'\n'.join(data.split(b'\n')) == data] *)
Lemma join_split_lines d : join [nl] (split_lines d) = d.
Proof.
  induction d as [|c d IH]; [reflexivity|]. cbn [split_lines].
  destruct (Ascii.eqb_spec c nl) as [->|Hc].
  - destruct (split_lines_cons d) as (line & lines & Hd). rewrite Hd in *.
    rewrite join_cons, IH. reflexivity.
  - destruct (split_lines_cons d) as (line & lines & Hd). rewrite Hd in *.
    destruct lines as [|line2 lines].
    + cbn [join] in *. rewrite IH. reflexivity.
    + rewrite join_cons in *. rewrite <- IH. reflexivity.
Qed.

Lemma split_lines_newline_free d :
  Forall (fun line => newline_free line = true) (split_lines d).
Proof.
  induction d as [|c d IH]; cbn [split_lines]; [repeat constructor|].
  destruct (Ascii.eqb c nl) eqn:Hc; [constructor; [reflexivity | exact IH]|].
  destruct (split_lines_cons d) as (line & lines & Hd). rewrite Hd in *.
  inversion IH as [|? ? Hline Hlines]; subst.
  constructor; [|exact Hlines].
  unfold newline_free in *. cbn [forallb]. rewrite Hc, Hline. reflexivity.
Qed.

(** X3: [write_object] on an object whose data is [d] writes [d] and a
    newline, whatever newlines [d] holds, and advances [current_position]
    by the length of [d] and one; every line it writes is free of
    newlines. *)
Theorem write_object_writes_data b d output w :
  data zlib b = Ok d ->
  write_object zlib b output w = (Ok (output ++ d ++ [nl]), advanced (len d + 1) w)
  /\ join [nl] (split_lines d) = d
  /\ Forall (fun line => newline_free line = true) (split_lines d).
Proof.
  intros Hd. split; [|split].
  - rewrite (write_object_run zlib b d output w Hd), concat_split_lines, len_app.
    reflexivity.
  - apply join_split_lines.
  - apply split_lines_newline_free.
Qed.

(** ** The output of [write] *)

Lemma bind_raise {S A C} (m : ST S A) (k : A -> ST S C) s e s' :
  m s = (Raise e, s') -> bind m k s = (Raise e, s').
Proof. unfold bind. intros ->. reflexivity. Qed.

Lemma body_forms_set_offset h l o pos ls :
  h !! l = Some o ->
  body_forms zlib (<[l := set_offset pos o]> h) ls = body_forms zlib h ls.
Proof.
  intros Hl. induction ls as [|l' ls IH]; [reflexivity|]. cbn [body_forms].
  destruct (decide (l' = l)) as [->|Hne].
  - rewrite list_lookup_insert_eq by (eapply lookup_lt_Some, Hl). rewrite Hl.
    cbn [set_offset hdr bdy free]. rewrite IH.
    destruct (free (hdr o)); reflexivity.
  - rewrite list_lookup_insert_ne by congruence. rewrite IH. reflexivity.
Qed.

(** The loop of [write_body] writes the indirect forms of the objects in
    use, in the order of the list, and nothing else. *)
Lemma write_body_loop_exact ls : forall output w out w',
  write_body_loop zlib ls output w = (Ok out, w') ->
  exists forms,
    mapM (fun r => r) (body_forms zlib (heap w) ls) = Ok forms
    /\ out = output ++ concat (map (fun c => c ++ [nl]) forms).
Proof.
  induction ls as [|l ls IH]; intros output w out w' Hrun.
  - apply pair_Ok_inv in Hrun as [<- _]. exists []. rewrite app_nil_r. auto.
  - cbn [write_body_loop] in Hrun.
    apply bind_inv in Hrun as (o & w1 & Hget & Hrun).
    apply get_object_inv in Hget as [Hl ->].
    cbn [body_forms]. rewrite Hl.
    destruct (free (hdr o)) eqn:Hfree; [|exact (IH _ _ _ _ Hrun)].
    apply bind_inv in Hrun as (p & w1 & Hp & Hrun).
    apply pair_Ok_inv in Hp as [<- <-].
    apply bind_inv in Hrun as ([] & w1 & Hset & Hrun).
    apply pair_Ok_inv in Hset as [_ <-].
    apply bind_inv in Hrun as (content & w1 & Hind & Hrun).
    apply pair_inv in Hind as [Hind <-].
    change (indirect zlib (hdr o) (bdy o) = Ok content) in Hind.
    apply bind_inv in Hrun as (output1 & w2 & Hline & Hrun).
    rewrite write_line_run in Hline. apply pair_Ok_inv in Hline as [<- <-].
    apply IH in Hrun as (forms & Hforms & ->).
    cbn [heap] in Hforms. rewrite (body_forms_set_offset _ _ _ _ _ Hl) in Hforms.
    exists (content :: forms). cbn [mapM]. rewrite Hind, Hforms.
    split; [reflexivity|]. cbn [map concat]. rewrite <- !app_assoc. reflexivity.
Qed.

Lemma write_trailer_exact output w out w' :
  write_trailer zlib output w = (Ok out, w') ->
  exists c i,
    heap w !! catalog (pdf w) = Some c
    /\ heap w !! info (pdf w) = Some i
    /\ out = output ++ trailer_bytes (len (objects (pdf w))) (reference (hdr c))
                                     (reference (hdr i)) (xref_position (pdf w)).
Proof.
  unfold write_trailer. intros Hrun.
  apply bind_inv in Hrun as (output1 & w1 & Hline & Hrun).
  rewrite write_line_run in Hline. apply pair_Ok_inv in Hline as [<- <-].
  apply bind_inv in Hrun as (p & w1 & Hp & Hrun). apply pair_Ok_inv in Hp as [<- <-].
  apply bind_inv in Hrun as (c & w1 & Hget & Hrun).
  apply get_object_inv in Hget as [Hc ->].
  apply bind_inv in Hrun as (i & w1 & Hget & Hrun).
  apply get_object_inv in Hget as [Hi ->].
  apply bind_inv in Hrun as (output2 & w2 & Hobj & Hrun).
  rewrite (write_object_run zlib _ _ _ _ (trailer_data zlib _ _ _)) in Hobj.
  apply pair_Ok_inv in Hobj as [<- <-].
  apply bind_inv in Hrun as (output3 & w3 & Hline & Hrun).
  rewrite write_line_run in Hline. apply pair_Ok_inv in Hline as [<- <-].
  apply bind_inv in Hrun as (p & w1 & Hp & Hrun). apply pair_Ok_inv in Hp as [<- <-].
  apply bind_inv in Hrun as (output4 & w4 & Hline & Hrun).
  rewrite write_line_run in Hline. apply pair_Ok_inv in Hline as [<- <-].
  rewrite write_line_run in Hrun. apply pair_Ok_inv in Hrun as [<- _].
  cbn [heap pdf objects catalog info xref_position set_current_position advanced] in *.
  exists c, i. split; [exact Hc|]. split; [exact Hi|].
  rewrite concat_split_lines. unfold trailer_bytes.
  rewrite <- !app_assoc. reflexivity.
Qed.

(** The whole output of a successful [write]. *)
Lemma write_output output w out w' :
  write zlib output w = (Ok out, w') ->
  exists forms rows c i,
    mapM (fun r => r) (body_forms zlib (heap w) (objects (pdf w))) = Ok forms
    /\ rows_of w' (objects (pdf w)) rows
    /\ heap w' !! catalog (pdf w) = Some c
    /\ heap w' !! info (pdf w) = Some i
    /\ xref_position (pdf w')
       = Some (current_position (pdf w)
               + len (header_bytes ++ concat (map (fun c => c ++ [nl]) forms)))
    /\ out = output
               ++ (header_bytes ++ concat (map (fun c => c ++ [nl]) forms))
               ++ (B "xref" ++ [nl] ++ B "0 " ++ dec_of_Z (len (objects (pdf w)))
                     ++ [nl] ++ concat (map (fun r => r ++ [nl]) rows))
               ++ trailer_bytes
                    (len (objects (pdf w))) (reference (hdr c)) (reference (hdr i))
                    (Some (current_position (pdf w)
                           + len (header_bytes
                                    ++ concat (map (fun c => c ++ [nl]) forms)))).
Proof.
  unfold write. intros Hrun.
  apply bind_inv in Hrun as (output1 & w1 & Hhead & Hrun).
  rewrite write_header_run in Hhead. apply pair_Ok_inv in Hhead as [<- <-].
  apply bind_inv in Hrun as (output2 & w2 & Hbody & Hrun).
  unfold write_body in Hbody.
  apply bind_inv in Hbody as (p & w1 & Hp & Hbody). apply pair_Ok_inv in Hp as [<- <-].
  pose proof (write_body_loop_exact _ _ _ _ _ Hbody) as (forms & Hforms & Hout2).
  apply write_body_loop_inv in Hbody as (body & Hout2' & Hpdf2 & _).
  rewrite Hout2 in Hout2'. apply app_inv_head in Hout2'. subst body output2.
  cbn [heap pdf objects current_position set_current_position] in *.
  apply bind_inv in Hrun as (output3 & w3 & Hxref & Hrun).
  unfold write_cross_reference_table in Hxref.
  apply bind_inv in Hxref as (p & w1 & Hp & Hxref). apply pair_Ok_inv in Hp as [<- <-].
  apply bind_inv in Hxref as ([] & w1 & Hset & Hxref). apply pair_Ok_inv in Hset as [_ <-].
  apply bind_inv in Hxref as (o1 & w1 & Hline & Hxref).
  rewrite write_line_run in Hline. apply pair_Ok_inv in Hline as [<- <-].
  apply bind_inv in Hxref as (p & w1 & Hp & Hxref). apply pair_Ok_inv in Hp as [<- <-].
  apply bind_inv in Hxref as (o1 & w1 & Hline & Hxref).
  rewrite write_line_run in Hline. apply pair_Ok_inv in Hline as [<- <-].
  apply write_xref_loop_inv in Hxref as (rows & Hrows & -> & Hheap3 & Hpdf3).
  pose proof (write_trailer_inv zlib _ _ _ _ Hrun) as (tail & _ & Hheap4 & _ & Hx4).
  apply write_trailer_exact in Hrun as (c & i & Hc & Hi & ->).
  rewrite Hpdf3, Hpdf2 in Hc, Hi, Hx4 |- *. rewrite Hheap3 in Hc, Hi.
  rewrite Hpdf2 in Hrows.
  cbn [heap pdf objects catalog info current_position xref_position
       set_current_position set_xref_position] in *.
  exists forms, rows, c, i.
  split; [exact Hforms|].
  split; [unfold rows_of in *; rewrite Hheap4, Hheap3; exact Hrows|].
  split; [rewrite Hheap4, Hheap3; exact Hc|].
  split; [rewrite Hheap4, Hheap3; exact Hi|].
  rewrite (len_app header_bytes). change (len header_bytes) with 15.
  rewrite Z.add_assoc. split; [exact Hx4|].
  rewrite <- !app_assoc. reflexivity.
Qed.

Lemma body_forms_in_use h ls : forall forms,
  mapM (fun r => r) (body_forms zlib h ls) = Ok forms ->
  Forall2 (fun l form => exists o, h !! l = Some o
                                   /\ indirect zlib (hdr o) (bdy o) = Ok form)
          (List.filter (in_use h) ls) forms.
Proof.
  induction ls as [|l ls IH]; intros forms Hforms; cbn [body_forms List.filter] in *.
  - apply Ok_inj in Hforms as <-. constructor.
  - unfold in_use at 1. destruct (h !! l) as [o|] eqn:Hl; [|auto].
    destruct (free (hdr o)) eqn:Hfree; [|auto].
    cbn [mapM] in Hforms.
    destruct (indirect zlib (hdr o) (bdy o)) as [form|] eqn:Hform; [|discriminate].
    destruct (mapM (fun r => r) (body_forms zlib h ls)) as [rest|] eqn:Hrest;
      [|discriminate].
    apply Ok_inj in Hforms as <-. constructor; [eauto | apply IH; reflexivity].
Qed.

(** X4: the body that [write] writes after the header is made of the
    indirect forms of the objects in use, one per entry of the list of
    objects and in the order of the list, each followed by a newline; a
    free object is skipped, and the line [xref] follows at once. *)
Theorem write_body_in_use_objects output w out w' :
  write zlib output w = (Ok out, w') ->
  exists forms rest,
    Forall2 (fun l form => exists o, heap w !! l = Some o
                                     /\ indirect zlib (hdr o) (bdy o) = Ok form)
            (List.filter (in_use (heap w)) (objects (pdf w))) forms
    /\ out = output ++ header_bytes ++ concat (map (fun c => c ++ [nl]) forms)
               ++ B "xref" ++ [nl] ++ rest.
Proof.
  intros Hrun.
  apply write_output in Hrun as (forms & rows & c & i & Hforms & _ & _ & _ & _ & ->).
  exists forms. eexists. split; [apply body_forms_in_use, Hforms|].
  rewrite <- !app_assoc. reflexivity.
Qed.

(** X5: a [write] on an empty sink by a document at position 0 ends with
    the trailer dictionary of [Size] the number of listed objects, [Root]
    the reference of the catalog and [Info] the reference of the info
    dictionary, then [startxref] and the number of bytes written before
    the line [xref]; [xref_position] holds that number. *)
Theorem startxref_points_at_table w out w' :
  current_position (pdf w) = 0 ->
  write zlib [] w = (Ok out, w') ->
  exists head table c i,
    heap w' !! catalog (pdf w) = Some c
    /\ heap w' !! info (pdf w) = Some i
    /\ out = head ++ (B "xref" ++ [nl] ++ table)
               ++ B "trailer" ++ [nl] ++ B "<<" ++ [nl]
               ++ B "/Size " ++ dec_of_Z (len (objects (pdf w))) ++ [nl]
               ++ B "/Root " ++ reference (hdr c) ++ [nl]
               ++ B "/Info " ++ reference (hdr i) ++ [nl] ++ B ">>" ++ [nl]
               ++ B "startxref" ++ [nl] ++ dec_of_Z (len head) ++ [nl]
               ++ B "%%EOF" ++ [nl]
    /\ xref_position (pdf w') = Some (len head)
    /\ read_dec (dec_of_Z (len head)) = len head.
Proof.
  intros Hpos Hrun.
  apply write_output in Hrun as (forms & rows & c & i & _ & _ & Hc & Hi & Hx & ->).
  rewrite Hpos, Z.add_0_l in Hx |- *.
  eexists _, _, c, i.
  split; [exact Hc|]. split; [exact Hi|].
  split; [|split; [exact Hx | apply read_dec_of_Z, len_nonneg]].
  unfold trailer_bytes. cbn [str_opt app]. rewrite <- !app_assoc. reflexivity.
Qed.

(** ** [write] raises *)

Lemma write_body_loop_raises pre : forall l post o e output w,
  encodable zlib w pre -> heap w !! l = Some o -> free (hdr o) = InUse ->
  data zlib (bdy o) = Raise e ->
  exists w', write_body_loop zlib (pre ++ l :: post) output w = (Raise e, w')
             /\ xref_position (pdf w') = xref_position (pdf w).
Proof.
  induction pre as [|a pre IH]; intros l post o e output w Henc Hl Hfree Hd;
    cbn [app write_body_loop].
  - erewrite bind_ok by (unfold get_object; rewrite Hl; reflexivity).
    rewrite Hfree.
    erewrite bind_ok by reflexivity.
    erewrite bind_ok by reflexivity.
    erewrite bind_raise
      by (unfold lift, indirect; cbn [set_offset hdr bdy]; rewrite Hd; reflexivity).
    eexists. split; reflexivity.
  - destruct (Henc a) as (oa & Ha & Hdata); [left|].
    erewrite bind_ok by (unfold get_object; rewrite Ha; reflexivity).
    destruct (free (hdr oa)) eqn:Hfa.
    + destruct (Hdata eq_refl) as [d Hda].
      erewrite bind_ok by reflexivity.
      erewrite bind_ok by reflexivity.
      erewrite bind_ok by (unfold lift, indirect; cbn [set_offset hdr bdy];
                           rewrite Hda; reflexivity).
      erewrite bind_ok by apply write_line_run.
      assert (Hne : l <> a) by (intros ->; congruence).
      match goal with
      | |- exists w', write_body_loop _ _ ?out ?W = _ /\ _ =>
          destruct (IH l post o e out W) as (w' & Hrun & Hx);
            [| |exact Hfree|exact Hd|]
      end.
      * intros l' Hin. cbn [heap].
        destruct (decide (l' = a)) as [->|Hne'].
        -- rewrite list_lookup_insert_eq by (eapply lookup_lt_Some, Ha).
           eexists; split; [reflexivity|]. cbn [set_offset hdr bdy free]. eauto.
        -- rewrite list_lookup_insert_ne by congruence.
           apply Henc. right. exact Hin.
      * cbn [heap]. rewrite list_lookup_insert_ne by congruence. exact Hl.
      * exists w'. split; [exact Hrun|]. rewrite Hx. reflexivity.
    + apply (IH l post o e); auto. intros l' Hin. apply Henc. right. exact Hin.
Qed.

(** X6: when the objects listed before one encode, and that one is in use
    and its data raises, [write] raises the same exception, before the
    cross-reference table is started.  A plain [Object] in use makes
    [write] raise [NotImplementedError]. *)
Theorem write_raises_first_failure output w pre l post o e :
  objects (pdf w) = pre ++ l :: post ->
  encodable zlib w pre ->
  heap w !! l = Some o -> free (hdr o) = InUse ->
  data zlib (bdy o) = Raise e ->
  (exists w', write zlib output w = (Raise e, w')
              /\ xref_position (pdf w') = xref_position (pdf w))
  /\ (bdy o = BObject -> e = NotImplementedError).
Proof.
  intros Hobjs Henc Hl Hfree Hd. split.
  - unfold write.
    erewrite bind_ok by apply write_header_run.
    destruct (write_body_loop_raises pre l post o e (output ++ header_bytes)
                {| heap := heap w;
                   pdf := set_current_position (current_position (pdf w) + 15) (pdf w) |}
                Henc Hl Hfree Hd) as (w' & Hrun & Hx).
    exists w'. split; [|exact Hx].
    apply bind_raise. unfold write_body.
    erewrite bind_ok by reflexivity.
    cbn [pdf objects set_current_position]. rewrite Hobjs. exact Hrun.
  - intros Hb. rewrite Hb in Hd. cbn [data] in Hd. congruence.
Qed.

(** ** What [write] keeps *)

Lemma write_trailer_world output w out w' :
  write_trailer zlib output w = (Ok out, w') ->
  heap w' = heap w
  /\ pdf w' = set_current_position (current_position (pdf w')) (pdf w).
Proof.
  unfold write_trailer. intros Hrun.
  apply bind_inv in Hrun as (output1 & w1 & Hline & Hrun).
  rewrite write_line_run in Hline. apply pair_Ok_inv in Hline as [<- <-].
  apply bind_inv in Hrun as (p & w1 & Hp & Hrun). apply pair_Ok_inv in Hp as [<- <-].
  apply bind_inv in Hrun as (c & w1 & Hget & Hrun).
  apply get_object_inv in Hget as [Hc ->].
  apply bind_inv in Hrun as (i & w1 & Hget & Hrun).
  apply get_object_inv in Hget as [Hi ->].
  apply bind_inv in Hrun as (output2 & w2 & Hobj & Hrun).
  rewrite (write_object_run zlib _ _ _ _ (trailer_data zlib _ _ _)) in Hobj.
  apply pair_Ok_inv in Hobj as [<- <-].
  apply bind_inv in Hrun as (output3 & w3 & Hline & Hrun).
  rewrite write_line_run in Hline. apply pair_Ok_inv in Hline as [<- <-].
  apply bind_inv in Hrun as (p & w1 & Hp & Hrun). apply pair_Ok_inv in Hp as [<- <-].
  apply bind_inv in Hrun as (output4 & w4 & Hline & Hrun).
  rewrite write_line_run in Hline. apply pair_Ok_inv in Hline as [<- <-].
  rewrite write_line_run in Hrun. apply pair_Ok_inv in Hrun as [_ <-].
  split; reflexivity.
Qed.

Lemma write_fields output w out w' :
  write zlib output w = (Ok out, w') ->
  objects (pdf w') = objects (pdf w) /\ pages (pdf w') = pages (pdf w)
  /\ info (pdf w') = info (pdf w) /\ catalog (pdf w') = catalog (pdf w)
  /\ (forall l o, heap w !! l = Some o ->
        exists pos, heap w' !! l = Some (set_offset pos o))
  /\ (forall l o, heap w !! l = Some o -> l ∉ objects (pdf w) ->
        heap w' !! l = Some o).
Proof.
  unfold write. intros Hrun.
  apply bind_inv in Hrun as (output1 & w1 & Hhead & Hrun).
  rewrite write_header_run in Hhead. apply pair_Ok_inv in Hhead as [<- <-].
  apply bind_inv in Hrun as (output2 & w2 & Hbody & Hrun).
  unfold write_body in Hbody.
  apply bind_inv in Hbody as (p & w1 & Hp & Hbody). apply pair_Ok_inv in Hp as [<- <-].
  apply write_body_loop_inv in Hbody as (body & _ & Hpdf2 & Hoff & Hsame & _).
  cbn [heap pdf objects current_position set_current_position] in *.
  apply bind_inv in Hrun as (output3 & w3 & Hxref & Hrun).
  unfold write_cross_reference_table in Hxref.
  apply bind_inv in Hxref as (p & w1 & Hp & Hxref). apply pair_Ok_inv in Hp as [<- <-].
  apply bind_inv in Hxref as ([] & w1 & Hset & Hxref). apply pair_Ok_inv in Hset as [_ <-].
  apply bind_inv in Hxref as (o1 & w1 & Hline & Hxref).
  rewrite write_line_run in Hline. apply pair_Ok_inv in Hline as [<- <-].
  apply bind_inv in Hxref as (p & w1 & Hp & Hxref). apply pair_Ok_inv in Hp as [<- <-].
  apply bind_inv in Hxref as (o1 & w1 & Hline & Hxref).
  rewrite write_line_run in Hline. apply pair_Ok_inv in Hline as [<- <-].
  apply write_xref_loop_inv in Hxref as (rows & _ & _ & Hheap3 & Hpdf3).
  apply write_trailer_world in Hrun as (Hheap4 & Hpdf4).
  rewrite Hpdf4, Hpdf3, Hpdf2, Hheap4, Hheap3.
  cbn [heap pdf objects pages catalog info current_position xref_position
       set_current_position set_xref_position] in *.
  repeat split; auto.
Qed.

(** X7: a [write] that returns leaves the list of objects, the page tree,
    the info dictionary and the catalog of the document in place; every
    object keeps its number, generation, flag and content, only offsets
    change, and an object that is not listed is unchanged.  After it,
    [write] returns again on any sink. *)
Theorem write_keeps_document output w out w' :
  write zlib output w = (Ok out, w') ->
  objects (pdf w') = objects (pdf w) /\ pages (pdf w') = pages (pdf w)
  /\ info (pdf w') = info (pdf w) /\ catalog (pdf w') = catalog (pdf w)
  /\ (forall l o, heap w !! l = Some o ->
        exists pos, heap w' !! l = Some (set_offset pos o))
  /\ (forall l o, heap w !! l = Some o -> l ∉ objects (pdf w) ->
        heap w' !! l = Some o)
  /\ (forall output2, exists out2 w2, write zlib output2 w' = (Ok out2, w2)).
Proof.
  intros Hrun.
  pose proof (write_fields _ _ _ _ Hrun) as (Hobjs & Hpages & Hinfo & Hcat & Hoff & Hsame).
  do 6 (split; [assumption|]).
  pose proof (write_inv zlib _ _ _ _ Hrun) as (body & rows & tail & _ & _ & _ & Hrows & _ & Hind).
  apply write_output in Hrun as (_ & _ & c & i & _ & _ & Hc & Hi & _).
  intros output2. apply write_total.
  - rewrite Hobjs. intros l Hin.
    apply list_elem_of_lookup_1 in Hin as [k Hk].
    destruct (Forall2_lookup_l _ _ _ _ _ Hrows Hk) as (row & _ & o' & Hl & _).
    exists o'. split; [exact Hl|]. intros Hfree.
    destruct (Hind l o') as (pre & content & post & Hcontent & _);
      [eapply list_elem_of_lookup_2, Hk | exact Hl | exact Hfree |].
    apply indirect_form in Hcontent as (d & Hd & _). eauto.
  - rewrite Hcat. eauto.
  - rewrite Hinfo. eauto.
Qed.

(** ** Pages *)

Lemma add_page_world w page page_ hp items count hk kids :
  page <> pages (pdf w) ->
  heap w !! pages (pdf w) = Some {| hdr := hp; bdy := BDictionary items |} ->
  dict_get items (U "Count") = Some (VInt count) ->
  dict_get items (U "Kids") = Some (VObj hk (BArray kids)) ->
  heap w !! page = Some page_ ->
  exists w',
    add_page page w = (Ok tt, w')
    /\ pdf w' = set_objects (objects (pdf w) ++ [page]) (pdf w)
    /\ heap w' !! page = Some (set_number (len (objects (pdf w))) page_)
    /\ heap w' !! pages (pdf w)
       = Some {| hdr := hp;
                 bdy := BDictionary
                          (dict_set (dict_set items (U "Count") (VInt (count + 1)))
                                    (U "Kids")
                                    (VObj hk (BArray (kids ++ [VInt (len (objects (pdf w)));
                                                               VInt 0; VStr (U "R")])))) |}
    /\ (forall l, l <> page -> l <> pages (pdf w) -> heap w' !! l = heap w !! l).
Proof.
  intros Hne Hpages Hcount Hkids Hpage.
  pose proof (lookup_lt_Some _ _ _ Hpages) as Hlt_pages.
  pose proof (lookup_lt_Some _ _ _ Hpage) as Hlt_page.
  eexists. split.
  - unfold add_page.
    step_with ltac:(reflexivity).
    step_with ltac:(unfold get_object; rewrite Hpages; reflexivity).
    step_with ltac:(unfold lift, getitem; rewrite Hcount; reflexivity).
    step_with ltac:(reflexivity).
    step_with ltac:(reflexivity).
    step_with ltac:(reflexivity).
    step_with ltac:(apply (add_object_run _ _ page_); cbn [heap];
                    rewrite list_lookup_insert_ne by congruence; exact Hpage).
    step_with ltac:(unfold get_object; cbn [heap];
                    rewrite list_lookup_insert_ne by congruence;
                    rewrite list_lookup_insert_eq by exact Hlt_pages;
                    reflexivity).
    step_with ltac:(unfold lift, getitem;
                    rewrite dict_get_set_ne by discriminate;
                    rewrite Hkids; reflexivity).
    step_with ltac:(unfold get_object; cbn [heap];
                    rewrite list_lookup_insert_eq
                      by (rewrite length_insert; exact Hlt_page);
                    reflexivity).
    step_with ltac:(reflexivity).
    step_with ltac:(reflexivity).
    reflexivity.
  - cbn [heap pdf objects pages set_objects].
    split; [reflexivity|].
    split.
    { rewrite list_lookup_insert_ne by congruence.
      apply list_lookup_insert_eq. rewrite length_insert. exact Hlt_page. }
    split.
    { apply list_lookup_insert_eq. rewrite !length_insert. exact Hlt_pages. }
    intros l Hl1 Hl2. rewrite !list_lookup_insert_ne by congruence. reflexivity.
Qed.

Lemma add_pages_inv ps : forall w hp items count hk kids,
  heap w !! pages (pdf w) = Some {| hdr := hp; bdy := BDictionary items |} ->
  dict_get items (U "Count") = Some (VInt count) ->
  dict_get items (U "Kids") = Some (VObj hk (BArray kids)) ->
  Forall (fun page => page <> pages (pdf w) /\ is_Some (heap w !! page)) ps ->
  exists w' items',
    add_pages ps w = (Ok tt, w')
    /\ pdf w' = set_objects (objects (pdf w) ++ ps) (pdf w)
    /\ heap w' !! pages (pdf w) = Some {| hdr := hp; bdy := BDictionary items' |}
    /\ dict_get items' (U "Count") = Some (VInt (count + len ps))
    /\ dict_get items' (U "Kids")
       = Some (VObj hk (BArray (kids ++ page_triplets (len (objects (pdf w)))
                                                      (length ps))))
    /\ (forall k, k <> U "Count" -> k <> U "Kids" ->
          dict_get items' k = dict_get items k)
    /\ map fst items' = map fst items
    /\ (forall l o, heap w !! l = Some o -> l <> pages (pdf w) ->
          exists o', heap w' !! l = Some o' /\ bdy o' = bdy o
                     /\ free (hdr o') = free (hdr o)
                     /\ generation (hdr o') = generation (hdr o)).
Proof.
  induction ps as [|page ps IH]; intros w hp items count hk kids Hpages Hcount Hkids Hps.
  - exists w, items. cbn [add_pages page_triplets length].
    rewrite !app_nil_r. change (len (@nil nat)) with 0. rewrite Z.add_0_r.
    split; [reflexivity|]. split; [destruct (pdf w); reflexivity|].
    repeat split; eauto.
  - inversion Hps as [|? ? [Hne [page_ Hpage]] Hrest]; subst.
    destruct (add_page_world w page page_ hp items count hk kids
                Hne Hpages Hcount Hkids Hpage)
      as (w1 & Hadd & Hpdf1 & Hpage1 & Htree1 & Hother1).
    assert (Hpages1 : pages (pdf w1) = pages (pdf w)) by (rewrite Hpdf1; reflexivity).
    assert (Hobjs1 : objects (pdf w1) = objects (pdf w) ++ [page])
      by (rewrite Hpdf1; reflexivity).
    edestruct (IH w1 hp)
      as (w' & items' & Hrun & Hpdf & Htree & Hc & Hk & Hkeep & Hkeys & Hframe).
    + rewrite Hpages1. exact Htree1.
    + rewrite dict_get_set_ne by discriminate. apply dict_get_set_eq.
    + apply dict_get_set_eq.
    + rewrite Hpages1. eapply Forall_impl; [exact Hrest|].
      intros l [Hl1 [o Hl]]. split; [exact Hl1|].
      destruct (decide (l = page)) as [->|Hl2]; [rewrite Hpage1; eauto|].
      rewrite Hother1 by assumption. eauto.
    + exists w', items'. cbn [add_pages].
      erewrite bind_ok by exact Hadd.
      split; [exact Hrun|].
      split; [rewrite Hpdf, Hpdf1; cbn [objects set_objects pages info catalog
                current_position xref_position]; rewrite <- app_assoc; reflexivity|].
      split; [rewrite <- Hpages1; exact Htree|].
      split; [rewrite Hc; do 2 f_equal; unfold len; cbn [length]; lia|].
      split; [rewrite Hk, Hobjs1, len_app, <- app_assoc; reflexivity|].
      split.
      { intros k Hk1 Hk2. rewrite Hkeep by assumption.
        rewrite !dict_get_set_ne by congruence. reflexivity. }
      split.
      { rewrite Hkeys.
        erewrite dict_set_keys
          by (rewrite dict_get_set_ne by discriminate; exact Hkids).
        eapply dict_set_keys, Hcount. }
      intros l o Hl Hlp.
      destruct (decide (l = page)) as [->|Hl2].
      * rewrite Hpage in Hl. injection Hl as <-.
        destruct (Hframe page _ Hpage1) as (o' & Ho' & Hb & Hf & Hg);
          [rewrite Hpages1; exact Hlp|].
        exists o'. auto.
      * apply (Hframe l o); [rewrite Hother1 by assumption; exact Hl|].
        rewrite Hpages1. exact Hlp.
Qed.

(** X8: adding pages one after the other to a page tree whose [Count] is
    an integer and whose [Kids] is an array lists the pages in order after
    the objects of the document, adds their number to [Count], and appends
    to [Kids] one triplet per page, numbered from the number of objects on;
    the other entries of the page tree are kept. *)
Theorem add_pages_run ps w hp items count hk kids :
  heap w !! pages (pdf w) = Some {| hdr := hp; bdy := BDictionary items |} ->
  dict_get items (U "Count") = Some (VInt count) ->
  dict_get items (U "Kids") = Some (VObj hk (BArray kids)) ->
  Forall (fun page => page <> pages (pdf w) /\ is_Some (heap w !! page)) ps ->
  exists w' items',
    add_pages ps w = (Ok tt, w')
    /\ objects (pdf w') = objects (pdf w) ++ ps
    /\ heap w' !! pages (pdf w) = Some {| hdr := hp; bdy := BDictionary items' |}
    /\ dict_get items' (U "Count") = Some (VInt (count + len ps))
    /\ dict_get items' (U "Kids")
       = Some (VObj hk (BArray (kids ++ page_triplets (len (objects (pdf w)))
                                                      (length ps))))
    /\ (forall k, k <> U "Count" -> k <> U "Kids" ->
          dict_get items' k = dict_get items k).
Proof.
  intros Hpages Hcount Hkids Hps.
  destruct (add_pages_inv ps w hp items count hk kids Hpages Hcount Hkids Hps)
    as (w' & items' & Hrun & Hpdf & Htree & Hc & Hk & Hkeep & _).
  exists w', items'. rewrite Hpdf. cbn [objects set_objects]. auto 10.
Qed.

(** X9: [add_page] is not atomic.  On a page tree without [Count] it
    raises [KeyError] and changes nothing; on a page tree with [Count] but
    without [Kids] it raises [KeyError] after [Count] is incremented and
    the page is registered. *)
Theorem add_page_missing_entry w page hp items :
  heap w !! pages (pdf w) = Some {| hdr := hp; bdy := BDictionary items |} ->
  (dict_get items (U "Count") = None -> add_page page w = (Raise KeyError, w))
  /\ (forall count page_,
        page <> pages (pdf w) ->
        dict_get items (U "Count") = Some (VInt count) ->
        dict_get items (U "Kids") = None ->
        heap w !! page = Some page_ ->
        exists w',
          add_page page w = (Raise KeyError, w')
          /\ objects (pdf w') = objects (pdf w) ++ [page]
          /\ heap w' !! page = Some (set_number (len (objects (pdf w))) page_)
          /\ heap w' !! pages (pdf w)
             = Some {| hdr := hp;
                       bdy := BDictionary
                                (dict_set items (U "Count") (VInt (count + 1))) |}).
Proof.
  intros Hpages. split.
  - intros Hcount. unfold add_page.
    step_with ltac:(reflexivity).
    step_with ltac:(unfold get_object; rewrite Hpages; reflexivity).
    apply bind_raise. unfold lift, getitem. rewrite Hcount. reflexivity.
  - intros count page_ Hne Hcount Hkids Hpage.
    pose proof (lookup_lt_Some _ _ _ Hpages) as Hlt_pages.
    pose proof (lookup_lt_Some _ _ _ Hpage) as Hlt_page.
    eexists. split.
    + unfold add_page.
      step_with ltac:(reflexivity).
      step_with ltac:(unfold get_object; rewrite Hpages; reflexivity).
      step_with ltac:(unfold lift, getitem; rewrite Hcount; reflexivity).
      step_with ltac:(reflexivity).
      step_with ltac:(reflexivity).
      step_with ltac:(reflexivity).
      step_with ltac:(apply (add_object_run _ _ page_); cbn [heap];
                      rewrite list_lookup_insert_ne by congruence; exact Hpage).
      step_with ltac:(unfold get_object; cbn [heap];
                      rewrite list_lookup_insert_ne by congruence;
                      rewrite list_lookup_insert_eq by exact Hlt_pages;
                      reflexivity).
      apply bind_raise. unfold lift, getitem.
      rewrite dict_get_set_ne by discriminate. rewrite Hkids. reflexivity.
    + cbn [heap pdf objects pages set_objects].
      split; [reflexivity|]. split.
      { apply list_lookup_insert_eq. rewrite length_insert. exact Hlt_page. }
      rewrite list_lookup_insert_ne by congruence.
      apply list_lookup_insert_eq. exact Hlt_pages.
Qed.

(** ** Registration *)

(** X10: an object registered twice is listed twice and bears the later
    of its two indices as number, so that its first entry in the list is
    not at the index of its number. *)
Theorem add_object_twice w l o :
  heap w !! l = Some o ->
  exists w2,
    (let! _ := add_object l in add_object l) w = (Ok tt, w2)
    /\ objects (pdf w2) = objects (pdf w) ++ [l; l]
    /\ number_at w2 l = Some (len (objects (pdf w)) + 1)
    /\ objects (pdf w2) !! length (objects (pdf w)) = Some l
    /\ ~ numbered w2.
Proof.
  intros Hl. pose proof (lookup_lt_Some _ _ _ Hl) as Hlt.
  eexists. split.
  - erewrite bind_ok by (apply (add_object_run _ _ o), Hl).
    apply (add_object_run _ _ (set_number (len (objects (pdf w))) o)).
    cbn [heap]. apply list_lookup_insert_eq, Hlt.
  - match goal with |- objects (pdf ?W) = _ /\ _ => set (w2 := W) end.
    assert (Hobjs : objects (pdf w2) = objects (pdf w) ++ [l; l]).
    { subst w2. cbn [pdf objects set_objects]. rewrite <- app_assoc. reflexivity. }
    assert (Hnum : number_at w2 l = Some (len (objects (pdf w)) + 1)).
    { subst w2. unfold number_at. cbn [heap pdf objects set_objects].
      rewrite list_lookup_insert_eq by (rewrite length_insert; exact Hlt).
      cbn [set_number hdr number]. rewrite len_app. reflexivity. }
    assert (Hat : objects (pdf w2) !! length (objects (pdf w)) = Some l).
    { rewrite Hobjs. apply list_lookup_middle. reflexivity. }
    split; [exact Hobjs|]. split; [exact Hnum|]. split; [exact Hat|].
    intros Hnumbered. specialize (Hnumbered _ _ Hat).
    rewrite Hnum in Hnumbered. injection Hnumbered as Heq. unfold len in Heq. lia.
Qed.

(** ** References *)

Lemma dec_of_N_inj a b : dec_of_N a = dec_of_N b -> a = b.
Proof.
  intros H. apply (f_equal read_dec) in H. rewrite !read_dec_of_N in H. lia.
Qed.

Lemma dec_of_N_head n : exists c rest, dec_of_N n = c :: rest /\ is_digit c = true.
Proof.
  destruct (dec_of_N_nonempty n) as (c & rest & Hn). exists c, rest.
  split; [exact Hn|]. pose proof (dec_of_N_all_digits n) as Hd.
  rewrite Hn in Hd. cbn [forallb] in Hd. apply andb_prop in Hd as [Hc _]. exact Hc.
Qed.

Lemma dec_of_Z_inj a b : dec_of_Z a = dec_of_Z b -> a = b.
Proof.
  unfold dec_of_Z. intros H.
  destruct (dec_of_N_head (Z.abs_N a)) as (ca & ra & Ha & Hda).
  destruct (dec_of_N_head (Z.abs_N b)) as (cb & rb & Hb & Hdb).
  destruct (Z.ltb_spec a 0), (Z.ltb_spec b 0).
  - apply app_inv_head in H. apply dec_of_N_inj in H. lia.
  - rewrite Hb in H. injection H as <- _. discriminate Hdb.
  - rewrite Ha in H. injection H as -> _. discriminate Hda.
  - apply dec_of_N_inj in H. lia.
Qed.

Lemma str_opt_inj a b : str_opt a = str_opt b -> a = b.
Proof.
  assert (Hnone : forall z, dec_of_Z z <> B "None").
  { intros z H. unfold dec_of_Z in H.
    destruct (dec_of_N_head (Z.abs_N z)) as (c & r & Hc & Hd).
    destruct (z <? 0); [discriminate H|].
    rewrite Hc in H. injection H as -> _. discriminate Hd. }
  destruct a as [a|], b as [b|]; cbn [str_opt]; intros H.
  - f_equal. apply dec_of_Z_inj, H.
  - destruct (Hnone _ H).
  - symmetry in H. destruct (Hnone _ H).
  - reflexivity.
Qed.

Lemma digits_space_free s : forallb is_digit s = true -> space_free s = true.
Proof.
  unfold space_free. induction s as [|c s IH]; [reflexivity|]. cbn [forallb].
  intros H. apply andb_prop in H as [Hc Hs]. rewrite (IH Hs), andb_true_r.
  destruct (Ascii.eqb_spec c " "%char) as [->|]; [discriminate Hc | reflexivity].
Qed.

Lemma str_opt_space_free n : space_free (str_opt n) = true.
Proof.
  destruct n as [z|]; [|reflexivity]. cbn [str_opt]. unfold dec_of_Z.
  pose proof (digits_space_free _ (dec_of_N_all_digits (Z.abs_N z))) as Hd.
  destruct (z <? 0); [|exact Hd].
  unfold space_free in *. cbn [B list_ascii_of_string app forallb]. exact Hd.
Qed.

(** The piece before the first space. *)
Lemma split_at_space s1 : forall s2 t1 t2,
  space_free s1 = true -> space_free s2 = true ->
  s1 ++ B " " ++ t1 = s2 ++ B " " ++ t2 -> s1 = s2 /\ t1 = t2.
Proof.
  unfold space_free.
  induction s1 as [|c s1 IH]; intros [|c2 s2] t1 t2 H1 H2 H;
    cbn [app forallb B list_ascii_of_string] in *.
  - injection H as ->. auto.
  - injection H as <- _. discriminate H2.
  - injection H as -> _. discriminate H1.
  - injection H as -> H.
    apply andb_prop in H1 as [_ H1]. apply andb_prop in H2 as [_ H2].
    destruct (IH _ _ _ H1 H2 H) as [-> ->]. auto.
Qed.

(** X11: a reference names one number and one generation: two objects
    with the same reference have the same number (or are both
    unregistered) and the same generation.  In a document where numbers
    are indices, the objects at two different indices have different
    references. *)
Theorem reference_injective :
  (forall h1 h2, reference h1 = reference h2 ->
     number h1 = number h2 /\ generation h1 = generation h2)
  /\ (forall w i j li lj oi oj,
        numbered w ->
        objects (pdf w) !! i = Some li -> objects (pdf w) !! j = Some lj ->
        heap w !! li = Some oi -> heap w !! lj = Some oj ->
        reference (hdr oi) = reference (hdr oj) -> i = j).
Proof.
  assert (Hinj : forall h1 h2, reference h1 = reference h2 ->
                   number h1 = number h2 /\ generation h1 = generation h2).
  { intros h1 h2 H. unfold reference in H.
    apply split_at_space in H as [Hn Hg]; try apply str_opt_space_free.
    split; [apply str_opt_inj, Hn|].
    apply app_inv_tail in Hg. apply dec_of_Z_inj, Hg. }
  split; [exact Hinj|].
  intros w i j li lj oi oj Hnum Hi Hj Hoi Hoj Href.
  apply Hinj in Href as [Hn _].
  pose proof (Hnum _ _ Hi) as Hni. pose proof (Hnum _ _ Hj) as Hnj.
  unfold number_at in Hni, Hnj. rewrite Hoi in Hni. rewrite Hoj in Hnj.
  rewrite Hn, Hnj in Hni. injection Hni as Hij. lia.
Qed.

(** ** Reading the table *)

(** X12: a row of the cross-reference table read by columns gives back
    the offset, the generation and the flag of the object, when the offset
    is below 10^10 and the generation below 10^5. *)
Theorem xref_row_round_trip h :
  0 <= offset h < 10 ^ 10 -> 0 <= generation h < 10 ^ 5 ->
  parse_xref_row (xref_row h) = Some (offset h, generation h, free h).
Proof.
  intros Ho Hg. unfold xref_row, parse_xref_row.
  assert (Hlo : length (zero_padded 10 (offset h)) = 10%nat)
    by (apply zero_padded_length; [lia | exact Ho]).
  assert (Hlg : length (zero_padded 5 (generation h)) = 5%nat)
    by (apply zero_padded_length; [lia | exact Hg]).
  rewrite take_app_length', drop_app_length' by (symmetry; exact Hlo).
  cbn [B list_ascii_of_string app].
  rewrite take_app_length', drop_app_length' by (symmetry; exact Hlg).
  rewrite Hlo, Hlg.
  rewrite !zero_padded_all_digits by lia.
  rewrite !read_dec_zero_padded by lia.
  destruct (free h); reflexivity.
Qed.

(** ** Reading a string in hexadecimal form *)

Lemma unhex_hex_byte c :
  unhex_digit (hex_digit (N_of_ascii c / 16)) = Some (N_of_ascii c / 16)%N
  /\ unhex_digit (hex_digit (N_of_ascii c mod 16)) = Some (N_of_ascii c mod 16)%N
  /\ ascii_of_N (16 * (N_of_ascii c / 16) + N_of_ascii c mod 16) = c.
Proof.
  destruct c as [[] [] [] [] [] [] [] []]; repeat split; vm_compute; reflexivity.
Qed.

Lemma unhex_hex d : unhex (hex d) = Some d.
Proof.
  induction d as [|c d IH]; [reflexivity|].
  change (hex (c :: d))
    with (hex_digit (N_of_ascii c / 16) :: hex_digit (N_of_ascii c mod 16) :: hex d).
  cbn [unhex]. destruct (unhex_hex_byte c) as (-> & -> & Hc).
  rewrite IH, Hc. reflexivity.
Qed.

Lemma bytes_eqb_refl b : bytes_eqb b b = true.
Proof.
  induction b as [|c b IH]; [reflexivity|]. cbn [bytes_eqb].
  rewrite Ascii.eqb_refl, IH. reflexivity.
Qed.

(** X13: the hexadecimal form of a string reads back as its text: the
    digits between the angle brackets are the byte-order mark and the
    UTF-16BE encoding, which decodes to the text. *)
Theorem hex_string_round_trip text :
  ascii_representable text = false -> existsb is_surrogate text = false ->
  Forall (fun c => c <= 1114111)%N text ->
  exists out, String_data text = Ok out /\ read_hex_string out = Some text.
Proof.
  intros Hascii Hsur Hrange.
  destruct (encode_utf_16_be_total _ Hsur) as [encoded Henc].
  exists (B "<" ++ hex (BOM_UTF16_BE ++ encoded) ++ B ">"). split.
  - unfold String_data, encode_ascii. unfold ascii_representable in Hascii.
    rewrite Hascii, Henc. reflexivity.
  - unfold read_hex_string. cbn [B list_ascii_of_string app].
    rewrite rev_app_distr. cbn [rev app].
    rewrite rev_involutive, unhex_hex. cbn [BOM_UTF16_BE app].
    change (bytes_eqb [ascii_of_N 254; ascii_of_N 255] [ascii_of_N 254; ascii_of_N 255])
      with true.
    cbn [Ascii.eqb Bool.eqb andb].
    apply decode_encode_utf_16_be; assumption.
Qed.

(** ** The precision of floats *)

Lemma round_half_even_error num den :
  0 <= num -> 0 < den ->
  2 * Z.abs (round_half_even num den * den - num) <= den.
Proof.
  intros Hnum Hden. unfold round_half_even.
  pose proof (Z.div_mod num den ltac:(lia)) as Hdm.
  pose proof (Z.mod_pos_bound num den Hden) as Hr.
  set (q := num / den) in *. set (r := num mod den) in *.
  destruct (Z.ltb_spec (2 * r) den); [lia|].
  destruct (Z.ltb_spec den (2 * r)); [lia|].
  destruct (Z.even q); lia.
Qed.

(** X14: a float that is not integral is encoded with six decimals, and
    the number written is the nearest one: read as a decimal it differs
    from the absolute value of the float by half a millionth at most.  A
    float below half a millionth in absolute value is written as
    [0.000000]. *)
Theorem float_encoding_accuracy s m e :
  float_is_integer (S754_finite s m e) = false ->
  exists ip fp,
    to_bytes zlib (VFloat (S754_finite s m e))
    = Ok ((if s then B "-" else []) ++ ip ++ B "." ++ fp)
    /\ length fp = 6%nat
    /\ forallb is_digit (ip ++ fp) = true
    /\ 2 * Z.abs ((read_dec ip * 10 ^ 6 + read_dec fp) * 2 ^ (- e) - Z.pos m * 10 ^ 6)
       <= 2 ^ (- e)
    /\ (2 * (Z.pos m * 10 ^ 6) < 2 ^ (- e) -> ip = B "0" /\ fp = B "000000").
Proof.
  intros Hnon.
  assert (He : (0 <=? e) = false).
  { cbn [float_is_integer] in Hnon. destruct (0 <=? e); [discriminate Hnon | reflexivity]. }
  assert (Hden : 0 < 2 ^ (- e)) by (apply Z.pow_pos_nonneg; lia).
  set (den := 2 ^ (- e)) in *.
  set (num := Z.pos m * 10 ^ 6).
  assert (Hnum : 0 <= num) by (subst num; lia).
  set (scaled := round_half_even num den).
  assert (Hscaled : 0 <= scaled) by (apply round_half_even_nonneg; assumption).
  exists (dec_of_N (Z.to_N (scaled / 10 ^ 6))), (zero_padded 6 (scaled mod 10 ^ 6)).
  assert (Hmod : 0 <= scaled mod 10 ^ 6 < 10 ^ 6) by (apply Z.mod_pos_bound; lia).
  assert (Hdiv : 0 <= scaled / 10 ^ 6) by (apply Z.div_pos; lia).
  split.
  { cbn [to_bytes]. rewrite Hnon. unfold format_f. rewrite He. reflexivity. }
  split; [apply zero_padded_length; [lia | exact Hmod]|].
  split.
  { rewrite forallb_app, dec_of_N_all_digits, zero_padded_all_digits by lia.
    reflexivity. }
  assert (Hread : read_dec (dec_of_N (Z.to_N (scaled / 10 ^ 6))) * 10 ^ 6
                  + read_dec (zero_padded 6 (scaled mod 10 ^ 6)) = scaled).
  { rewrite read_dec_of_N, read_dec_zero_padded, Z2N.id by lia.
    pose proof (Z.div_mod scaled (10 ^ 6) ltac:(lia)). lia. }
  split.
  { rewrite Hread. apply round_half_even_error; assumption. }
  intros Hsmall. fold num in Hsmall.
  assert (Hzero : scaled = 0).
  { subst scaled. unfold round_half_even.
    rewrite Z.div_small, Z.mod_small by lia.
    destruct (Z.ltb_spec (2 * num) den); [reflexivity | lia]. }
  rewrite Hzero. split; reflexivity.
Qed.

(** ** The content stream builder *)

(** X15: a builder call whose token evaluates appends the token to the
    token list of the stream, in place, and touches no other container;
    the data of the stream is then that of the tokens with the new one
    last.  A call whose operand raises leaves the stream as it was. *)
Theorem Stream_call_then_data self op (s : list cell) items :
  s !! stream self = Some (CList items) ->
  (forall token, operator_token zlib op = Ok token ->
     exists s',
       Stream_call zlib self op s = (Ok tt, s')
       /\ s' !! stream self = Some (CList (items ++ [VBytes token]))
       /\ (forall l, l <> stream self -> s' !! l = s !! l)
       /\ (forall entries, s !! extra self = Some (CDict entries) ->
             (Stream_data zlib self s').1
             = data zlib (BStream (items ++ [VBytes token]) entries (compress self))))
  /\ (forall e, operator_token zlib op = Raise e ->
        Stream_call zlib self op s = (Raise e, s)).
Proof.
  intros Hs. pose proof (lookup_lt_Some _ _ _ Hs) as Hlt.
  assert (Hget : get_cell (stream self) s = (Ok (CList items), s))
    by (unfold get_cell; rewrite Hs; reflexivity).
  split.
  - intros token Htoken.
    exists (<[stream self := CList (items ++ [VBytes token])]> s).
    assert (Hnew : <[stream self := CList (items ++ [VBytes token])]> s !! stream self
                   = Some (CList (items ++ [VBytes token])))
      by (apply list_lookup_insert_eq, Hlt).
    split; [|split; [exact Hnew|split]].
    + unfold Stream_call. rewrite (bind_ok _ _ _ _ _ Hget).
      erewrite bind_ok by (unfold lift; rewrite Htoken; reflexivity).
      reflexivity.
    + intros l Hne. apply list_lookup_insert_ne. congruence.
    + intros entries Hextra.
      assert (Hne : stream self <> extra self) by congruence.
      rewrite Stream_data_run, Hnew, list_lookup_insert_ne, Hextra by exact Hne.
      rewrite data_Stream_eq.
      destruct (mapM (to_bytes zlib) (items ++ [VBytes token])); reflexivity.
  - intros e Htoken. unfold Stream_call. rewrite (bind_ok _ _ _ _ _ Hget).
    apply bind_raise. unfold lift. rewrite Htoken. reflexivity.
Qed.

Lemma newline_free_app a b : newline_free (a ++ b) = newline_free a && newline_free b.
Proof. apply forallb_app. Qed.

Lemma digits_newline_free s : forallb is_digit s = true -> newline_free s = true.
Proof.
  unfold newline_free. induction s as [|c s IH]; [reflexivity|]. cbn [forallb].
  intros H. apply andb_prop in H as [Hc Hs]. rewrite (IH Hs), andb_true_r.
  destruct (Ascii.eqb_spec c nl) as [->|]; [discriminate Hc | reflexivity].
Qed.

Lemma dec_of_Z_newline_free z : newline_free (dec_of_Z z) = true.
Proof.
  unfold dec_of_Z.
  pose proof (digits_newline_free _ (dec_of_N_all_digits (Z.abs_N z))) as Hd.
  destruct (z <? 0); [|exact Hd]. rewrite newline_free_app, Hd. reflexivity.
Qed.

Lemma format_f_newline_free x : newline_free (format_f x) = true.
Proof.
  destruct x as [s|s| |s m e]; try (destruct s; reflexivity); [reflexivity|].
  unfold format_f. rewrite !newline_free_app.
  rewrite (digits_newline_free (dec_of_N _)) by apply dec_of_N_all_digits.
  rewrite (digits_newline_free (zero_padded _ _))
    by (apply zero_padded_all_digits, Z.mod_pos_bound; lia).
  destruct s; reflexivity.
Qed.

Lemma encode_ascii_plain s :
  forallb (fun c => (c <? 128) && negb (c =? 10))%N s = true ->
  encode_ascii s = Ok (map ascii_of_N s) /\ newline_free (map ascii_of_N s) = true.
Proof.
  intros H. unfold encode_ascii, newline_free.
  assert (Hboth : forallb (fun c => c <? 128)%N s = true
                  /\ forallb (fun c => negb (Ascii.eqb c nl)) (map ascii_of_N s) = true).
  { induction s as [|c s IH]; [auto|]. cbn [forallb map] in *.
    apply andb_prop in H as [Hc Hs]. apply andb_prop in Hc as [Hlt Hne].
    destruct (IH Hs) as [-> ->]. rewrite Hlt. split; [reflexivity|].
    rewrite andb_true_r.
    destruct (Ascii.eqb_spec (ascii_of_N c) nl) as [Heq|]; [|reflexivity].
    apply (f_equal N_of_ascii) in Heq.
    rewrite N_ascii_embedding in Heq by (apply N.ltb_lt in Hlt; lia).
    change (N_of_ascii nl) with 10%N in Heq. subst c. discriminate Hne. }
  destruct Hboth as [-> ->]. auto.
Qed.

Lemma to_bytes_plain v :
  plain v = true -> exists b, to_bytes zlib v = Ok b /\ newline_free b = true.
Proof.
  destruct v as [b|x|z|s| |h b]; cbn [plain to_bytes]; intros H.
  - eauto.
  - destruct (float_is_integer x); eexists; split; try reflexivity.
    + apply dec_of_Z_newline_free.
    + apply format_f_newline_free.
  - eexists; split; [reflexivity | apply dec_of_Z_newline_free].
  - destruct (encode_ascii_plain s H) as [-> Hs]. eauto.
  - eexists; split; reflexivity.
  - discriminate H.
Qed.

Lemma mapM_plain l :
  forallb plain l = true ->
  exists bs, mapM (to_bytes zlib) l = Ok bs
             /\ Forall (fun b => newline_free b = true) bs.
Proof.
  induction l as [|v l IH]; cbn [forallb mapM]; intros H.
  - exists []. auto.
  - apply andb_prop in H as [Hv Hl].
    destruct (to_bytes_plain v Hv) as (b & -> & Hb).
    destruct (IH Hl) as (bs & -> & Hbs). eauto.
Qed.

Lemma newline_free_join sep parts :
  newline_free sep = true -> Forall (fun p => newline_free p = true) parts ->
  newline_free (join sep parts) = true.
Proof.
  intros Hsep Hparts. induction Hparts as [|p parts Hp Hparts IH]; [reflexivity|].
  destruct parts as [|q parts]; [exact Hp|].
  rewrite join_cons, !newline_free_app, Hp, Hsep, IH. reflexivity.
Qed.

Lemma operands_token_plain operands mnemonic :
  forallb plain operands = true -> newline_free mnemonic = true ->
  exists token, operands_token zlib operands mnemonic = Ok token
                /\ newline_free token = true.
Proof.
  intros Hops Hm. destruct (mapM_plain _ Hops) as (bs & Hbs & Hfree).
  unfold operands_token. rewrite Hbs. eexists. split; [reflexivity|].
  apply newline_free_join; [reflexivity|].
  apply Forall_app. split; [exact Hfree | repeat constructor; exact Hm].
Qed.

Lemma operator_token_plain op :
  plain_operands op = true ->
  exists token, operator_token zlib op = Ok token /\ newline_free token = true.
Proof.
  intros H.
  destruct op; cbn [plain_operands operator_token] in *;
    repeat match goal with
           | b : bool |- _ => destruct b
           end;
    repeat match goal with
           | H : _ && _ = true |- _ => apply andb_prop in H as [? ?]
           end;
    try (eexists; split; reflexivity);
    try (apply operands_token_plain; [|reflexivity]; cbn [forallb];
         repeat match goal with
                | H : plain _ = true |- _ => rewrite H; clear H
                end; reflexivity);
    try (repeat match goal with
                | H : plain ?v = true |- _ =>
                    destruct (to_bytes_plain v H) as (? & -> & ?); clear H
                end;
         cbn [rbind]; eexists; split; [reflexivity|];
         rewrite !newline_free_app;
         repeat match goal with
                | H : newline_free _ = true |- _ => rewrite H; clear H
                end; reflexivity).
  destruct (mapM_plain dash_array) as (bs & Hbs & Hfree); [assumption|].
  cbn [data]. rewrite Hbs. cbn [rbind].
  destruct (to_bytes_plain dash_phase) as (p & -> & Hp); [assumption|].
  cbn [rbind]. eexists. split; [reflexivity|].
  apply newline_free_join; [reflexivity|].
  constructor; [|repeat constructor; exact Hp].
  apply newline_free_join; [reflexivity|].
  constructor; [reflexivity|].
  apply Forall_app. split; [exact Hfree | repeat constructor].
Qed.

Lemma split_lines_line p : newline_free p = true -> split_lines p = [p].
Proof.
  unfold newline_free. induction p as [|c p IH]; [reflexivity|]. cbn [forallb split_lines].
  intros H. apply andb_prop in H as [Hc Hp]. rewrite (IH Hp).
  destruct (Ascii.eqb c nl); [discriminate Hc | reflexivity].
Qed.

Lemma split_lines_app_nl p rest :
  newline_free p = true -> split_lines (p ++ nl :: rest) = p :: split_lines rest.
Proof.
  unfold newline_free. induction p as [|c p IH]; cbn [forallb split_lines app].
  - rewrite Ascii.eqb_refl. reflexivity.
  - intros H. apply andb_prop in H as [Hc Hp]. rewrite (IH Hp).
    destruct (Ascii.eqb c nl); [discriminate Hc | reflexivity].
Qed.

Lemma split_lines_join tokens :
  Forall (fun t => newline_free t = true) tokens -> tokens <> [] ->
  split_lines (join [nl] tokens) = tokens.
Proof.
  intros Hfree. induction Hfree as [|p tokens Hp Hfree IH]; [congruence|]. intros _.
  destruct tokens as [|q tokens]; [apply split_lines_line, Hp|].
  rewrite join_cons. cbn [app]. rewrite split_lines_app_nl by exact Hp.
  rewrite IH by discriminate. reflexivity.
Qed.

(** X16: builder calls whose operands are numbers, [None], or bytes and
    ASCII text without a newline all evaluate, each to a token without a
    newline; the body of the stream, split at newlines, is the list of
    these tokens: one line per call, in the order of the calls. *)
Theorem builder_calls_are_lines ops :
  forallb plain_operands ops = true -> ops <> [] ->
  exists tokens,
    mapM (operator_token zlib) ops = Ok tokens
    /\ length tokens = length ops
    /\ Forall (fun t => newline_free t = true) tokens
    /\ mapM (to_bytes zlib) (map VBytes tokens) = Ok tokens
    /\ split_lines (join [nl] tokens) = tokens.
Proof.
  intros Hops Hne.
  assert (Htokens : exists tokens,
             mapM (operator_token zlib) ops = Ok tokens
             /\ length tokens = length ops
             /\ Forall (fun t => newline_free t = true) tokens).
  { clear Hne. induction ops as [|op ops IH]; [exists []; auto|].
    cbn [forallb] in Hops. apply andb_prop in Hops as [Hop Hops].
    destruct (operator_token_plain op Hop) as (t & Ht & Hfree).
    destruct (IH Hops) as (ts & Hts & Hlen & Hfrees).
    exists (t :: ts). cbn [mapM length]. rewrite Ht, Hts, Hlen. auto. }
  destruct Htokens as (tokens & Htokens & Hlen & Hfree).
  exists tokens. split; [exact Htokens|]. split; [exact Hlen|]. split; [exact Hfree|].
  split.
  - clear. induction tokens as [|t ts IH]; [reflexivity|].
    cbn [map mapM to_bytes]. rewrite IH. reflexivity.
  - apply split_lines_join; [exact Hfree|].
    destruct tokens; [destruct ops; [congruence | discriminate Hlen] | discriminate].
Qed.

(** ** The entries of a stream *)

Lemma dict_set_middle {V} (pre post : list (pystr * V)) k v v' :
  dict_get pre k = None ->
  dict_set (pre ++ (k, v) :: post) k v' = pre ++ (k, v') :: post.
Proof.
  induction pre as [|[k0 v0] pre IH]; cbn [app dict_get dict_set].
  - rewrite pystr_eqb_refl. reflexivity.
  - destruct (pystr_eqb k0 k); [discriminate|]. intros H. rewrite (IH H). reflexivity.
Qed.

(** X17: a [Length] entry that the caller left in [extra] never reaches
    the output: the emitted dictionary holds the byte length of the body
    in its place, once, whatever the old value was, even one that does not
    encode.  With compression and no [Filter] entry in [extra], the
    [Filter] entry comes last. *)
Theorem Stream_data_replaces_Length stream tokens pre v post :
  mapM (to_bytes zlib) stream = Ok tokens ->
  dict_get pre (U "Length") = None ->
  let raw := join [nl] tokens in
  data zlib (BStream stream (pre ++ (U "Length", v) :: post) false)
  = (let* d := data zlib (BDictionary (pre ++ (U "Length", VInt (len raw)) :: post)) in
     Ok (join [nl] [d; B "stream"; raw; B "endstream"]))
  /\ (dict_get (pre ++ (U "Length", v) :: post) (U "Filter") = None ->
      data zlib (BStream stream (pre ++ (U "Length", v) :: post) true)
      = (let* d := data zlib (BDictionary
                                (pre ++ (U "Length", VInt (len (zlib raw)))
                                     :: post ++ [(U "Filter", VStr (U "/FlateDecode"))])) in
         Ok (join [nl] [d; B "stream"; zlib raw; B "endstream"]))).
Proof.
  intros Htokens Hpre raw. split.
  - rewrite data_Stream_eq, Htokens. cbn [rbind]. cbv zeta.
    rewrite dict_set_middle by exact Hpre. reflexivity.
  - intros Hfilter. rewrite data_Stream_eq, Htokens. cbn [rbind]. cbv zeta.
    rewrite (dict_set_new _ _ _ Hfilter), <- app_assoc. cbn [app].
    rewrite dict_set_middle by exact Hpre. reflexivity.
Qed.

(** ** A document with pages *)

Lemma page_triplets_encode n k :
  exists bs, mapM (to_bytes zlib) (page_triplets n k) = Ok bs.
Proof.
  revert n. induction k as [|k IH]; intros n; cbn [page_triplets app mapM to_bytes].
  - eauto.
  - destruct (IH (n + 1)) as [bs ->].
    change (encode_ascii (U "R")) with (Ok (B "R")). eauto.
Qed.

(** X18: a document made by [PDF()] to which pages are added with
    [add_page] can be written: when every page is an object whose data
    encodes, [write] returns.  The objects of the document are the four
    of [PDF()] and the pages, in the order of the calls. *)
Theorem document_with_pages_writes h p0 ps output :
  Forall (fun page => exists o, h !! page = Some o
                                /\ exists d, data zlib (bdy o) = Ok d) ps ->
  exists w out w',
    (let! _ := PDF_init in add_pages ps) {| heap := h; pdf := p0 |} = (Ok tt, w)
    /\ objects (pdf w)
       = [length h; length h + 1; length h + 2; length h + 3]%nat ++ ps
    /\ write zlib output w = (Ok out, w').
Proof.
  intros Hps. set (n := length h).
  set (w0 := fresh_document h).
  assert (Hh : forall l o, h !! l = Some o -> heap w0 !! l = Some o).
  { intros l o Hl. subst w0. cbn [fresh_document heap].
    rewrite lookup_app_l; [exact Hl | eapply lookup_lt_Some, Hl]. }
  assert (Hat : forall k, heap w0 !! (n + k)%nat
                          = drop (length h) (heap w0) !! k).
  { intros k. rewrite lookup_drop. reflexivity. }
  assert (Htree0 : heap w0 !! pages (pdf w0)
                   = Some {| hdr := {| number := Some 1; offset := 0;
                                       generation := 0; free := InUse |};
                             bdy := BDictionary
                                      [(U "Type", VStr (U "/Pages"));
                                       (U "Kids", VObj Object_init (BArray []));
                                       (U "Count", VInt 0)] |}).
  { subst w0. cbn [fresh_document heap pdf pages].
    rewrite (lookup_app_plus h _ 1). reflexivity. }
  destruct (add_pages_inv ps w0 _ _ 0 Object_init [] Htree0 eq_refl eq_refl)
    as (w & items' & Hrun & Hpdf & Htree & Hc & Hk & Hkeep & Hkeys & Hframe).
  { eapply Forall_impl; [exact Hps|]. intros l (o & Hl & _). split.
    - apply lookup_lt_Some in Hl. subst w0. cbn [fresh_document pdf pages]. lia.
    - rewrite (Hh _ _ Hl). eauto. }
  assert (Hobjs : objects (pdf w) = [n; n + 1; n + 2; n + 3]%nat ++ ps)
    by (rewrite Hpdf; reflexivity).
  assert (Hitems : exists d, data zlib (BDictionary items') = Ok d).
  { destruct items' as [|[k1 v1] [|[k2 v2] [|[k3 v3] [|]]]]; try discriminate Hkeys.
    cbn [map fst] in Hkeys. injection Hkeys as -> -> ->.
    specialize (Hkeep (U "Type") ltac:(discriminate) ltac:(discriminate)).
    change (Some v1 = Some (VStr (U "/Pages"))) in Hkeep.
    change (Some v3 = Some (VInt (0 + len ps))) in Hc.
    change (Some v2 = Some (VObj Object_init
                                 (BArray ([] ++ page_triplets (len (objects (pdf w0)))
                                                              (length ps))))) in Hk.
    injection Hkeep as ->. injection Hc as ->. injection Hk as ->.
    match goal with
    | |- context [page_triplets ?a ?b] =>
        destruct (page_triplets_encode a b) as [bs Hbs]
    end.
    cbn [data map fst snd to_bytes app]. rewrite Hbs. cbn [rbind].
    unfold dict_data_of. cbn [mapM fst snd].
    change (encode_ascii (U "Type")) with (Ok (B "Type")).
    change (encode_ascii (U "Kids")) with (Ok (B "Kids")).
    change (encode_ascii (U "Count")) with (Ok (B "Count")).
    change (encode_ascii (U "/Pages")) with (Ok (B "/Pages")).
    cbn [rbind]. eauto. }
  exists w.
  assert (Hfixed : forall k o, (k < 4)%nat -> k <> 1%nat ->
             heap w0 !! (n + k)%nat = Some o ->
             exists o', heap w !! (n + k)%nat = Some o' /\ bdy o' = bdy o
                        /\ free (hdr o') = free (hdr o)).
  { intros k o Hk4 Hk1 Ho. destruct (Hframe _ _ Ho) as (o' & Ho' & Hb & Hf & _).
    - subst w0. cbn [fresh_document pdf pages]. fold n. lia.
    - eauto. }
  destruct (write_total zlib output w) as (out & w' & Hwrite).
  - rewrite Hobjs. intros l Hin.
    apply elem_of_app in Hin as [Hin|Hin].
    + repeat (apply elem_of_cons in Hin as [->|Hin]).
      * destruct (Hfixed 0%nat _ ltac:(lia) ltac:(lia)
                    ltac:(rewrite Nat.add_0_r; subst w0 n; cbn [fresh_document heap];
                          apply list_lookup_middle; reflexivity))
          as (o' & Ho' & _ & Hf).
        rewrite Nat.add_0_r in Ho'. exists o'. split; [exact Ho'|].
        rewrite Hf. discriminate.
      * exists {| hdr := {| number := Some 1; offset := 0;
                            generation := 0; free := InUse |};
                  bdy := BDictionary items' |}.
        split; [|intros _; exact Hitems].
        rewrite <- Htree. subst w0. reflexivity.
      * destruct (Hfixed 2%nat _ ltac:(lia) ltac:(lia)
                    ltac:(subst w0 n; cbn [fresh_document heap];
                          rewrite (lookup_app_plus h _ 2); reflexivity))
          as (o' & Ho' & Hb & _).
        exists o'. split; [exact Ho'|]. intros _. rewrite Hb. cbn [bdy].
        eexists. reflexivity.
      * destruct (Hfixed 3%nat _ ltac:(lia) ltac:(lia)
                    ltac:(subst w0 n; cbn [fresh_document heap];
                          rewrite (lookup_app_plus h _ 3); reflexivity))
          as (o' & Ho' & Hb & _).
        exists o'. split; [exact Ho'|]. intros _. rewrite Hb. cbn [bdy].
        eexists. reflexivity.
      * apply elem_of_nil in Hin. destruct Hin.
    + rewrite Forall_forall in Hps. destruct (Hps l Hin) as (o & Hl & d & Hd).
      destruct (Hframe l o (Hh _ _ Hl)) as (o' & Ho' & Hb & _).
      { apply lookup_lt_Some in Hl. subst w0. cbn [fresh_document pdf pages]. lia. }
      exists o'. split; [exact Ho'|]. intros _. rewrite Hb. eauto.
  - rewrite Hpdf. cbn [catalog set_objects]. subst w0. cbn [fresh_document pdf catalog].
    destruct (Hfixed 3%nat _ ltac:(lia) ltac:(lia)
                ltac:(subst n; cbn [fresh_document heap];
                      rewrite (lookup_app_plus h _ 3); reflexivity))
      as (o' & Ho' & _). fold n. rewrite Ho'. eauto.
  - rewrite Hpdf. cbn [info set_objects]. subst w0. cbn [fresh_document pdf info].
    destruct (Hfixed 2%nat _ ltac:(lia) ltac:(lia)
                ltac:(subst n; cbn [fresh_document heap];
                      rewrite (lookup_app_plus h _ 2); reflexivity))
      as (o' & Ho' & _). fold n. rewrite Ho'. eauto.
  - exists out, w'. split; [|split; [exact Hobjs | exact Hwrite]].
    erewrite bind_ok by apply PDF_init_run. exact Hrun.
Qed.

End Further.


(** * Concrete documents *)

Lemma bytes_eqb_neq a b : bytes_eqb a b = false -> a <> b.
Proof.
  intros H ->. induction b as [|c b IH]; simpl in H; [discriminate|].
  rewrite Ascii.eqb_refl in H. auto.
Qed.

(** C2: two calls of [write] in succession on the document made by
    [PDF()], each on an empty sink: the first call leaves
    [current_position] at the length of its output, the second starts
    from there, and the two outputs differ; the first ends with the table
    position 138, the second with 431. *)
Theorem C2_second_write_differs :
  exists out1 w1 out2 w2 head1 head2,
    write zlib_stored [] empty_document = (Ok out1, w1)
    /\ write zlib_stored [] w1 = (Ok out2, w2)
    /\ out1 <> out2
    /\ len out1 = 293 /\ current_position (pdf w1) = 293
    /\ out1 = head1 ++ B "startxref" ++ [nl] ++ B "138" ++ [nl] ++ B "%%EOF" ++ [nl]
    /\ out2 = head2 ++ B "startxref" ++ [nl] ++ B "431" ++ [nl] ++ B "%%EOF" ++ [nl].
Proof.
  set (r1 := write zlib_stored [] empty_document).
  set (r2 := write zlib_stored [] r1.2).
  exists (returned r1.1), r1.2, (returned r2.1), r2.2.
  exists (take 273 (returned r1.1)), (take 273 (returned r2.1)).
  split; [vm_compute; reflexivity|]. split; [vm_compute; reflexivity|].
  split; [apply bytes_eqb_neq; vm_compute; reflexivity|].
  repeat split; vm_compute; reflexivity.
Qed.

(** C8 at a page whose generation is 1: [add_page] registers the page
    with number 4 and increments [Count], but appends [4], [0], [R] to
    [Kids], which encodes as [[ 4 0 R ]], while the reference of the page
    is [4 1 R]. *)
Theorem C8_add_page_generation :
  exists w page_ pages_ kids,
    document_with generation_one_page = (Ok tt, w)
    /\ objects (pdf w) = [0; 1; 2; 3; 4]%nat
    /\ heap w !! 4%nat = Some page_
    /\ number (hdr page_) = Some 4
    /\ reference (hdr page_) = B "4 1 R"
    /\ heap w !! pages (pdf w) = Some pages_
    /\ getitem (bdy pages_) (U "Count") = Ok (VInt 1)
    /\ getitem (bdy pages_) (U "Kids") = Ok kids
    /\ kids = VObj Object_init (BArray [VInt 4; VInt 0; VStr (U "R")])
    /\ to_bytes zlib_stored kids = Ok (B "[ 4 0 R ]").
Proof.
  set (r := document_with generation_one_page).
  exists r.2.
  exists (set_number 4 generation_one_page).
  eexists. eexists.
  split; [vm_compute; reflexivity|].
  split; [vm_compute; reflexivity|].
  split; [vm_compute; reflexivity|].
  split; [reflexivity|].
  split; [vm_compute; reflexivity|].
  split; [vm_compute; reflexivity|].
  split; [vm_compute; reflexivity|].
  split; [vm_compute; reflexivity|].
  split; vm_compute; reflexivity.
Qed.

(** C3 fails at infinity: the float is not integral, and its encoding
    [inf] is not a fixed-point decimal. *)
Lemma C3_counterexample :
  float_is_integer (S754_infinity false) = false
  /\ to_bytes zlib_stored (VFloat (S754_infinity false)) = Ok (B "inf")
  /\ is_fixed_point (B "inf") = false
  /\ to_bytes zlib_stored (VFloat S754_nan) = Ok (B "nan")
  /\ is_fixed_point (B "nan") = false.
Proof. repeat split; reflexivity. Qed.

(** C4 fails at the text of the single code point U+D800: it is not
    ASCII, and [data] raises [UnicodeEncodeError] from the UTF-16 codec. *)
Lemma C4_counterexample :
  ascii_representable [55296%N] = false
  /\ String_data [55296%N] = Raise UnicodeEncodeError
  /\ to_bytes zlib_stored (VObj Object_init (BString [55296%N]))
     = Raise UnicodeEncodeError.
Proof. repeat split; reflexivity. Qed.

(** C9 fails at a document with an object of generation 100000: its row
    of the table takes 21 bytes with the newline, so the rows of the
    objects are not all of 20 bytes. *)
Lemma C9_counterexample :
  exists out w',
    written_with large_generation_object = (Ok out, w')
    /\ split_lines out
       = [B "%PDF-1.7"; B "%" ++ map ascii_of_N [240; 159; 150; 164]%N;
          B "1 0 obj"; B "<<"; B "/Type /Pages"; B "/Kids [ ]"; B "/Count 0";
          B ">>"; B "endobj";
          B "2 0 obj"; B "<<"; B ">>"; B "endobj";
          B "3 0 obj"; B "<<"; B "/Type /Catalog"; B "/Pages 1 0 R"; B ">>";
          B "endobj";
          B "4 100000 obj"; B "<<"; B ">>"; B "endobj";
          B "xref"; B "0 5";
          B "0000000000 65535 f "; B "0000000015 00000 n ";
          B "0000000068 00000 n "; B "0000000089 00000 n ";
          B "0000000138 100000 n ";
          B "trailer"; B "<<"; B "/Size 5"; B "/Root 3 0 R"; B "/Info 2 0 R";
          B ">>"; B "startxref"; B "164"; B "%%EOF"; []]
    /\ length (B "0000000138 100000 n " ++ [nl]) = 21%nat
    /\ ~ (exists rows,
            Forall2 (fun l row =>
                       exists o, heap w' !! l = Some o
                                 /\ row = xref_row (hdr o)
                                 /\ length (row ++ [nl]) = 20%nat)
                    (objects (pdf w')) rows).
Proof.
  set (r := written_with large_generation_object).
  exists (returned r.1), r.2.
  split; [vm_compute; reflexivity|].
  split; [vm_compute; reflexivity|].
  split; [reflexivity|].
  intros (rows & Hrows).
  assert (Hobj : objects (pdf r.2) !! 4%nat = Some 4%nat) by (vm_compute; reflexivity).
  destruct (Forall2_lookup_l _ _ _ _ _ Hrows Hobj) as (row & _ & o & Hl & -> & Hlen).
  assert (Ho : heap r.2 !! 4%nat
               = Some {| hdr := {| number := Some 4; offset := 138;
                                   generation := 100000; free := InUse |};
                         bdy := BDictionary [] |}) by (vm_compute; reflexivity).
  rewrite Ho in Hl. injection Hl as <-. vm_compute in Hlen. discriminate Hlen.
Qed.

(** ** The theorems at concrete inputs *)

Lemma C1_witness :
  current_position (pdf empty_document) = 0
  /\ exists out w' o pre d post,
       write zlib_stored [] empty_document = (Ok out, w')
       /\ heap w' !! 3%nat = Some o
       /\ out = [] ++ pre
                  ++ (str_opt (number (hdr o)) ++ B " "
                        ++ dec_of_Z (generation (hdr o)) ++ B " obj" ++ [nl]
                        ++ d ++ [nl] ++ B "endobj") ++ [nl] ++ post
       /\ offset (hdr o) = len pre
       /\ read_dec (zero_padded 10 (len pre)) = len pre.
Proof.
  split; [reflexivity|].
  destruct (C1_xref_offsets zlib_stored empty_document [] eq_refl) as (_ & _ & Hinv).
  set (r := write zlib_stored [] empty_document).
  assert (Hrun : r = (Ok (returned r.1), r.2)) by (vm_compute; reflexivity).
  destruct (Hinv _ _ Hrun) as (before & rows & after & _ & Hat).
  assert (Ho : heap r.2 !! 3%nat
               = Some {| hdr := {| number := Some 3; offset := 89;
                                   generation := 0; free := InUse |};
                         bdy := BDictionary
                                  [(U "Type", VStr (U "/Catalog"));
                                   (U "Pages", VBytes (B "1 0 R"))] |})
    by (vm_compute; reflexivity).
  destruct (Hat 3%nat 3%nat _ eq_refl Ho eq_refl)
    as (pre & d & post & Hout & _ & Hoff & _ & Hread).
  exists (returned r.1), r.2. eexists. exists pre, d, post.
  split; [exact Hrun|]. split; [exact Ho|]. auto.
Defined.

Lemma C3_witness :
  float_is_integer float_2 = true
  /\ to_bytes zlib_stored (VFloat float_2) = Ok (B "2")
  /\ float_is_integer float_2_5 = false
  /\ exists out, to_bytes zlib_stored (VFloat float_2_5) = Ok out
                 /\ is_fixed_point out = true.
Proof.
  destruct (C3_number_encoding zlib_stored) as (Hint & Hfix & _ & _).
  split; [reflexivity|].
  split; [exact (proj1 (Hint float_2 eq_refl))|].
  split; [reflexivity|].
  exact (Hfix false 5629499534213120%positive (-51) eq_refl).
Defined.

Lemma C4_witness :
  ascii_representable (U "hello") = true
  /\ (exists b, encode_ascii (U "hello") = Ok b /\ map N_of_ascii b = U "hello"
                /\ String_data (U "hello") = Ok (B "(" ++ b ++ B ")"))
  /\ ascii_representable [233%N] = false
  /\ existsb is_surrogate [233%N] = false
  /\ (exists encoded,
        encode_utf_16_be [233%N] = Ok encoded
        /\ String_data [233%N] = Ok (B "<" ++ B "feff" ++ hex encoded ++ B ">")
        /\ forallb is_lower_hex (B "feff" ++ hex encoded) = true
        /\ (Forall (fun c => c <= 1114111)%N [233%N] ->
            decode_utf_16_be encoded = Some [233%N])).
Proof.
  split; [reflexivity|].
  split; [exact (proj1 (C4_String_data zlib_stored (U "hello")) eq_refl)|].
  split; [reflexivity|]. split; [reflexivity|].
  exact (proj1 (proj2 (C4_String_data zlib_stored [233%N])) eq_refl eq_refl).
Defined.

Lemma C5_witness :
  mapM (to_bytes zlib_stored) [VBytes (B "BT"); VBytes (B "ET")]
  = Ok [B "BT"; B "ET"]
  /\ exists extra_data before after,
       data zlib_stored
            (BDictionary
               (dict_set (dict_set [(U "Foo", VInt 3)] (U "Filter")
                                   (VStr (U "/FlateDecode")))
                         (U "Length") (VInt 16)))
       = Ok extra_data
       /\ extra_data = before ++ B "/Length " ++ dec_of_Z 16 ++ [nl] ++ after.
Proof.
  split; [reflexivity|].
  destruct (C5_Stream_data zlib_stored [VBytes (B "BT"); VBytes (B "ET")]
              [(U "Foo", VInt 3)] true [B "BT"; B "ET"] eq_refl)
    as (_ & _ & _ & Hline).
  eexists.
  destruct (Hline _ eq_refl) as (before & after & Heq).
  exists before, after. split; [reflexivity | exact Heq].
Defined.

Lemma C6_witness :
  exists w w2,
    PDF_init empty_world = (Ok tt, w)
    /\ heap w !! 1%nat = Some (set_number 1 {| hdr := Object_init;
                                               bdy := BDictionary
                                                 [(U "Type", VStr (U "/Pages"));
                                                  (U "Kids", VObj Object_init (BArray []));
                                                  (U "Count", VInt 0)] |})
    /\ add_object 1%nat w = (Ok tt, w2)
    /\ number_at w2 1%nat = Some 4.
Proof.
  destruct (C6_object_numbering empty_world)
    as (w & l0 & zero & Hinit & _ & _ & _ & _ & _ & _ & _ & Hfirst & _).
  assert (Hw : w = fresh_document []).
  { rewrite PDF_init_run in Hinit. apply pair_Ok_inv in Hinit as [_ <-]. reflexivity. }
  assert (Hl : heap w !! 1%nat
               = Some (set_number 1 {| hdr := Object_init;
                                       bdy := BDictionary
                                         [(U "Type", VStr (U "/Pages"));
                                          (U "Kids", VObj Object_init (BArray []));
                                          (U "Count", VInt 0)] |}))
    by (rewrite Hw; reflexivity).
  destruct (Hfirst w 1%nat _ eq_refl Hl) as (w2 & Hadd & Hnum).
  exists w, w2. auto.
Defined.

Lemma C7_witness :
  Forall2 (encodes_entry zlib_stored)
          [(U "Type", VStr (U "/Page")); (U "Count", VInt 3)]
          [(B "Type", B "/Page"); (B "Count", B "3")]
  /\ data zlib_stored (BDictionary [(U "Type", VStr (U "/Page")); (U "Count", VInt 3)])
     = Ok (B "<<" ++ [nl] ++ B "/Type /Page" ++ [nl] ++ B "/Count 3" ++ [nl] ++ B ">>").
Proof.
  assert (Henc : Forall2 (encodes_entry zlib_stored)
                         [(U "Type", VStr (U "/Page")); (U "Count", VInt 3)]
                         [(B "Type", B "/Page"); (B "Count", B "3")]).
  { repeat constructor. }
  split; [exact Henc|].
  exact (proj1 (C7_Dictionary_data zlib_stored) _ _ Henc).
Defined.

Lemma C9_witness :
  exists out w' before rows after,
    write zlib_stored [] empty_document = (Ok out, w')
    /\ out = [] ++ before ++ B "xref" ++ [nl] ++ B "0 " ++ dec_of_Z 4 ++ [nl]
               ++ concat (map (fun r => r ++ [nl]) rows)
               ++ B "trailer" ++ [nl] ++ after
    /\ length rows = 4%nat.
Proof.
  set (r := write zlib_stored [] empty_document).
  assert (Hrun : r = (Ok (returned r.1), r.2)) by (vm_compute; reflexivity).
  destruct (C9_xref_table zlib_stored empty_document [] _ _ Hrun)
    as (before & rows & after & Hout & _ & Hrows).
  exists (returned r.1), r.2, before, rows, after.
  split; [exact Hrun|]. split; [exact Hout|].
  symmetry. exact (Forall2_length _ _ _ Hrows).
Defined.

Lemma C10_witness :
  a_store !! stream a_stream = Some (CList [VBytes (B "BT"); VBytes (B "ET")])
  /\ a_store !! extra a_stream = Some (CDict [(U "Foo", VInt 3)])
  /\ (Stream_data zlib_stored a_stream a_store).2 !! 0%nat
     = Some (CList [VBytes (B "BT"); VBytes (B "ET")])
  /\ (Stream_data zlib_stored a_stream a_store).2 !! 1%nat
     = Some (CDict [(U "Foo", VInt 3)])
  /\ (Stream_data zlib_stored a_stream a_store).1
     = data zlib_stored (BStream [VBytes (B "BT"); VBytes (B "ET")]
                                 [(U "Foo", VInt 3)] true)
  /\ (Stream_data zlib_stored a_stream
                  (Stream_data zlib_stored a_stream a_store).2).1
     = (Stream_data zlib_stored a_stream a_store).1.
Proof.
  destruct (C10_Stream_data_frame zlib_stored a_stream a_store
              [VBytes (B "BT"); VBytes (B "ET")] [(U "Foo", VInt 3)]
              eq_refl eq_refl)
    as (_ & Hstream & Hextra & Hdata & Hagain).
  split; [reflexivity|]. split; [reflexivity|].
  split; [exact Hstream|]. split; [exact Hextra|].
  split; [exact Hdata | exact Hagain].
Defined.

(** ** The further properties at concrete inputs *)

Lemma Array_data_shape_witness :
  data zlib_stored (BArray [VInt 1; VFloat float_2_5; VStr (U "R")])
  = Ok (B "[ 1 2.500000 R ]")
  /\ data zlib_stored (BArray []) = Ok (B "[ ]").
Proof.
  split.
  - exact (Array_data_shape zlib_stored [VInt 1; VFloat float_2_5; VStr (U "R")]
             [B "1"; B "2.500000"; B "R"]
             ltac:(repeat constructor)).
  - exact (Array_data_shape zlib_stored [] [] ltac:(constructor)).
Defined.

Lemma container_first_error_witness :
  data zlib_stored (BArray [VInt 1; VObj Object_init BObject; VInt 2])
  = Raise NotImplementedError
  /\ data zlib_stored (BDictionary [(U "A", VInt 1); (U "B", VObj Object_init BObject)])
     = Raise NotImplementedError.
Proof.
  destruct (container_first_error zlib_stored (VObj Object_init BObject)
              NotImplementedError eq_refl) as [Hseq Hdict].
  split.
  - exact (proj1 (Hseq [VInt 1] [VInt 2] [B "1"] eq_refl)).
  - exact (Hdict [(U "A", VInt 1)] [(B "A", B "1")] (U "B") (B "B") []
             ltac:(repeat constructor) eq_refl).
Defined.

Lemma write_object_writes_data_witness :
  data zlib_stored (BDictionary []) = Ok (B "<<" ++ [nl] ++ B ">>")
  /\ write_object zlib_stored (BDictionary []) [] empty_document
     = (Ok (B "<<" ++ [nl] ++ B ">>" ++ [nl]), advanced 6 empty_document).
Proof.
  split; [reflexivity|].
  exact (proj1 (write_object_writes_data zlib_stored (BDictionary [])
                  (B "<<" ++ [nl] ++ B ">>") [] empty_document eq_refl)).
Defined.

Lemma write_body_in_use_objects_witness :
  exists out w' forms rest,
    write zlib_stored [] empty_document = (Ok out, w')
    /\ List.filter (in_use (heap empty_document)) (objects (pdf empty_document))
       = [1; 2; 3]%nat
    /\ length forms = 3%nat
    /\ out = [] ++ header_bytes ++ concat (map (fun c => c ++ [nl]) forms)
               ++ B "xref" ++ [nl] ++ rest.
Proof.
  set (r := write zlib_stored [] empty_document).
  assert (Hrun : r = (Ok (returned r.1), r.2)) by (vm_compute; reflexivity).
  destruct (write_body_in_use_objects zlib_stored [] empty_document _ _ Hrun)
    as (forms & rest & Hforms & Hout).
  exists (returned r.1), r.2, forms, rest.
  split; [exact Hrun|]. split; [reflexivity|]. split; [|exact Hout].
  apply Forall2_length in Hforms.
  etransitivity; [symmetry; exact Hforms | reflexivity].
Defined.

Lemma startxref_points_at_table_witness :
  current_position (pdf empty_document) = 0
  /\ exists out w' (head : bytes),
       write zlib_stored [] empty_document = (Ok out, w')
       /\ xref_position (pdf w') = Some (len head)
       /\ read_dec (dec_of_Z (len head)) = len head.
Proof.
  split; [reflexivity|].
  set (r := write zlib_stored [] empty_document).
  assert (Hrun : r = (Ok (returned r.1), r.2)) by (vm_compute; reflexivity).
  destruct (startxref_points_at_table zlib_stored empty_document _ _ eq_refl Hrun)
    as (head & table & c & i & _ & _ & _ & Hx & Hread).
  exists (returned r.1), r.2, head. auto.
Defined.

Lemma write_raises_first_failure_witness :
  objects (pdf (document_of plain_object)) = [0; 1; 2; 3]%nat ++ 4%nat :: []
  /\ heap (document_of plain_object) !! 4%nat = Some (set_number 4 plain_object)
  /\ exists w', write zlib_stored [] (document_of plain_object)
                = (Raise NotImplementedError, w').
Proof.
  split; [reflexivity|]. split; [reflexivity|].
  assert (Henc : encodable zlib_stored (document_of plain_object) [0; 1; 2; 3]%nat).
  { intros l Hin.
    repeat (apply elem_of_cons in Hin as [->|Hin]);
      try (eexists; split; [vm_compute; reflexivity|]; intros Hfree;
           first [discriminate Hfree | eexists; vm_compute; reflexivity]).
    apply elem_of_nil in Hin. destruct Hin. }
  destruct (write_raises_first_failure zlib_stored [] (document_of plain_object)
              [0; 1; 2; 3]%nat 4%nat [] (set_number 4 plain_object)
              NotImplementedError eq_refl Henc eq_refl eq_refl eq_refl)
    as ((w' & Hrun & _) & _).
  exists w'. exact Hrun.
Defined.

Lemma write_keeps_document_witness :
  exists out w' out2 w2,
    write zlib_stored [] empty_document = (Ok out, w')
    /\ objects (pdf w') = objects (pdf empty_document)
    /\ write zlib_stored [] w' = (Ok out2, w2).
Proof.
  set (r := write zlib_stored [] empty_document).
  assert (Hrun : r = (Ok (returned r.1), r.2)) by (vm_compute; reflexivity).
  destruct (write_keeps_document zlib_stored [] empty_document _ _ Hrun)
    as (Hobjs & _ & _ & _ & _ & _ & Hagain).
  destruct (Hagain []) as (out2 & w2 & Hrun2).
  exists (returned r.1), r.2, out2, w2. auto.
Defined.

Lemma add_pages_run_witness :
  exists w' items',
    add_pages [4; 5]%nat two_pages_made = (Ok tt, w')
    /\ objects (pdf w') = [0; 1; 2; 3; 4; 5]%nat
    /\ dict_get items' (U "Count") = Some (VInt 2)
    /\ dict_get items' (U "Kids")
       = Some (VObj Object_init
                    (BArray [VInt 4; VInt 0; VStr (U "R");
                             VInt 5; VInt 0; VStr (U "R")])).
Proof.
  destruct (add_pages_run [4; 5]%nat two_pages_made
              {| number := Some 1; offset := 0; generation := 0; free := InUse |}
              [(U "Type", VStr (U "/Pages"));
               (U "Kids", VObj Object_init (BArray []));
               (U "Count", VInt 0)]
              0 Object_init [] eq_refl eq_refl eq_refl)
    as (w' & items' & Hrun & Hobjs & _ & Hc & Hk & _).
  { repeat (constructor; [split; [vm_compute; discriminate
                                 | eexists; vm_compute; reflexivity]|]).
    constructor. }
  exists w', items'. auto.
Defined.

Lemma add_page_missing_entry_witness :
  add_page 1%nat (document_with_tree []) = (Raise KeyError, document_with_tree [])
  /\ exists w',
       add_page 1%nat (document_with_tree [(U "Count", VInt 0)]) = (Raise KeyError, w')
       /\ objects (pdf w') = [1%nat]
       /\ heap w' !! 0%nat
          = Some {| hdr := Object_init; bdy := BDictionary [(U "Count", VInt 1)] |}.
Proof.
  split.
  - exact (proj1 (add_page_missing_entry (document_with_tree []) 1%nat
                    Object_init [] eq_refl) eq_refl).
  - destruct (proj2 (add_page_missing_entry (document_with_tree [(U "Count", VInt 0)])
                       1%nat Object_init [(U "Count", VInt 0)] eq_refl)
                0 a_page ltac:(discriminate) eq_refl eq_refl eq_refl)
      as (w' & Hrun & Hobjs & _ & Htree).
    exists w'. auto.
Defined.

Lemma add_object_twice_witness :
  exists w2,
    (let! _ := add_object 1%nat in add_object 1%nat) empty_document = (Ok tt, w2)
    /\ objects (pdf w2) = [0; 1; 2; 3; 1; 1]%nat
    /\ number_at w2 1%nat = Some 5
    /\ ~ numbered w2.
Proof.
  destruct (add_object_twice empty_document 1%nat _ eq_refl)
    as (w2 & Hrun & Hobjs & Hnum & _ & Hnot).
  exists w2. auto.
Defined.

Lemma reference_injective_witness :
  reference {| number := Some 4; offset := 0; generation := 1; free := InUse |}
  = reference {| number := Some 4; offset := 138; generation := 1; free := IsFree |}
  /\ number {| number := Some 4; offset := 0; generation := 1; free := InUse |}
     = number {| number := Some 4; offset := 138; generation := 1; free := IsFree |}
  /\ numbered empty_document
  /\ B "1 0 R" <> B "2 0 R".
Proof.
  split; [reflexivity|].
  destruct reference_injective as [Hinj Hdistinct].
  split; [exact (proj1 (Hinj _ _ eq_refl))|].
  split; [exact (numbered_fresh_document [])|].
  intros Heq.
  pose proof (Hdistinct empty_document 1%nat 2%nat 1%nat 2%nat _ _
                (numbered_fresh_document []) eq_refl eq_refl eq_refl eq_refl Heq)
    as Hsame.
  discriminate Hsame.
Defined.

Lemma xref_row_round_trip_witness :
  xref_row {| number := Some 1; offset := 15; generation := 0; free := InUse |}
  = B "0000000015 00000 n "
  /\ parse_xref_row (B "0000000015 00000 n ") = Some (15, 0, InUse).
Proof.
  split; [reflexivity|].
  exact (xref_row_round_trip
           {| number := Some 1; offset := 15; generation := 0; free := InUse |}
           ltac:(cbn; lia) ltac:(cbn; lia)).
Defined.

Lemma hex_string_round_trip_witness :
  exists out, String_data [233%N] = Ok out /\ read_hex_string out = Some [233%N].
Proof.
  exact (hex_string_round_trip [233%N] eq_refl eq_refl
           ltac:(constructor; [lia | constructor])).
Defined.

Lemma float_encoding_accuracy_witness :
  float_is_integer float_1e_7 = false
  /\ to_bytes zlib_stored (VFloat float_1e_7) = Ok (B "0.000000").
Proof.
  split; [reflexivity|].
  destruct (float_encoding_accuracy zlib_stored false 7555786372591432%positive (-76)
              eq_refl) as (ip & fp & Henc & _ & _ & _ & Hsmall).
  destruct (Hsmall eq_refl) as [Hip Hfp]. rewrite Hip, Hfp in Henc. exact Henc.
Defined.

Lemma Stream_call_then_data_witness :
  (exists s',
     Stream_call zlib_stored a_stream (move_to (VInt 10) (VFloat float_2_5)) a_store
     = (Ok tt, s')
     /\ s' !! 0%nat
        = Some (CList [VBytes (B "BT"); VBytes (B "ET"); VBytes (B "10 2.500000 m")]))
  /\ Stream_call zlib_stored a_stream (line_to (VStr [233%N]) (VInt 1)) a_store
     = (Raise UnicodeEncodeError, a_store).
Proof.
  split.
  - destruct (proj1 (Stream_call_then_data zlib_stored a_stream
                       (move_to (VInt 10) (VFloat float_2_5)) a_store _ eq_refl)
                _ eq_refl) as (s' & Hrun & Hs' & _).
    exists s'. split; [exact Hrun | exact Hs'].
  - exact (proj2 (Stream_call_then_data zlib_stored a_stream
                    (line_to (VStr [233%N]) (VInt 1)) a_store _ eq_refl)
             _ eq_refl).
Defined.

Lemma builder_calls_are_lines_witness :
  exists tokens,
    mapM (operator_token zlib_stored)
         [begin_text; set_font_size (VStr (U "F1")) (VInt 12);
          show_text (VBytes (B "(Hi)")); end_text]
    = Ok tokens
    /\ split_lines (join [nl] tokens) = tokens.
Proof.
  destruct (builder_calls_are_lines zlib_stored
              [begin_text; set_font_size (VStr (U "F1")) (VInt 12);
               show_text (VBytes (B "(Hi)")); end_text]
              eq_refl ltac:(discriminate))
    as (tokens & Htokens & _ & _ & _ & Hlines).
  exists tokens. auto.
Defined.

Lemma Stream_data_replaces_Length_witness :
  data zlib_stored (BStream [VBytes (B "BT")]
                            [(U "Foo", VInt 3); (U "Length", VObj Object_init BObject)]
                            false)
  = Ok (B "<<" ++ [nl] ++ B "/Foo 3" ++ [nl] ++ B "/Length 2" ++ [nl] ++ B ">>" ++ [nl]
          ++ B "stream" ++ [nl] ++ B "BT" ++ [nl] ++ B "endstream").
Proof.
  destruct (Stream_data_replaces_Length zlib_stored [VBytes (B "BT")] [B "BT"]
              [(U "Foo", VInt 3)] (VObj Object_init BObject) [] eq_refl eq_refl)
    as [Hplain _].
  exact Hplain.
Defined.

Lemma document_with_pages_writes_witness :
  exists w out w',
    (let! _ := PDF_init in add_pages [0%nat]) {| heap := [a_page]; pdf := pdf empty_world |}
    = (Ok tt, w)
    /\ objects (pdf w) = [1; 2; 3; 4; 0]%nat
    /\ write zlib_stored [] w = (Ok out, w').
Proof.
  exact (document_with_pages_writes zlib_stored [a_page] (pdf empty_world) [0%nat] []
           ltac:(constructor; [exists a_page; split; [reflexivity | eexists; reflexivity]
                              | constructor])).
Defined.
